(** * LDES-timeseries: the MongoDB time-series ingestor

    A shallow embedding of [src/MongoDBIngestor.ts]: the classes
    [MongoDBIngestor] and [TSMongoDBIngestor], the three MongoDB
    collections they write to, and the bucketing algorithm of [append].

    Modelling conventions.
    - A MongoDB collection is the list of its documents in insertion order.
      [insertOne] adds at the end, [findOne] and [updateOne] act on the first
      document that satisfies the filter, [find] keeps the documents that
      satisfy it.  No unique index is declared by the source, so [insertOne]
      never rejects a document.
    - The meta, data and index collections are three different collections
      (their default names are "meta", "data" and "index").
    - An [async] method is a function from the state (the fields of [this]
      and the database) to a result and the state it leaves.  A thrown
      [Error] keeps every write made before it: nothing is rolled back.
    - A JavaScript [Date] is its time value in milliseconds, or [None] for
      an Invalid Date.
    - What the source imports from other packages (the date extractor, the
      quad serialiser, the ISO rendering and parsing of dates) is a field of
      the class [Platform]; theorems hold for every platform. *)

From Stdlib Require Import ZArith List String Ascii Bool Lia DecimalString DecimalPos
  RelationClasses.
Import ListNotations.

Local Open Scope string_scope.
Local Open Scope list_scope.
Local Open Scope Z_scope.

(** ** Data model *)

(** The comparison kinds of [RelationType] (package [@treecg/types]). *)
Inductive RelationType : Type :=
| GreaterThan
| GreaterThanOrEqualTo
| LessThan
| LessThanOrEqualTo
| EqualThan.

(** [IRelation] of [AbstractIngestor], as the object literals of
    [addWindowToRoot] and [append] build it. *)
Module IRelation.
Record t : Type := mk {
  type : RelationType;
  value : string;
  path : string;
  bucket : string
}.
End IRelation.

(** A document of the index collection: a [MongoFragment] as [createBucket]
    writes it, with the [start] and [end] strings that [createWindow] and
    [updateWindow] add through [$set]. *)
Module MongoFragment.
Record t : Type := mk {
  id : string;
  streamId : string;
  leaf : bool;
  relations : list IRelation.t;
  count : Z;
  members : list string;
  start : option string;
  end_ : option string
}.
End MongoFragment.

(** A document of the meta collection, as [initialise] writes it. *)
Module MetaDocument.
Record t : Type := mk {
  id : string;
  value : string;
  type : string
}.
End MetaDocument.

(** A document of the data collection, as [storeMembers] writes it. *)
Module DataElement.
Record t : Type := mk {
  id : string;
  data : string;
  timestamp : option string
}.
End DataElement.

(** An RDF quad, every term by its value. *)
Module Quad.
Record t : Type := mk {
  subject : string;
  predicate : string;
  object : string;
  graph : string
}.
End Quad.

(** [Member] of [@treecg/types]; [id] is [member.id.value]. *)
Module Member.
Record t : Type := mk {
  id : string;
  quads : list Quad.t
}.
End Member.

(** A JavaScript [Date]: [Some t] has time value [t] (milliseconds since the
    epoch), [None] is an Invalid Date. *)
Definition Date : Type := option Z.

(** [Window] of [AbstractIngestor]: every field but the identifier is
    optional. *)
Module Window.
Record t : Type := mk {
  identifier : string;
  memberIdentifiers : option (list string);
  start : option Date;
  end_ : option Date
}.
End Window.

(** A JavaScript number as the page size uses it. *)
Inductive Number : Type :=
| Finite (z : Z)
| Infinity.

(** [a > b] on numbers, for a finite [a]. *)
Definition gt (a : Z) (b : Number) : bool :=
  match b with
  | Finite z => z <? a
  | Infinity => false
  end.

(** ** Errors *)

(** The [Error]s the two classes throw, one constructor per [throw] of the
    source, [RangeError] for [toISOString] on an Invalid Date, and
    [ExtractDateError] for whatever [extractDate] throws. *)
Inductive Error : Type :=
| NotConnected (collection : string)
| NoSdsMetadata
| TimestampPathNotConfigured
| NoBucketsPresent
| WindowNotFound (identifier : string)
| NoStartDate (identifier : string)
| RangeError
| ExtractDateError (message : string).

Inductive Result (A : Type) : Type :=
| Ok (a : A)
| Throw (e : Error).
Arguments Ok {A} a.
Arguments Throw {A} e.

(** The error taxonomy of the specification, section 7, and the class each
    error of the source falls in. *)
Inductive ErrorClass : Type :=
| ConfigurationError
| NotFoundError
| InvalidWindowError
| ExtractionError
| StoreError
| Unclassified.

Definition error_class (e : Error) : ErrorClass :=
  match e with
  | NotConnected _ => StoreError
  | NoSdsMetadata => ConfigurationError
  | TimestampPathNotConfigured => ConfigurationError
  | NoBucketsPresent => NotFoundError
  | WindowNotFound _ => NotFoundError
  | NoStartDate _ => InvalidWindowError
  | RangeError => Unclassified
  | ExtractDateError _ => ExtractionError
  end.

(** ** The platform *)

Class Platform : Type := {
  (** [quadsToString] of [./Util]. *)
  quadsToString : list Quad.t -> string;
  (** [extractDate] of [@treecg/ldes-snapshot], on the quads of the store. *)
  extractDate : list Quad.t -> string -> Result Date;
  (** [Date.prototype.toISOString] on a valid time value. *)
  toISOString : Z -> string;
  (** [new Date(s)] for a string [s]. *)
  Date_parse : string -> Date
}.

(** ** MongoDB collections *)

Section Collection.
Context {D : Type}.

Definition findOne (filter : D -> bool) (c : list D) : option D * list D :=
  (List.find filter c, c).

Definition insertOne (d : D) (c : list D) : unit * list D :=
  (tt, c ++ [d]).

Definition insertMany (ds : list D) (c : list D) : unit * list D :=
  (tt, c ++ ds).

(** The update of the first document that satisfies the filter. *)
Fixpoint update_first (filter : D -> bool) (update : D -> D) (c : list D) : list D :=
  match c with
  | [] => []
  | d :: c' => if filter d then update d :: c' else d :: update_first filter update c'
  end.

Definition updateOne (filter : D -> bool) (update : D -> D) (c : list D) : unit * list D :=
  (tt, update_first filter update c).

End Collection.

(** The order of MongoDB on the [start] field: a document without the field
    sorts before every string, strings compare byte by byte. *)
Definition start_leb (a b : option string) : bool :=
  match a, b with
  | None, _ => true
  | Some _, None => false
  | Some x, Some y => String.leb x y
  end.

(** [cursor.sort({ "start": -1 })]: largest [start] first.  MongoDB leaves the
    order of documents with equal [start] open; the sort here is stable,
    and no theorem below relies on which of them comes first. *)
Fixpoint insert_desc (d : MongoFragment.t) (l : list MongoFragment.t) : list MongoFragment.t :=
  match l with
  | [] => [d]
  | h :: t =>
      if start_leb (MongoFragment.start h) (MongoFragment.start d)
      then d :: h :: t
      else h :: insert_desc d t
  end.

Fixpoint sort_start_desc (l : list MongoFragment.t) : list MongoFragment.t :=
  match l with
  | [] => []
  | d :: l' => insert_desc d (sort_start_desc l')
  end.

Definition limit {D : Type} (n : nat) (l : list D) : list D := firstn n l.

Definition next {D : Type} (l : list D) : option D := hd_error l.

(** The [$push] and [$set] updates the source sends. *)
Definition push_members (memberIDs : list string) (d : MongoFragment.t) : MongoFragment.t :=
  MongoFragment.mk (MongoFragment.id d) (MongoFragment.streamId d) (MongoFragment.leaf d)
    (MongoFragment.relations d) (MongoFragment.count d)
    (MongoFragment.members d ++ memberIDs)
    (MongoFragment.start d) (MongoFragment.end_ d).

Definition push_relations (rels : list IRelation.t) (d : MongoFragment.t) : MongoFragment.t :=
  MongoFragment.mk (MongoFragment.id d) (MongoFragment.streamId d) (MongoFragment.leaf d)
    (MongoFragment.relations d ++ rels) (MongoFragment.count d)
    (MongoFragment.members d)
    (MongoFragment.start d) (MongoFragment.end_ d).

(** [$set] of [windowParams]: the fields that are present overwrite the
    document's; with no field present the update changes nothing. *)
Definition set_window (start end_ : option string) (d : MongoFragment.t) : MongoFragment.t :=
  MongoFragment.mk (MongoFragment.id d) (MongoFragment.streamId d) (MongoFragment.leaf d)
    (MongoFragment.relations d) (MongoFragment.count d)
    (MongoFragment.members d)
    (match start with Some s => Some s | None => MongoFragment.start d end)
    (match end_ with Some e => Some e | None => MongoFragment.end_ d end).

(** The filter [{ id, streamId }] on the index collection. *)
Definition bucket_filter (streamId id : string) (d : MongoFragment.t) : bool :=
  (MongoFragment.id d =? id)%string && (MongoFragment.streamId d =? streamId)%string.

Definition stream_filter (streamId : string) (d : MongoFragment.t) : bool :=
  (MongoFragment.streamId d =? streamId)%string.

(** ** State *)

Record Db : Type := mkDb {
  meta : list MetaDocument.t;
  data : list DataElement.t;
  index : list MongoFragment.t
}.

(** The fields of [this]. [mongoConnection] is [true] once connected. *)
Record Ingestor : Type := mkIngestor {
  sdsStreamIdentifier : string;
  mongoConnection : bool;
  _pageSize : option Z;
  _timestampPath : option string;
  _metadata : option string
}.

Record State : Type := mkState {
  this : Ingestor;
  db : Db
}.

(** ** Asynchronous methods *)

Definition Promise (A : Type) : Type := State -> Result A * State.

Definition ret {A : Type} (a : A) : Promise A := fun s => (Ok a, s).

Definition throw {A : Type} (e : Error) : Promise A := fun s => (Throw e, s).

Definition bind {A B : Type} (m : Promise A) (k : A -> Promise B) : Promise B :=
  fun s =>
    match m s with
    | (Ok a, s') => k a s'
    | (Throw e, s') => (Throw e, s')
    end.

Definition lift {A : Type} (r : Result A) : Promise A := fun s => (r, s).

Declare Scope promise_scope.
Delimit Scope promise_scope with promise.
Notation "x <- m ;; k" := (bind m (fun x => k))
  (at level 100, m at next level, right associativity) : promise_scope.
Notation "'await' m ;; k" := (bind m (fun _ => k))
  (at level 100, m at next level, right associativity) : promise_scope.
Local Open Scope promise_scope.

Definition result {A : Type} (m : Promise A) (s : State) : Result A := fst (m s).
Definition after {A : Type} (m : Promise A) (s : State) : State := snd (m s).

Definition get_this : Promise Ingestor := fun s => (Ok (this s), s).

Definition set_this (update : Ingestor -> Ingestor) : Promise unit :=
  fun s => (Ok tt, mkState (update (this s)) (db s)).

(** [find(filter)]: the documents of the collection that satisfy the filter,
    in the order of the collection. *)
Definition find {D : Type} (filter : D -> bool) (c : list D) : list D :=
  List.filter filter c.

(** The getters [dbDataCollection], [dbIndexCollection] and
    [dbMetaCollection], each followed by the one operation the caller runs
    on the collection.  The getter throws when [mongoConnection] is unset. *)
Definition dbDataCollection {A : Type}
    (op : list DataElement.t -> A * list DataElement.t) : Promise A :=
  fun s =>
    if mongoConnection (this s)
    then (Ok (fst (op (data (db s)))),
          mkState (this s) (mkDb (meta (db s)) (snd (op (data (db s)))) (index (db s))))
    else (Throw (NotConnected "data"), s).

Definition dbIndexCollection {A : Type}
    (op : list MongoFragment.t -> A * list MongoFragment.t) : Promise A :=
  fun s =>
    if mongoConnection (this s)
    then (Ok (fst (op (index (db s)))),
          mkState (this s) (mkDb (meta (db s)) (data (db s)) (snd (op (index (db s))))))
    else (Throw (NotConnected "index"), s).

Definition dbMetaCollection {A : Type}
    (op : list MetaDocument.t -> A * list MetaDocument.t) : Promise A :=
  fun s =>
    if mongoConnection (this s)
    then (Ok (fst (op (meta (db s)))),
          mkState (this s) (mkDb (snd (op (meta (db s)))) (data (db s)) (index (db s))))
    else (Throw (NotConnected "meta"), s).

(** ** JavaScript dates *)

(** [date.valueOf() + '']: the time value in decimal, ["NaN"] for an
    Invalid Date. *)
Definition valueOf_string (date : Date) : string :=
  match date with
  | Some t => NilEmpty.string_of_int (Z.to_int t)
  | None => "NaN"
  end.

Section Ingestors.
Context {P : Platform}.

(** [date.toISOString()], which throws a [RangeError] on an Invalid Date. *)
Definition Date_toISOString (date : Date) : Promise string :=
  match date with
  | Some t => ret (toISOString t)
  | None => throw RangeError
  end.

(** [new Date(x)] for a field [x] of a document: [undefined] gives an
    Invalid Date. *)
Definition new_Date (x : option string) : Date :=
  match x with
  | Some s => Date_parse s
  | None => None
  end.

(** ** class MongoDBIngestor *)

Definition SDS_Stream : string := "https://w3id.org/sds#Stream".

(** [new MongoClient(url).connect()] and [mongoConnection.db()]. *)
Definition connect : Promise unit :=
  set_this (fun self =>
    mkIngestor (sdsStreamIdentifier self) true
      (_pageSize self) (_timestampPath self) (_metadata self)).

Definition initialise (sdsMetadata : option string) : Promise unit :=
  await connect ;;
  self <- get_this ;;
  streamExists <- dbMetaCollection
    (findOne (fun d => (MetaDocument.id d =? sdsStreamIdentifier self)%string)) ;;
  match streamExists with
  | Some _ => ret tt
  | None =>
      match sdsMetadata with
      | None => throw NoSdsMetadata
      | Some EmptyString => throw NoSdsMetadata
      | Some value =>
          dbMetaCollection
            (insertOne (MetaDocument.mk (sdsStreamIdentifier self) value SDS_Stream))
      end
  end.

Definition storeMembers (member : list Member.t) : Promise unit :=
  let dataElements :=
    map (fun member =>
           DataElement.mk (Member.id member) (quadsToString (Member.quads member)) None)
        member in
  dbDataCollection (insertMany dataElements).

(** Modelled from the spec: [storeMember] of [AbstractIngestor], which is not
    part of the sources at hand.  The specification has [append] "persist the
    member payload" at this call; the member goes through [storeMembers]. *)
Definition storeMember (member : Member.t) : Promise unit :=
  storeMembers [member].

Definition createBucket (bucketIdentifier : string) : Promise unit :=
  self <- get_this ;;
  let bucket :=
    MongoFragment.mk bucketIdentifier (sdsStreamIdentifier self) true [] 0 [] None None in
  dbIndexCollection (insertOne bucket).

Definition addMemberstoBucket (bucketIdentifier : string) (memberIDs : list string)
    : Promise unit :=
  self <- get_this ;;
  dbIndexCollection
    (updateOne (bucket_filter (sdsStreamIdentifier self) bucketIdentifier)
               (push_members memberIDs)).

Definition addRelationsToBucket (bucketIdentifier : string) (relations : list IRelation.t)
    : Promise unit :=
  self <- get_this ;;
  dbIndexCollection
    (updateOne (bucket_filter (sdsStreamIdentifier self) bucketIdentifier)
               (push_relations relations)).

Definition bucketExists (bucketIdentifier : string) : Promise bool :=
  self <- get_this ;;
  exists_ <- dbIndexCollection
    (findOne (bucket_filter (sdsStreamIdentifier self) bucketIdentifier)) ;;
  match exists_ with
  | Some _ => ret true
  | None => ret false
  end.

(** ** class TSMongoDBIngestor *)

Definition root : string := "".

Definition pageSize : Promise Number :=
  self <- get_this ;;
  match _pageSize self with
  | Some n => ret (Finite n)
  | None => ret Infinity
  end.

(** The getter throws on [undefined] and on the empty string. *)
Definition timestampPath : Promise string :=
  self <- get_this ;;
  match _timestampPath self with
  | None => throw TimestampPathNotConfigured
  | Some EmptyString => throw TimestampPathNotConfigured
  | Some path => ret path
  end.

Definition documentToWindow (document : MongoFragment.t) : Window.t :=
  Window.mk
    (MongoFragment.id document)
    (Some (MongoFragment.members document))
    (Some (new_Date (MongoFragment.start document)))
    (Some (new_Date (MongoFragment.start document))).

Definition getMostRecentWindow : Promise Window.t :=
  self <- get_this ;;
  mostRecentBucket <- dbIndexCollection (fun c =>
    (next (limit 1 (sort_start_desc (find (stream_filter (sdsStreamIdentifier self)) c))), c)) ;;
  match mostRecentBucket with
  | None => throw NoBucketsPresent
  | Some document => ret (documentToWindow document)
  end.

Definition bucketSize (window : Window.t) : Promise Z :=
  self <- get_this ;;
  bucket <- dbIndexCollection
    (findOne (bucket_filter (sdsStreamIdentifier self) (Window.identifier window))) ;;
  match bucket with
  | None => throw (WindowNotFound (Window.identifier window))
  | Some bucket => ret (Z.of_nat (List.length (MongoFragment.members bucket)))
  end.

(** One field of [windowParams]: set when the date is present. *)
Definition windowParam (date : option Date) : Promise (option string) :=
  match date with
  | Some date => iso <- Date_toISOString date ;; ret (Some iso)
  | None => ret None
  end.

Definition createWindow (window : Window.t) : Promise unit :=
  let identifier := Window.identifier window in
  await createBucket identifier ;;
  start <- windowParam (Window.start window) ;;
  end_ <- windowParam (Window.end_ window) ;;
  self <- get_this ;;
  dbIndexCollection
    (updateOne (bucket_filter (sdsStreamIdentifier self) identifier) (set_window start end_)).

Definition updateWindow (window : Window.t) : Promise unit :=
  let identifier := Window.identifier window in
  start <- windowParam (Window.start window) ;;
  end_ <- windowParam (Window.end_ window) ;;
  self <- get_this ;;
  dbIndexCollection
    (updateOne (bucket_filter (sdsStreamIdentifier self) identifier) (set_window start end_)).

Definition addWindowToRoot (window : Window.t) : Promise unit :=
  let identifier := Window.identifier window in
  match Window.start window with
  | None => throw (NoStartDate identifier)
  | Some start =>
      value <- Date_toISOString start ;;
      path <- timestampPath ;;
      addRelationsToBucket root [IRelation.mk GreaterThanOrEqualTo value path identifier]
  end.

Definition instantiate (config : string) : Promise unit :=
  await initialise (Some config) ;;
  await set_this (fun self =>
    mkIngestor (sdsStreamIdentifier self) (mongoConnection self)
      (Some 50) (Some "http://www.w3.org/ns/sosa/resultTime") (Some config)) ;;
  let date := new_Date (Some "2022-08-07T08:08:21Z") in
  rootExists <- bucketExists root ;;
  if rootExists : bool then ret tt
  else
    await createBucket root ;;
    let firstWindow := Window.mk (valueOf_string date) None (Some date) None in
    await createWindow firstWindow ;;
    addWindowToRoot firstWindow.

Definition append (member : Member.t) : Promise unit :=
  currentWindow <- getMostRecentWindow ;;
  bucketSize <- bucketSize currentWindow ;;
  pageSize <- pageSize ;;
  if gt (bucketSize + 1) pageSize then
    path <- timestampPath ;;
    memberDate <- lift (extractDate (Member.quads member) path) ;;
    let newWindow := Window.mk (valueOf_string memberDate) None (Some memberDate) None in
    await createWindow newWindow ;;
    await addWindowToRoot newWindow ;;
    let currentWindow :=
      Window.mk (Window.identifier currentWindow) (Window.memberIdentifiers currentWindow)
        (Window.start currentWindow) (Some memberDate) in
    await updateWindow currentWindow ;;
    value <- Date_toISOString memberDate ;;
    path <- timestampPath ;;
    addRelationsToBucket root
      [IRelation.mk LessThan value path (Window.identifier currentWindow)]
  else
    await storeMember member ;;
    addMemberstoBucket (Window.identifier currentWindow) [Member.id member].

Fixpoint publish (members : list Member.t) : Promise unit :=
  match members with
  | [] => ret tt
  | member :: members => await append member ;; publish members
  end.

End Ingestors.

(** ** A platform to run the model on

    The theorems below hold for every [Platform].  Concrete runs use this
    one: ECMAScript's date-time rendering and the matching parser, and an
    extractor that expects exactly one object under the timestamp path. *)
Module JS.
Local Open Scope string_scope.
Local Open Scope Z_scope.

(** The civil date of a day number (days since 1970-01-01), proleptic
    Gregorian calendar. *)
Definition civil_from_days (days : Z) : Z * Z * Z :=
  let z := days + 719468 in
  let era := z / 146097 in
  let doe := z - era * 146097 in
  let yoe := (doe - doe / 1460 + doe / 36524 - doe / 146096) / 365 in
  let doy := doe - (365 * yoe + yoe / 4 - yoe / 100) in
  let mp := (5 * doy + 2) / 153 in
  let d := doy - (153 * mp + 2) / 5 + 1 in
  let m := if mp <? 10 then mp + 3 else mp - 9 in
  let y := yoe + era * 400 in
  (if m <=? 2 then y + 1 else y, m, d).

Definition days_from_civil (y m d : Z) : Z :=
  let y := if m <=? 2 then y - 1 else y in
  let era := y / 400 in
  let yoe := y - era * 400 in
  let doy := (153 * (if 2 <? m then m - 3 else m + 9) + 2) / 5 + d - 1 in
  let doe := yoe * 365 + yoe / 4 - yoe / 100 + doy in
  era * 146097 + doe - 719468.

(** The last [w] decimal digits of [n]. *)
Fixpoint digits (w : nat) (n : Z) : string :=
  match w with
  | O => ""
  | S w' => digits w' (n / 10) ++ String (ascii_of_N (48 + Z.to_N (n mod 10))) ""
  end.

Definition toISOString (t : Z) : string :=
  let '(y, m, d) := civil_from_days (t / 86400000) in
  let ms := t mod 86400000 in
  let year :=
    if (0 <=? y) && (y <=? 9999) then digits 4 y
    else (if y <? 0 then "-" else "+") ++ digits 6 (Z.abs y) in
  year ++ "-" ++ digits 2 m ++ "-" ++ digits 2 d ++ "T"
    ++ digits 2 (ms / 3600000) ++ ":" ++ digits 2 (ms / 60000 mod 60) ++ ":"
    ++ digits 2 (ms / 1000 mod 60) ++ "." ++ digits 3 (ms mod 1000) ++ "Z".

Definition digit (c : ascii) : option Z :=
  let n := Z.of_N (N_of_ascii c) in
  if (48 <=? n) && (n <=? 57) then Some (n - 48) else None.

(** The number a string of [w] digits writes, and the rest of the input. *)
Fixpoint number (w : nat) (acc : Z) (s : string) : option (Z * string) :=
  match w with
  | O => Some (acc, s)
  | S w' =>
      match s with
      | String c s' =>
          match digit c with
          | Some n => number w' (10 * acc + n) s'
          | None => None
          end
      | EmptyString => None
      end
  end.

Definition expect (c : ascii) (s : string) : option string :=
  match s with
  | String c' s' => if Ascii.eqb c c' then Some s' else None
  | EmptyString => None
  end.

Definition option_bind {A B : Type} (o : option A) (k : A -> option B) : option B :=
  match o with
  | Some a => k a
  | None => None
  end.

(** [YYYY-MM-DDTHH:mm:ssZ] and [YYYY-MM-DDTHH:mm:ss.sssZ]; any other string
    is an Invalid Date here. *)
Definition Date_parse (s : string) : Date :=
  option_bind (number 4 0 s) (fun '(y, s) =>
  option_bind (expect "-" s) (fun s =>
  option_bind (number 2 0 s) (fun '(m, s) =>
  option_bind (expect "-" s) (fun s =>
  option_bind (number 2 0 s) (fun '(d, s) =>
  option_bind (expect "T" s) (fun s =>
  option_bind (number 2 0 s) (fun '(h, s) =>
  option_bind (expect ":" s) (fun s =>
  option_bind (number 2 0 s) (fun '(mi, s) =>
  option_bind (expect ":" s) (fun s =>
  option_bind (number 2 0 s) (fun '(sec, s) =>
  let valid :=
    (1 <=? m) && (m <=? 12) && (1 <=? d) && (d <=? 31)
    && (h <=? 23) && (mi <=? 59) && (sec <=? 59) in
  let time ms :=
    ((((days_from_civil y m d * 24 + h) * 60 + mi) * 60 + sec) * 1000 + ms) in
  if negb valid then None
  else
    match s with
    | "Z" => Some (time 0)
    | String "." s =>
        option_bind (number 3 0 s) (fun '(ms, s) =>
        match s with
        | "Z" => Some (time ms)
        | _ => None
        end)
    | _ => None
    end))))))))))).

Definition quadsToString (quads : list Quad.t) : string :=
  String.concat ""
    (map (fun q =>
            Quad.subject q ++ " " ++ Quad.predicate q ++ " " ++ Quad.object q ++ " "
              ++ Quad.graph q ++ " .")%string
         quads).

(** Exactly one object under the path, read as a date. *)
Definition extractDate (quads : list Quad.t) (path : string) : Result Date :=
  match List.filter (fun q => (Quad.predicate q =? path)%string) quads with
  | [q] => Ok (Date_parse (Quad.object q))
  | _ => Throw (ExtractDateError "Expected one dateTime literal.")
  end.

Definition platform : Platform :=
  Build_Platform quadsToString extractDate toISOString Date_parse.

End JS.

(** ** Observations on a state *)

Definition stream (s : State) : string := sdsStreamIdentifier (this s).

(** The buckets of the stream, in the order of the index collection. *)
Definition buckets (s : State) : list MongoFragment.t :=
  find (stream_filter (stream s)) (index (db s)).

(** The bucket the store answers with for an identifier: the first document
    of the stream that carries it. *)
Definition the_bucket (s : State) (identifier : string) : option MongoFragment.t :=
  List.find (bucket_filter (stream s) identifier) (index (db s)).

(** The state with another index collection, and with another data
    collection. *)
Definition with_index (s : State) (c : list MongoFragment.t) : State :=
  mkState (this s) (mkDb (meta (db s)) (data (db s)) c).

Definition with_data (s : State) (c : list DataElement.t) : State :=
  mkState (this s) (mkDb (meta (db s)) c (index (db s))).

(** What a bucket holds: its identity and its members list. *)
Definition holding (b : MongoFragment.t) : string * string * list string :=
  (MongoFragment.id b, MongoFragment.streamId b, MongoFragment.members b).

(** A relation between the state before and the state after that a method
    maintains, whatever it returns or throws. *)
Definition preserves {A : Type} (R : State -> State -> Prop) (m : Promise A) : Prop :=
  forall s, R s (after m s).

(** The frame of the writes that create, close and link windows: [this], the
    meta and data collections and what every bucket holds stay as they were,
    and the buckets created hold no member. *)
Definition frame (s s' : State) : Prop :=
  this s' = this s
  /\ meta (db s') = meta (db s)
  /\ data (db s') = data (db s)
  /\ exists created,
       map holding (index (db s')) = map holding (index (db s)) ++ map holding created
       /\ Forall (fun b => MongoFragment.members b = []) created.

(** No bucket of the stream holds more than [pageSize] members. *)
Definition within_pageSize (pageSize : Z) (s : State) : Prop :=
  forall b, In b (buckets s) ->
    Z.of_nat (List.length (MongoFragment.members b)) <= pageSize.

(** The state [instantiate] has reached when it turns to the buckets:
    connected, with the page size, the timestamp path and the metadata set. *)
Definition configured (s : State) (config : string) : State :=
  mkState
    (mkIngestor (stream s) true (Some 50)
       (Some "http://www.w3.org/ns/sosa/resultTime") (Some config))
    (db s).


(** ** Further observations *)

(** The state once [initialise] has connected. *)
Definition connected (s : State) : State :=
  mkState
    (mkIngestor (stream s) true (_pageSize (this s)) (_timestampPath (this s))
       (_metadata (this s)))
    (db s).

(** The state with another meta collection. *)
Definition with_meta (s : State) (c : list MetaDocument.t) : State :=
  mkState (this s) (mkDb c (data (db s)) (index (db s))).

(** The document [storeMembers] writes for a member. *)
Definition dataElement {P : Platform} (member : Member.t) : DataElement.t :=
  DataElement.mk (Member.id member) (quadsToString (Member.quads member)) None.

(** The bucket [createBucket] inserts. *)
Definition empty_bucket (s : State) (identifier : string) : MongoFragment.t :=
  MongoFragment.mk identifier (stream s) true [] 0 [] None None.

(** The field of [windowParams] for a date of a window: the ISO string of a
    valid date, nothing for an absent one. *)
Definition windowField {P : Platform} (date : option Date) : option string :=
  match date with
  | Some (Some t) => Some (toISOString t)
  | _ => None
  end.

(** The date is absent or valid: [toISOString] does not throw on it. *)
Definition renders (date : option Date) : Prop := date <> Some None.

(** Two documents the cursor of [getMostRecentWindow] does not tell apart:
    the same identifier, stream and start. *)
Definition same_place (b b' : MongoFragment.t) : Prop :=
  MongoFragment.id b' = MongoFragment.id b
  /\ MongoFragment.streamId b' = MongoFragment.streamId b
  /\ MongoFragment.start b' = MongoFragment.start b.

(** There is room for [k] more members in a bucket that holds [n]: with no
    page size set there always is. *)
Definition room (s : State) (n : Z) (k : nat) : Prop :=
  match _pageSize (this s) with
  | Some pageSize => n + Z.of_nat k <= pageSize
  | None => True
  end.

(** A bucket that only grew: the same identity, members and relations pushed
    at the end of those it had, and a start and an end if it had them. *)
Definition bucket_grows (b b' : MongoFragment.t) : Prop :=
  MongoFragment.id b' = MongoFragment.id b
  /\ MongoFragment.streamId b' = MongoFragment.streamId b
  /\ MongoFragment.leaf b' = MongoFragment.leaf b
  /\ MongoFragment.count b' = MongoFragment.count b
  /\ (exists pushed, MongoFragment.members b' = MongoFragment.members b ++ pushed)
  /\ (exists pushed, MongoFragment.relations b' = MongoFragment.relations b ++ pushed)
  /\ (MongoFragment.start b <> None -> MongoFragment.start b' <> None)
  /\ (MongoFragment.end_ b <> None -> MongoFragment.end_ b' <> None).

(** A state that only grew: [this] and the meta collection as they were,
    data documents added at the end, every bucket in its place and grown,
    buckets created after them. *)
Definition grows (s s' : State) : Prop :=
  this s' = this s
  /\ meta (db s') = meta (db s)
  /\ (exists added, data (db s') = data (db s) ++ added)
  /\ exists kept created,
       index (db s') = kept ++ created
       /\ Forall2 bucket_grows (index (db s)) kept.

(** The root of the stream is bare: a bucket under the root identifier holds
    no member and has no start and no end. *)
Definition root_bare (s : State) : Prop :=
  forall b, In b (buckets s) ->
    MongoFragment.id b = root ->
    MongoFragment.members b = []
    /\ MongoFragment.start b = None
    /\ MongoFragment.end_ b = None.

(** Some bucket of the stream has a start. *)
Definition started (s : State) : Prop :=
  exists b, In b (buckets s) /\ MongoFragment.start b <> None.

(** A write that leaves the stream its identifier and a bare root bare. *)
Definition root_stays_bare (s s' : State) : Prop :=
  stream s' = stream s /\ (root_bare s -> root_bare s').

(** The errors [publish] ends with: those of the reads and writes of
    [append], or the one [extractDate] throws on a member of the batch. *)
Definition publish_error {P : Platform} (s : State) (members : list Member.t)
    (e : Error) : Prop :=
  e = NotConnected "index"
  \/ e = NoBucketsPresent
  \/ e = TimestampPathNotConfigured
  \/ e = RangeError
  \/ exists member path,
       In member members
       /\ result timestampPath s = Ok path
       /\ extractDate (Member.quads member) path = Throw e.

(** ** A stream to run *)

Module Scenario.

(** An ingestor that was never connected, on an empty database. *)
Definition fresh : State :=
  mkState (mkIngestor "stream" false None None None) (mkDb [] [] []).

(** After [instantiate("metadata")]: the root and the first window. *)
Definition bootstrapped : State :=
  Eval vm_compute in after (instantiate (P := JS.platform) "metadata") fresh.

(** An observation with one result time. *)
Definition observation (name resultTime : string) : Member.t :=
  Member.mk name
    [Quad.mk name "http://www.w3.org/ns/sosa/resultTime" resultTime ""].

Definition observations (n : nat) (resultTime : string) : list Member.t :=
  map (fun i => observation ("m" ++ NilEmpty.string_of_uint (Nat.to_uint i))%string resultTime)
      (seq 0 n).

(** After fifty members: the first window is full. *)
Definition full : State :=
  Eval vm_compute in
    after (publish (P := JS.platform) (observations 50 "2022-08-08T00:00:00.000Z"))
      bootstrapped.

(** The window [getMostRecentWindow] answers with on the full stream. *)
Definition current : Window.t :=
  Eval vm_compute in
    documentToWindow (P := JS.platform)
      (MongoFragment.mk "1659859701000" "stream" true [] 0
         (map Member.id (observations 50 "2022-08-08T00:00:00.000Z"))
         (Some "2022-08-07T08:08:21.000Z") None).

(** A member one day later, one at the very start of the first window, and
    one without a result time. *)
Definition later : Member.t := observation "later" "2022-08-09T00:00:00.000Z".
Definition same_instant : Member.t := observation "same" "2022-08-07T08:08:21.000Z".
Definition undated : Member.t := Member.mk "undated" [].

(** The full stream after [later], which splits it, and fifty more members
    of the same instant, which fill the second window. *)
Definition burst : State :=
  Eval vm_compute in
    after (publish (P := JS.platform) (later :: observations 50 "2022-08-09T00:00:00.000Z"))
      full.

(** A connected ingestor with a page size of one and no timestamp path, on a
    stream whose only window holds one member. *)
Definition unconfigured : State :=
  mkState (mkIngestor "stream" true (Some 1) None None)
    (mkDb [] []
       [MongoFragment.mk "1659859701000" "stream" true [] 0 ["m0"]
          (Some "2022-08-07T08:08:21.000Z") None]).

(** A member whose result time does not read as a date. *)
Definition garbled : Member.t := observation "garbled" "yesterday".

(** A member dated before the first window of [instantiate] starts. *)
Definition earlier : Member.t := observation "earlier" "2022-08-01T00:00:00.000Z".

(** After forty-nine members: one place left in the first window. *)
Definition almost_full : State :=
  Eval vm_compute in
    after (publish (P := JS.platform) (observations 49 "2022-08-08T00:00:00.000Z"))
      bootstrapped.

End Scenario.

(** * Facts *)

(** ** The platform, on the first window of [instantiate] *)

Example toISOString_first_window :
  JS.toISOString 1659859701000 = "2022-08-07T08:08:21.000Z".
Proof. vm_compute. reflexivity. Qed.

Example Date_parse_first_window :
  JS.Date_parse "2022-08-07T08:08:21Z" = Some 1659859701000.
Proof. vm_compute. reflexivity. Qed.

Example Date_parse_toISOString_epoch :
  JS.Date_parse (JS.toISOString (-1)) = Some (-1)
  /\ JS.toISOString (-1) = "1969-12-31T23:59:59.999Z"
  /\ JS.toISOString 951782400000 = "2000-02-29T00:00:00.000Z"
  /\ JS.toISOString 253402300800000 = "+010000-01-01T00:00:00.000Z".
Proof. vm_compute. repeat split. Qed.


(** ** Collections *)

Section CollectionFacts.
Context {D : Type}.
Implicit Types (f g : D -> bool) (u : D -> D) (c l : list D).

Lemma find_app f c l :
  List.find f (c ++ l)
  = match List.find f c with Some d => Some d | None => List.find f l end.
Proof.
  induction c as [|d c IH]; simpl; [reflexivity|].
  destruct (f d); [reflexivity|exact IH].
Qed.

Lemma find_none_forall f c :
  List.find f c = None <-> forall d, In d c -> f d = false.
Proof.
  split.
  - intros H d Hd. exact (find_none f c H d Hd).
  - induction c as [|d c IH]; simpl; intros H; [reflexivity|].
    rewrite (H d (or_introl eq_refl)). apply IH. intros x Hx. apply H. now right.
Qed.

Lemma update_first_split f u c d :
  List.find f c = Some d ->
  exists before after_,
    c = before ++ d :: after_
    /\ List.find f before = None
    /\ f d = true
    /\ update_first f u c = before ++ u d :: after_.
Proof.
  induction c as [|x c IH]; simpl; [discriminate|].
  destruct (f x) eqn:Hx.
  - intros [= ->]. exists [], c. simpl. auto.
  - intros H. destruct (IH H) as (b & a & -> & Hb & Hd & Hu).
    exists (x :: b), a. simpl. rewrite Hx, Hu. auto.
Qed.

Lemma update_first_app_some f u c l d :
  List.find f c = Some d -> update_first f u (c ++ l) = update_first f u c ++ l.
Proof.
  induction c as [|x c IH]; simpl; [discriminate|].
  destruct (f x); [reflexivity|]. intros H. now rewrite IH.
Qed.

Lemma update_first_app_none f u c l :
  List.find f c = None -> update_first f u (c ++ l) = c ++ update_first f u l.
Proof.
  induction c as [|x c IH]; simpl; [reflexivity|].
  destruct (f x); [discriminate|]. intros H. now rewrite IH.
Qed.


Lemma map_update_first {K : Type} (key : D -> K) f u c :
  (forall d, key (u d) = key d) ->
  map key (update_first f u c) = map key c.
Proof.
  intros Hkey. induction c as [|x c IH]; simpl; [reflexivity|].
  destruct (f x); simpl; [now rewrite Hkey|now rewrite IH].
Qed.

Lemma In_update_first f u c x :
  In x (update_first f u c) ->
  In x c \/ exists d, List.find f c = Some d /\ x = u d.
Proof.
  induction c as [|y c IH]; simpl; [tauto|].
  destruct (f y) eqn:Hy; simpl.
  - intros [<-|H]; [right; eauto|left; now right].
  - intros [<-|H]; [left; now left|].
    destruct (IH H) as [H'|H']; [left; now right|now right].
Qed.

Lemma find_update_first_same f u c :
  (forall d, f d = true -> f (u d) = true) ->
  List.find f (update_first f u c) = option_map u (List.find f c).
Proof.
  intros Hu. induction c as [|x c IH]; simpl; [reflexivity|].
  destruct (f x) eqn:Hx; simpl.
  - now rewrite (Hu x Hx).
  - now rewrite Hx.
Qed.

Lemma find_update_first_other f g u c :
  (forall d, g (u d) = g d) ->
  (forall d, f d = true -> g d = false) ->
  List.find g (update_first f u c) = List.find g c.
Proof.
  intros Hu Hfg. induction c as [|x c IH]; simpl; [reflexivity|].
  destruct (f x) eqn:Hx; simpl.
  - now rewrite Hu, (Hfg x Hx).
  - now rewrite IH.
Qed.

End CollectionFacts.

(** ** The order on [start] *)

Lemma ascii_compare_N (a b : ascii) :
  Ascii.compare a b = N.compare (N_of_ascii a) (N_of_ascii b).
Proof. reflexivity. Qed.

Lemma string_leb_trans (a b c : string) :
  String.leb a b = true -> String.leb b c = true -> String.leb a c = true.
Proof.
  unfold String.leb. revert b c.
  induction a as [|x a IH]; intros [|y b] [|z c]; simpl; try congruence.
  rewrite !ascii_compare_N.
  destruct (N.compare_spec (N_of_ascii x) (N_of_ascii y)) as [Hxy|Hxy|Hxy];
    destruct (N.compare_spec (N_of_ascii y) (N_of_ascii z)) as [Hyz|Hyz|Hyz];
    try congruence; intros H1 H2;
    destruct (N.compare_spec (N_of_ascii x) (N_of_ascii z)) as [Hxz|Hxz|Hxz];
    try reflexivity; try lia.
  exact (IH b c H1 H2).
Qed.

Lemma start_leb_trans (a b c : option string) :
  start_leb a b = true -> start_leb b c = true -> start_leb a c = true.
Proof.
  destruct a as [a|], b as [b|], c as [c|]; simpl; try congruence.
  apply string_leb_trans.
Qed.

Lemma start_leb_total (a b : option string) :
  start_leb a b = true \/ start_leb b a = true.
Proof.
  destruct a as [a|], b as [b|]; simpl; auto. apply String.leb_total.
Qed.

Lemma start_leb_refl (a : option string) : start_leb a a = true.
Proof. destruct (start_leb_total a a); assumption. Qed.

Lemma In_insert_desc (d x : MongoFragment.t) (l : list MongoFragment.t) :
  In x (insert_desc d l) <-> x = d \/ In x l.
Proof.
  induction l as [|h t IH]; simpl.
  - intuition congruence.
  - destruct (start_leb (MongoFragment.start h) (MongoFragment.start d)); simpl.
    + intuition congruence.
    + rewrite IH. intuition congruence.
Qed.

Lemma In_sort_start_desc (x : MongoFragment.t) (l : list MongoFragment.t) :
  In x (sort_start_desc l) <-> In x l.
Proof.
  induction l as [|d l IH]; simpl; [tauto|].
  rewrite In_insert_desc, IH. intuition congruence.
Qed.

(** The head of the sorted cursor has the largest [start]. *)
Lemma sort_start_desc_head (l : list MongoFragment.t) (h : MongoFragment.t)
    (t : list MongoFragment.t) :
  sort_start_desc l = h :: t ->
  forall x, In x l ->
    start_leb (MongoFragment.start x) (MongoFragment.start h) = true.
Proof.
  revert h t. induction l as [|d l IH]; intros h t; simpl; [discriminate|].
  destruct (sort_start_desc l) as [|h' t'] eqn:Hs; simpl.
  - intros [= <- <-] x [<-|Hx]; [apply start_leb_refl|].
    apply In_sort_start_desc in Hx. rewrite Hs in Hx. destruct Hx.
  - destruct (start_leb (MongoFragment.start h') (MongoFragment.start d)) eqn:Hle.
    + intros [= <- <-] x [<-|Hx]; [apply start_leb_refl|].
      eapply start_leb_trans; [|exact Hle]. now apply (IH h' t').
    + intros [= <- <-] x [<-|Hx]; [|now apply (IH h' t')].
      destruct (start_leb_total (MongoFragment.start d) (MongoFragment.start h'));
        [assumption|congruence].
Qed.

(** ** Running the methods *)

Lemma state_eta (s : State) : with_index s (index (db s)) = s.
Proof. destruct s as [i [m d x]]. reflexivity. Qed.

Lemma State_eta (s : State) : mkState (this s) (db s) = s.
Proof. now destruct s. Qed.

Lemma bind_Ok {A B : Type} (m : Promise A) (k : A -> Promise B) (s s' : State) (a : A) :
  m s = (Ok a, s') -> bind m k s = k a s'.
Proof. unfold bind. now intros ->. Qed.

Lemma bind_Throw {A B : Type} (m : Promise A) (k : A -> Promise B) (s s' : State)
    (e : Error) :
  m s = (Throw e, s') -> bind m k s = (Throw e, s').
Proof. unfold bind. now intros ->. Qed.

Lemma bind_ret {A B : Type} (a : A) (k : A -> Promise B) (s : State) :
  bind (ret a) k s = k a s.
Proof. reflexivity. Qed.

Lemma bind_get_this {B : Type} (k : Ingestor -> Promise B) (s : State) :
  bind get_this k s = k (this s) s.
Proof. reflexivity. Qed.

Section Runs.
Context {P : Platform}.
Implicit Types (s : State) (window cur : Window.t).

Lemma index_read_run {A : Type} (read : list MongoFragment.t -> A) s :
  mongoConnection (this s) = true ->
  dbIndexCollection (fun c => (read c, c)) s = (Ok (read (index (db s))), s).
Proof.
  intros Hc. unfold dbIndexCollection. rewrite Hc. cbn [fst snd].
  f_equal. apply state_eta.
Qed.

Lemma index_write_run (write : list MongoFragment.t -> unit * list MongoFragment.t) s :
  mongoConnection (this s) = true ->
  dbIndexCollection write s = (Ok tt, with_index s (snd (write (index (db s))))).
Proof.
  intros Hc. unfold dbIndexCollection. rewrite Hc.
  destruct (fst (write (index (db s)))). reflexivity.
Qed.

Lemma index_disconnected {A : Type}
    (op : list MongoFragment.t -> A * list MongoFragment.t) s :
  mongoConnection (this s) = false ->
  dbIndexCollection op s = (Throw (NotConnected "index"), s).
Proof. intros Hc. unfold dbIndexCollection. now rewrite Hc. Qed.

Lemma getMostRecentWindow_run s :
  mongoConnection (this s) = true ->
  getMostRecentWindow s
  = (match next (limit 1 (sort_start_desc (buckets s))) with
     | Some document => Ok (documentToWindow document)
     | None => Throw NoBucketsPresent
     end, s).
Proof.
  intros Hc. unfold getMostRecentWindow.
  rewrite bind_get_this.
  erewrite bind_Ok by (apply index_read_run; exact Hc).
  fold (stream s). fold (buckets s).
  destruct (next _); reflexivity.
Qed.

Lemma getMostRecentWindow_disconnected s :
  mongoConnection (this s) = false ->
  getMostRecentWindow s = (Throw (NotConnected "index"), s).
Proof.
  intros Hc. unfold getMostRecentWindow.
  rewrite bind_get_this.
  erewrite bind_Throw by (apply index_disconnected; exact Hc). reflexivity.
Qed.

Lemma getMostRecentWindow_Ok s cur :
  result getMostRecentWindow s = Ok cur ->
  mongoConnection (this s) = true
  /\ getMostRecentWindow s = (Ok cur, s)
  /\ exists document rest,
       sort_start_desc (buckets s) = document :: rest
       /\ cur = documentToWindow document.
Proof.
  unfold result. destruct (mongoConnection (this s)) eqn:Hc.
  - rewrite (getMostRecentWindow_run s Hc).
    destruct (sort_start_desc (buckets s)) as [|d rest] eqn:Hs; simpl; [discriminate|].
    intros [= <-]. repeat split. eauto.
  - rewrite (getMostRecentWindow_disconnected s Hc). discriminate.
Qed.

Lemma bucketSize_run s window :
  mongoConnection (this s) = true ->
  bucketSize window s
  = (match the_bucket s (Window.identifier window) with
     | Some bucket => Ok (Z.of_nat (List.length (MongoFragment.members bucket)))
     | None => Throw (WindowNotFound (Window.identifier window))
     end, s).
Proof.
  intros Hc. unfold bucketSize.
  rewrite bind_get_this.
  unfold findOne. erewrite bind_Ok by (apply index_read_run; exact Hc).
  fold (stream s). fold (the_bucket s (Window.identifier window)).
  destruct (the_bucket _ _); reflexivity.
Qed.

Lemma bucketSize_Ok s window (n : Z) :
  mongoConnection (this s) = true ->
  result (bucketSize window) s = Ok n ->
  bucketSize window s = (Ok n, s)
  /\ exists bucket,
       the_bucket s (Window.identifier window) = Some bucket
       /\ n = Z.of_nat (List.length (MongoFragment.members bucket)).
Proof.
  intros Hc. unfold result. rewrite (bucketSize_run s window Hc).
  destruct (the_bucket s (Window.identifier window)) as [b|]; simpl; [|discriminate].
  intros [= <-]. eauto.
Qed.

Lemma pageSize_run s :
  pageSize s
  = (Ok (match _pageSize (this s) with Some n => Finite n | None => Infinity end), s).
Proof. unfold pageSize, bind, get_this, ret. now destruct (_pageSize (this s)). Qed.

Lemma timestampPath_unset s :
  _timestampPath (this s) = None \/ _timestampPath (this s) = Some "" ->
  timestampPath s = (Throw TimestampPathNotConfigured, s).
Proof.
  unfold timestampPath, bind, get_this. now intros [-> | ->].
Qed.

(** The getter reads [this] only. *)
Lemma timestampPath_Ok s (path : string) :
  result timestampPath s = Ok path ->
  forall s', this s' = this s -> timestampPath s' = (Ok path, s').
Proof.
  unfold result, timestampPath, bind, get_this. intros H s' ->.
  destruct (_timestampPath (this s)) as [[|a p]|]; simpl in *; try discriminate.
  now injection H as <-.
Qed.

Lemma createBucket_run s (bucketIdentifier : string) :
  mongoConnection (this s) = true ->
  createBucket bucketIdentifier s
  = (Ok tt,
     with_index s
       (index (db s)
          ++ [MongoFragment.mk bucketIdentifier (stream s) true [] 0 [] None None])).
Proof.
  intros Hc. unfold createBucket.
  rewrite bind_get_this.
  now rewrite index_write_run.
Qed.

Lemma addRelationsToBucket_run s (bucketIdentifier : string) (rels : list IRelation.t) :
  mongoConnection (this s) = true ->
  addRelationsToBucket bucketIdentifier rels s
  = (Ok tt,
     with_index s
       (update_first (bucket_filter (stream s) bucketIdentifier) (push_relations rels)
          (index (db s)))).
Proof.
  intros Hc. unfold addRelationsToBucket.
  rewrite bind_get_this.
  now rewrite index_write_run.
Qed.

Lemma addMemberstoBucket_run s (bucketIdentifier : string) (memberIDs : list string) :
  mongoConnection (this s) = true ->
  addMemberstoBucket bucketIdentifier memberIDs s
  = (Ok tt,
     with_index s
       (update_first (bucket_filter (stream s) bucketIdentifier) (push_members memberIDs)
          (index (db s)))).
Proof.
  intros Hc. unfold addMemberstoBucket.
  rewrite bind_get_this.
  now rewrite index_write_run.
Qed.

Lemma storeMember_run s (member : Member.t) :
  mongoConnection (this s) = true ->
  storeMember member s
  = (Ok tt,
     with_data s
       (data (db s)
          ++ [DataElement.mk (Member.id member) (quadsToString (Member.quads member))
                None])).
Proof.
  intros Hc. unfold storeMember, storeMembers, dbDataCollection. now rewrite Hc.
Qed.

(** [$set] with the start and the end of a window whose dates are valid. *)
Lemma set_window_run s (identifier : string) (start end_ : option Date)
    (start' end' : option string) :
  mongoConnection (this s) = true ->
  windowParam start s = (Ok start', s) ->
  windowParam end_ s = (Ok end', s) ->
  (start <- windowParam start ;;
   end_ <- windowParam end_ ;;
   self <- get_this ;;
   dbIndexCollection
     (updateOne (bucket_filter (sdsStreamIdentifier self) identifier)
        (set_window start end_))) s
  = (Ok tt,
     with_index s
       (update_first (bucket_filter (stream s) identifier) (set_window start' end')
          (index (db s)))).
Proof.
  intros Hc Hs He.
  rewrite (bind_Ok _ _ _ _ _ Hs), (bind_Ok _ _ _ _ _ He).
  rewrite bind_get_this.
  now rewrite index_write_run.
Qed.

End Runs.

(** ** Buckets of the stream *)

Lemma In_buckets (s : State) (b : MongoFragment.t) :
  In b (buckets s) <-> In b (index (db s)) /\ MongoFragment.streamId b = stream s.
Proof.
  unfold buckets, find, stream_filter. rewrite filter_In, String.eqb_eq. tauto.
Qed.

Lemma bucket_filter_true (streamId id : string) (b : MongoFragment.t) :
  bucket_filter streamId id b = true
  <-> MongoFragment.id b = id /\ MongoFragment.streamId b = streamId.
Proof.
  unfold bucket_filter. now rewrite andb_true_iff, !String.eqb_eq.
Qed.

Lemma the_bucket_Some (s : State) (identifier : string) (b : MongoFragment.t) :
  the_bucket s identifier = Some b ->
  In b (buckets s) /\ MongoFragment.id b = identifier.
Proof.
  unfold the_bucket. intros H.
  destruct (find_some _ _ H) as [Hin Hf]. apply bucket_filter_true in Hf.
  rewrite In_buckets. tauto.
Qed.

Lemma the_bucket_None (s : State) (identifier : string) :
  the_bucket s identifier = None
  <-> forall b, In b (buckets s) -> MongoFragment.id b <> identifier.
Proof.
  unfold the_bucket. rewrite find_none_forall. split.
  - intros H b Hb Hid. apply In_buckets in Hb. destruct Hb as [Hin Hs].
    specialize (H b Hin).
    assert (bucket_filter (stream s) identifier b = true)
      by (apply bucket_filter_true; tauto).
    congruence.
  - intros H b Hin.
    destruct (bucket_filter (stream s) identifier b) eqn:Hf; [|reflexivity].
    apply bucket_filter_true in Hf. destruct Hf as [Hid Hs].
    exfalso. apply (H b); [apply In_buckets; tauto|exact Hid].
Qed.

(** ** Running the methods, continued *)

Lemma pageSize_Ok (s : State) (p : Number) :
  result pageSize s = Ok p -> forall s', this s' = this s -> pageSize s' = (Ok p, s').
Proof.
  unfold result. rewrite pageSize_run. simpl. intros [= <-] s' <-. apply pageSize_run.
Qed.

Lemma bind_lift_Ok {A B : Type} (a : A) (k : A -> Promise B) (s : State) :
  bind (lift (Ok a)) k s = k a s.
Proof. reflexivity. Qed.

Lemma bucketExists_run (s : State) (bucketIdentifier : string) :
  mongoConnection (this s) = true ->
  bucketExists bucketIdentifier s
  = (Ok (match the_bucket s bucketIdentifier with Some _ => true | None => false end), s).
Proof.
  intros Hc. unfold bucketExists. rewrite bind_get_this. unfold findOne.
  erewrite bind_Ok by (apply index_read_run; exact Hc).
  fold (stream s). fold (the_bucket s bucketIdentifier).
  now destruct (the_bucket s bucketIdentifier).
Qed.

(** [initialise] on a stream whose metadata is stored. *)
Lemma initialise_existing (s : State) (sdsMetadata : option string) :
  (exists m, In m (meta (db s)) /\ MetaDocument.id m = stream s) ->
  initialise sdsMetadata s
  = (Ok tt,
     mkState
       (mkIngestor (stream s) true (_pageSize (this s)) (_timestampPath (this s))
          (_metadata (this s)))
       (db s)).
Proof.
  intros (m & Hin & Hid).
  destruct (List.find (fun d => (MetaDocument.id d =? stream s)%string) (meta (db s)))
    as [m'|] eqn:Hf.
  - unfold initialise, bind, connect, set_this, get_this, dbMetaCollection, findOne,
      stream in *.
    cbn [this db mongoConnection sdsStreamIdentifier fst snd meta data index].
    rewrite Hf. destruct s as [i [a b c]]. reflexivity.
  - apply find_none with (x := m) in Hf; [|exact Hin].
    rewrite Hid, String.eqb_refl in Hf. discriminate.
Qed.

(** A successful [initialise] connects, leaves the data and index
    collections alone and leaves the stream with its metadata. *)
Lemma initialise_Ok (s : State) (sdsMetadata : option string) :
  result (initialise sdsMetadata) s = Ok tt ->
  exists metadata,
    initialise sdsMetadata s
    = (Ok tt,
       mkState
         (mkIngestor (stream s) true (_pageSize (this s)) (_timestampPath (this s))
            (_metadata (this s)))
         (mkDb metadata (data (db s)) (index (db s))))
    /\ exists m, In m metadata /\ MetaDocument.id m = stream s.
Proof.
  unfold result, initialise, bind, connect, set_this, get_this, dbMetaCollection,
    findOne, insertOne, stream.
  cbn [this db mongoConnection sdsStreamIdentifier fst snd meta data index].
  destruct (List.find _ (meta (db s))) as [m|] eqn:Hf.
  - intros _. exists (meta (db s)). split; [reflexivity|].
    exists m. destruct (find_some _ _ Hf) as [Hin Hid].
    apply String.eqb_eq in Hid. now split.
  - destruct sdsMetadata as [[|c v]|]; cbn; try discriminate. intros _.
    eexists. split; [reflexivity|].
    eexists. split; [apply in_or_app; right; left; reflexivity|reflexivity].
Qed.

Lemma initialise_Throw (s : State) (sdsMetadata : option string) (e : Error) :
  result (initialise sdsMetadata) s = Throw e ->
  index (db (after (initialise sdsMetadata) s)) = index (db s)
  /\ stream (after (initialise sdsMetadata) s) = stream s.
Proof.
  unfold result, after, initialise, bind, connect, set_this, get_this, dbMetaCollection,
    findOne, insertOne, stream.
  cbn [this db mongoConnection sdsStreamIdentifier fst snd meta data index].
  destruct (List.find _ (meta (db s))) as [m|] eqn:Hf; [discriminate|].
  destruct sdsMetadata as [[|c v]|]; cbn; intros; try discriminate; split; reflexivity.
Qed.

(** The bucket under [x] after an update of the bucket under [y], for an
    update that keeps the identity of a bucket. *)
Lemma find_bucket_update (streamId x y : string) (u : MongoFragment.t -> MongoFragment.t)
    (c : list MongoFragment.t) :
  (forall d, MongoFragment.id (u d) = MongoFragment.id d) ->
  (forall d, MongoFragment.streamId (u d) = MongoFragment.streamId d) ->
  List.find (bucket_filter streamId x) (update_first (bucket_filter streamId y) u c)
  = if (x =? y)%string
    then option_map u (List.find (bucket_filter streamId x) c)
    else List.find (bucket_filter streamId x) c.
Proof.
  intros Hid Hsid. destruct (String.eqb_spec x y) as [->|Hne].
  - apply find_update_first_same. intros d. unfold bucket_filter. now rewrite Hid, Hsid.
  - apply find_update_first_other.
    + intros d. unfold bucket_filter. now rewrite Hid, Hsid.
    + intros d Hd. apply bucket_filter_true in Hd. destruct Hd as [<- _].
      unfold bucket_filter. apply String.eqb_neq in Hne.
      now rewrite String.eqb_sym, Hne.
Qed.

(** The three reads at the head of [append]. *)
Ltac append_reads Hcur Hn Hp Hc Hbucket :=
  let Hcur' := fresh "Hcur" in
  let Hn' := fresh "Hn" in
  destruct (getMostRecentWindow_Ok _ _ Hcur) as (Hc & Hcur' & _);
  destruct (bucketSize_Ok _ _ _ Hc Hn) as (Hn' & Hbucket);
  unfold append;
  rewrite (bind_Ok _ _ _ _ _ Hcur'), (bind_Ok _ _ _ _ _ Hn'),
    (bind_Ok _ _ _ _ _ (pageSize_Ok _ _ Hp _ eq_refl)).

(** ** What a method leaves alone *)

Section Preserves.
Context (R : State -> State -> Prop) `{!PreOrder R}.

Lemma preserves_ret {A : Type} (a : A) : preserves R (ret a).
Proof. intros s. reflexivity. Qed.

Lemma preserves_throw {A : Type} (e : Error) : preserves R (throw (A := A) e).
Proof. intros s. reflexivity. Qed.

Lemma preserves_lift {A : Type} (r : Result A) : preserves R (lift r).
Proof. intros s. reflexivity. Qed.

Lemma preserves_get_this : preserves R get_this.
Proof. intros s. reflexivity. Qed.

Lemma preserves_bind {A B : Type} (m : Promise A) (k : A -> Promise B) :
  preserves R m -> (forall a, preserves R (k a)) -> preserves R (bind m k).
Proof.
  intros Hm Hk s. unfold after, bind. specialize (Hm s). unfold after in Hm.
  destruct (m s) as [[a|e] s']; simpl in *; [|exact Hm].
  transitivity s'; [exact Hm|apply Hk].
Qed.

Lemma preserves_index_op {A : Type}
    (op : list MongoFragment.t -> A * list MongoFragment.t) :
  (forall s, R s (with_index s (snd (op (index (db s)))))) ->
  preserves R (dbIndexCollection op).
Proof.
  intros H s. unfold after, dbIndexCollection.
  destruct (mongoConnection (this s)); simpl; [apply H|reflexivity].
Qed.

End Preserves.

#[local] Instance frame_PreOrder : PreOrder frame.
Proof.
  split.
  - intros s. repeat split. exists []. split; [now rewrite app_nil_r|constructor].
  - intros s1 s2 s3 (Ht & Hm & Hd & c & Hc & Hf) (Ht' & Hm' & Hd' & c' & Hc' & Hf').
    repeat split; try congruence.
    exists (c ++ c'). split.
    + now rewrite Hc', Hc, map_app, app_assoc.
    + apply Forall_app. split; assumption.
Qed.

Lemma frame_insert (s : State) (b : MongoFragment.t) :
  MongoFragment.members b = [] ->
  frame s (with_index s (index (db s) ++ [b])).
Proof.
  intros Hb. repeat split. exists [b]. split.
  - cbn. now rewrite map_app.
  - repeat constructor; assumption.
Qed.

Lemma frame_update (s : State) (f : MongoFragment.t -> bool)
    (u : MongoFragment.t -> MongoFragment.t) :
  (forall d, holding (u d) = holding d) ->
  frame s (with_index s (update_first f u (index (db s)))).
Proof.
  intros Hu. repeat split. exists []. split; [|constructor].
  cbn. now rewrite app_nil_r, map_update_first.
Qed.

Lemma frame_bucketExists (bucketIdentifier : string) :
  preserves frame (bucketExists bucketIdentifier).
Proof.
  unfold bucketExists, findOne.
  apply preserves_bind; [exact _ | apply preserves_get_this; exact _ |]. intros self.
  apply preserves_bind; [exact _ | |].
  - apply preserves_index_op; [exact _|]. intros s. cbn [snd].
    rewrite state_eta. reflexivity.
  - intros [b|]; apply preserves_ret; exact _.
Qed.

Lemma frame_the_bucket (s s' : State) (identifier : string) :
  frame s s' -> the_bucket s identifier <> None -> the_bucket s' identifier <> None.
Proof.
  intros (Ht & _ & _ & created & Hmap & _) Hsome Hnone.
  destruct (the_bucket s identifier) as [b|] eqn:Hb; [clear Hsome|congruence].
  apply the_bucket_Some in Hb. destruct Hb as [Hin Hid].
  apply In_buckets in Hin. destruct Hin as [Hin Hs].
  apply (in_map holding) in Hin.
  assert (Hin' : In (holding b) (map holding (index (db s'))))
    by (rewrite Hmap; apply in_or_app; now left).
  apply in_map_iff in Hin'. destruct Hin' as (b' & Hh & Hb').
  injection Hh as Hid' Hs' _.
  apply (proj1 (the_bucket_None s' identifier) Hnone b'); [|congruence].
  apply In_buckets. split; [exact Hb'|]. unfold stream in *. congruence.
Qed.

Section Frames.
Context {P : Platform}.

Ltac framed :=
  repeat first
    [ apply preserves_ret; exact _
    | apply preserves_throw; exact _
    | apply preserves_lift; exact _
    | apply preserves_get_this; exact _
    | apply preserves_bind; [exact _ | | intros ?]
    | apply preserves_index_op; [exact _ | intros ?]
    | apply frame_insert; reflexivity
    | apply frame_update; reflexivity ].

Lemma frame_timestampPath : preserves frame timestampPath.
Proof.
  unfold timestampPath. apply preserves_bind; [exact _ | |].
  - framed.
  - intros self. destruct (_timestampPath self) as [[|c p]|]; framed.
Qed.

Lemma frame_windowParam (date : option Date) : preserves frame (windowParam date).
Proof. destruct date as [[t|]|]; intros s; reflexivity. Qed.

Lemma frame_Date_toISOString (date : Date) : preserves frame (Date_toISOString date).
Proof. destruct date as [t|]; intros s; reflexivity. Qed.

Lemma frame_createBucket (bucketIdentifier : string) :
  preserves frame (createBucket bucketIdentifier).
Proof. unfold createBucket, insertOne. framed. Qed.

Lemma frame_addRelationsToBucket (bucketIdentifier : string) (rels : list IRelation.t) :
  preserves frame (addRelationsToBucket bucketIdentifier rels).
Proof. unfold addRelationsToBucket, updateOne. framed. Qed.

Lemma frame_createWindow (window : Window.t) : preserves frame (createWindow window).
Proof.
  unfold createWindow, updateOne.
  apply preserves_bind; [exact _ | apply frame_createBucket |].
  intros _.
  apply preserves_bind; [exact _ | apply frame_windowParam |].
  intros start.
  apply preserves_bind; [exact _ | apply frame_windowParam |].
  intros end_. framed.
Qed.

Lemma frame_updateWindow (window : Window.t) : preserves frame (updateWindow window).
Proof.
  unfold updateWindow, updateOne.
  apply preserves_bind; [exact _ | apply frame_windowParam |].
  intros start.
  apply preserves_bind; [exact _ | apply frame_windowParam |].
  intros end_. framed.
Qed.

Lemma frame_addWindowToRoot (window : Window.t) : preserves frame (addWindowToRoot window).
Proof.
  unfold addWindowToRoot. destruct (Window.start window) as [start|]; [|framed].
  apply preserves_bind;
    [exact _ | apply frame_Date_toISOString |].
  intros value.
  apply preserves_bind; [exact _ | apply frame_timestampPath |].
  intros path. apply frame_addRelationsToBucket.
Qed.

End Frames.

(** ** The two branches of [append] *)

Section Split.
Context {P : Platform}.

(** The branch of [append] that splits maintains the frame. *)
Lemma frame_append_split (s : State) (member : Member.t) (cur : Window.t) (n : Z)
    (p : Number) :
  result getMostRecentWindow s = Ok cur ->
  result (bucketSize cur) s = Ok n ->
  result pageSize s = Ok p ->
  gt (n + 1) p = true ->
  frame s (after (append member) s).
Proof.
  intros Hcur Hn Hp Hgt. unfold after. append_reads Hcur Hn Hp Hc Hbucket.
  rewrite Hgt.
  match goal with |- frame s (snd (?m s)) => change (frame s (after m s)); generalize s; change (preserves frame m) end.
  apply preserves_bind; [exact _ | apply frame_timestampPath |]. intros path.
  apply preserves_bind; [exact _ | apply preserves_lift; exact _ |]. intros memberDate.
  apply preserves_bind; [exact _ | apply frame_createWindow |]. intros _.
  apply preserves_bind; [exact _ | apply frame_addWindowToRoot |]. intros _.
  apply preserves_bind; [exact _ | apply frame_updateWindow |]. intros _.
  apply preserves_bind; [exact _ | apply frame_Date_toISOString |]. intros value.
  apply preserves_bind; [exact _ | apply frame_timestampPath |]. intros path'.
  apply frame_addRelationsToBucket.
Qed.

(** The branch of [append] that stores the member. *)
Lemma append_store_run (s : State) (member : Member.t) (cur : Window.t) (n : Z)
    (p : Number) :
  result getMostRecentWindow s = Ok cur ->
  result (bucketSize cur) s = Ok n ->
  result pageSize s = Ok p ->
  gt (n + 1) p = false ->
  append member s
  = (Ok tt,
     with_index
       (with_data s
          (data (db s)
             ++ [DataElement.mk (Member.id member) (quadsToString (Member.quads member))
                   None]))
       (update_first (bucket_filter (stream s) (Window.identifier cur))
          (push_members [Member.id member]) (index (db s)))).
Proof.
  intros Hcur Hn Hp Hgt. append_reads Hcur Hn Hp Hc Hbucket. rewrite Hgt.
  rewrite (bind_Ok _ _ _ _ _ (storeMember_run s member Hc)).
  now rewrite addMemberstoBucket_run by exact Hc.
Qed.

Lemma getMostRecentWindow_reads (s : State) : after getMostRecentWindow s = s.
Proof.
  unfold after. destruct (mongoConnection (this s)) eqn:Hc.
  - now rewrite getMostRecentWindow_run.
  - now rewrite getMostRecentWindow_disconnected.
Qed.

(** Either [append] stops at its two reads and leaves the state as it was,
    or the reads give a current window and its occupancy. *)
Lemma append_cases (s : State) (member : Member.t) :
  after (append member) s = s
  \/ exists cur n p,
       result getMostRecentWindow s = Ok cur
       /\ result (bucketSize cur) s = Ok n
       /\ result pageSize s = Ok p.
Proof.
  destruct (result getMostRecentWindow s) as [cur|e] eqn:Hcur.
  - destruct (getMostRecentWindow_Ok s cur Hcur) as (Hc & Hrun & _).
    destruct (result (bucketSize cur) s) as [n|e] eqn:Hn.
    + right. exists cur, n.
      exists (match _pageSize (this s) with Some n => Finite n | None => Infinity end).
      repeat split; try assumption. unfold result. now rewrite pageSize_run.
    + left. unfold after, append. rewrite (bind_Ok _ _ _ _ _ Hrun).
      unfold result in Hn. rewrite (bucketSize_run s cur Hc) in Hn.
      erewrite bind_Throw; [reflexivity|].
      rewrite (bucketSize_run s cur Hc). simpl in Hn. now rewrite Hn.
  - left. pose proof (getMostRecentWindow_reads s) as Hs.
    unfold result in Hcur. unfold after in *. unfold append, bind.
    destruct (getMostRecentWindow s) as [r s']. simpl in *. now subst.
Qed.

Lemma frame_within_pageSize (pageSize : Z) (s s' : State) :
  0 <= pageSize -> frame s s' ->
  within_pageSize pageSize s -> within_pageSize pageSize s'.
Proof.
  intros Hp (Ht & _ & _ & created & Hmap & Hcreated) Hs b Hb.
  apply In_buckets in Hb. destruct Hb as [Hin Hstream].
  apply (in_map holding) in Hin. rewrite Hmap in Hin.
  apply in_app_or in Hin. destruct Hin as [Hin|Hin]; apply in_map_iff in Hin;
    destruct Hin as (b0 & Hh & Hin); injection Hh as Hid Hsid Hmem.
  - rewrite <- Hmem. apply Hs. apply In_buckets. split; [exact Hin|].
    unfold stream in *. congruence.
  - rewrite Forall_forall in Hcreated. rewrite <- Hmem, (Hcreated b0 Hin). simpl. lia.
Qed.

Lemma append_within_pageSize (s : State) (member : Member.t) (pageSize : Z) :
  _pageSize (this s) = Some pageSize -> 0 <= pageSize ->
  within_pageSize pageSize s ->
  within_pageSize pageSize (after (append member) s)
  /\ this (after (append member) s) = this s.
Proof.
  intros Hps Hpos Hs.
  destruct (append_cases s member) as [->|(cur & n & p & Hcur & Hn & Hp)]; [now split|].
  destruct (gt (n + 1) p) eqn:Hgt.
  - pose proof (frame_append_split s member cur n p Hcur Hn Hp Hgt) as Hf.
    split; [exact (frame_within_pageSize _ _ _ Hpos Hf Hs)|apply Hf].
  - unfold after. rewrite (append_store_run s member cur n p Hcur Hn Hp Hgt).
    split; [|reflexivity].
    destruct (getMostRecentWindow_Ok s cur Hcur) as (Hc & _).
    destruct (bucketSize_Ok s cur n Hc Hn) as (_ & bucket & Hb & ->).
    unfold result in Hp. rewrite pageSize_run, Hps in Hp. injection Hp as <-.
    simpl in Hgt. apply Z.ltb_ge in Hgt.
    intros b Hin. apply In_buckets in Hin. destruct Hin as [Hin Hstream].
    cbn in Hin, Hstream. apply In_update_first in Hin.
    destruct Hin as [Hin|(d & Hd & ->)].
    + apply Hs. apply In_buckets. now split.
    + unfold the_bucket in Hb. rewrite Hb in Hd. injection Hd as <-.
      simpl. rewrite length_app. simpl. lia.
Qed.

End Split.

Section SplitRun.
Context {P : Platform}.

Lemma createWindow_run (s : State) (identifier : string)
    (memberIdentifiers : option (list string)) (t : Z) :
  mongoConnection (this s) = true ->
  createWindow (Window.mk identifier memberIdentifiers (Some (Some t)) None) s
  = (Ok tt,
     with_index s
       (update_first (bucket_filter (stream s) identifier)
          (set_window (Some (toISOString t)) None)
          (index (db s)
             ++ [MongoFragment.mk identifier (stream s) true [] 0 [] None None]))).
Proof.
  intros Hc. unfold createWindow. cbn [Window.identifier Window.start Window.end_].
  rewrite (bind_Ok _ _ _ _ _ (createBucket_run s identifier Hc)).
  rewrite (set_window_run (with_index s _) identifier (Some (Some t)) None
             (Some (toISOString t)) None Hc eq_refl eq_refl).
  reflexivity.
Qed.

Lemma updateWindow_run (s : State) (identifier : string)
    (memberIdentifiers : option (list string)) (t0 t : Z) :
  mongoConnection (this s) = true ->
  updateWindow (Window.mk identifier memberIdentifiers (Some (Some t0)) (Some (Some t))) s
  = (Ok tt,
     with_index s
       (update_first (bucket_filter (stream s) identifier)
          (set_window (Some (toISOString t0)) (Some (toISOString t)))
          (index (db s)))).
Proof.
  intros Hc. unfold updateWindow. cbn [Window.identifier Window.start Window.end_].
  now rewrite (set_window_run s identifier (Some (Some t0)) (Some (Some t))
                 (Some (toISOString t0)) (Some (toISOString t)) Hc eq_refl eq_refl).
Qed.

Lemma addWindowToRoot_run (s : State) (window : Window.t) (t : Z) (path : string) :
  Window.start window = Some (Some t) ->
  mongoConnection (this s) = true ->
  timestampPath s = (Ok path, s) ->
  addWindowToRoot window s
  = (Ok tt,
     with_index s
       (update_first (bucket_filter (stream s) root)
          (push_relations
             [IRelation.mk GreaterThanOrEqualTo (toISOString t) path
                (Window.identifier window)])
          (index (db s)))).
Proof.
  intros Hstart Hc Hpath. unfold addWindowToRoot. rewrite Hstart.
  unfold Date_toISOString. rewrite bind_ret, (bind_Ok _ _ _ _ _ Hpath).
  now rewrite addRelationsToBucket_run.
Qed.

(** The branch of [append] that splits, when every step succeeds. *)
Lemma append_split_run (s : State) (member : Member.t) (cur : Window.t) (n : Z)
    (p : Number) (path : string) (t t0 : Z) :
  result getMostRecentWindow s = Ok cur ->
  result (bucketSize cur) s = Ok n ->
  result pageSize s = Ok p ->
  gt (n + 1) p = true ->
  result timestampPath s = Ok path ->
  extractDate (Member.quads member) path = Ok (Some t) ->
  Window.start cur = Some (Some t0) ->
  append member s
  = (Ok tt,
     with_index s
       (update_first (bucket_filter (stream s) root)
          (push_relations
             [IRelation.mk LessThan (toISOString t) path (Window.identifier cur)])
          (update_first (bucket_filter (stream s) (Window.identifier cur))
             (set_window (Some (toISOString t0)) (Some (toISOString t)))
             (update_first (bucket_filter (stream s) root)
                (push_relations
                   [IRelation.mk GreaterThanOrEqualTo (toISOString t) path
                      (valueOf_string (Some t))])
                (update_first (bucket_filter (stream s) (valueOf_string (Some t)))
                   (set_window (Some (toISOString t)) None)
                   (index (db s)
                      ++ [MongoFragment.mk (valueOf_string (Some t)) (stream s) true []
                            0 [] None None])))))).
Proof.
  intros Hcur Hn Hp Hgt Hpath Hdate Hstart.
  append_reads Hcur Hn Hp Hc Hbucket. rewrite Hgt.
  rewrite (bind_Ok _ _ _ _ _ (timestampPath_Ok s path Hpath s eq_refl)).
  rewrite Hdate, bind_lift_Ok.
  rewrite (bind_Ok _ _ _ _ _ (createWindow_run s _ None t Hc)).
  erewrite bind_Ok;
    [|apply addWindowToRoot_run with (t := t) (path := path);
      [reflexivity | exact Hc | apply (timestampPath_Ok s path Hpath); reflexivity]].
  rewrite Hstart.
  erewrite bind_Ok; [|apply updateWindow_run; exact Hc].
  unfold Date_toISOString. rewrite bind_ret.
  erewrite bind_Ok; [|apply (timestampPath_Ok s path Hpath); reflexivity].
  rewrite addRelationsToBucket_run by exact Hc.
  reflexivity.
Qed.

End SplitRun.

(** ** The bootstrap *)

Section Bootstrap.
Context {P : Platform}.

Local Abbreviation instantiate_buckets :=
  (rootExists <- bucketExists root ;;
   if rootExists : bool then ret tt
   else
     await createBucket root ;;
     let firstWindow :=
       Window.mk (valueOf_string (new_Date (Some "2022-08-07T08:08:21Z"))) None
         (Some (new_Date (Some "2022-08-07T08:08:21Z"))) None in
     await createWindow firstWindow ;;
     addWindowToRoot firstWindow).

(** What [instantiate] runs once the stream metadata is settled. *)
Lemma frame_instantiate_buckets : preserves frame instantiate_buckets.
Proof.
  apply preserves_bind; [exact _ | apply frame_bucketExists |].
  intros [|]; [apply preserves_ret; exact _|].
  apply preserves_bind; [exact _ | apply frame_createBucket |]. intros _.
  apply preserves_bind; [exact _ | apply frame_createWindow |]. intros _.
  apply frame_addWindowToRoot.
Qed.

Lemma instantiate_existing (s : State) (config : string) :
  (exists m, In m (meta (db s)) /\ MetaDocument.id m = stream s) ->
  instantiate config s
  = instantiate_buckets (configured s config).
Proof.
  intros Hmeta. unfold instantiate.
  rewrite (bind_Ok _ _ _ _ _ (initialise_existing s (Some config) Hmeta)).
  reflexivity.
Qed.

(** After [instantiate_buckets] on a connected ingestor the root exists. *)
Lemma instantiate_buckets_root (s : State) :
  mongoConnection (this s) = true ->
  the_bucket (after instantiate_buckets s) root <> None.
Proof.
  intros Hc. unfold after. rewrite (bind_Ok _ _ _ _ _ (bucketExists_run s root Hc)).
  destruct (the_bucket s root) as [r|] eqn:Hroot; [cbn; congruence|].
  rewrite (bind_Ok _ _ _ _ _ (createBucket_run s root Hc)).
  match goal with
  | |- the_bucket (snd (?m ?s0)) root <> None =>
      change (the_bucket (after m s0) root <> None);
      apply (frame_the_bucket s0);
      [generalize s0; change (preserves frame m)|]
  end.
  - apply preserves_bind; [exact _ | apply frame_createWindow |]. intros _.
    apply frame_addWindowToRoot.
  - unfold the_bucket in *. cbn [db index with_index].
    change (stream (with_index s _)) with (stream s).
    rewrite find_app, Hroot. cbn. unfold bucket_filter. cbn.
    now rewrite String.eqb_refl.
Qed.

(** A successful [instantiate], step by step. *)
Lemma instantiate_Ok (s : State) (config : string) :
  result (instantiate config) s = Ok tt ->
  exists s1,
    initialise (Some config) s = (Ok tt, s1)
    /\ stream s1 = stream s
    /\ index (db s1) = index (db s)
    /\ (exists m, In m (meta (db s1)) /\ MetaDocument.id m = stream s)
    /\ instantiate config s = instantiate_buckets (configured s1 config)
    /\ frame (configured s1 config) (after (instantiate config) s)
    /\ the_bucket (after (instantiate config) s) root <> None.
Proof.
  intros Hok.
  destruct (result (initialise (Some config)) s) as [[]|e] eqn:Hinit.
  - destruct (initialise_Ok s (Some config) Hinit) as (metadata & Hrun & Hmeta).
    eexists. split; [exact Hrun|].
    assert (Hi : instantiate config s
                 = instantiate_buckets
                     (configured
                        (mkState
                           (mkIngestor (stream s) true (_pageSize (this s))
                              (_timestampPath (this s)) (_metadata (this s)))
                           (mkDb metadata (data (db s)) (index (db s))))
                        config)).
    { unfold instantiate. rewrite (bind_Ok _ _ _ _ _ Hrun). reflexivity. }
    split; [reflexivity|]. split; [reflexivity|]. split; [exact Hmeta|].
    split; [exact Hi|]. split.
    + unfold after. rewrite Hi. apply frame_instantiate_buckets.
    + unfold after. rewrite Hi.
      exact (instantiate_buckets_root (configured _ config) eq_refl).
  - exfalso. unfold result in *. unfold instantiate, bind in Hok.
    destruct (initialise (Some config) s) as [[[]|e'] s1]; simpl in *; congruence.
Qed.

(** Running [instantiate] again after a successful run changes nothing. *)
Lemma instantiate_again (s : State) (config : string) :
  result (instantiate config) s = Ok tt ->
  instantiate config (after (instantiate config) s)
  = (Ok tt, after (instantiate config) s).
Proof.
  intros Hok.
  destruct (instantiate_Ok s config Hok)
    as (s1 & _ & Hstream & _ & Hmeta & _ & (Ht & Hm & _) & Hroot).
  set (s' := after (instantiate config) s) in *.
  assert (Hstream' : stream s' = stream s).
  { unfold stream in *. rewrite Ht. exact Hstream. }
  assert (Hmeta' : exists m, In m (meta (db s')) /\ MetaDocument.id m = stream s').
  { rewrite Hm, Hstream'. exact Hmeta. }
  rewrite (instantiate_existing s' config Hmeta').
  rewrite (bind_Ok _ _ _ _ _ (bucketExists_run (configured s' config) root eq_refl)).
  change (the_bucket (configured s' config) root) with (the_bucket s' root).
  destruct (the_bucket s' root) as [r|]; [|congruence].
  cbn. f_equal. rewrite <- (State_eta s') at 2. unfold configured.
  rewrite Ht. cbn. now rewrite Hstream', Hstream.
Qed.

(** The stream [instantiate] leaves is within the page size it sets. *)
Lemma instantiate_within_pageSize (s : State) (config : string) :
  within_pageSize 50 s ->
  within_pageSize 50 (after (instantiate config) s)
  /\ (result (instantiate config) s = Ok tt ->
      _pageSize (this (after (instantiate config) s)) = Some 50).
Proof.
  intros Hs.
  destruct (result (instantiate config) s) as [[]|e] eqn:Hok.
  - destruct (instantiate_Ok s config Hok)
      as (s1 & _ & Hstream & Hindex & _ & _ & Hframe & _).
    split.
    + apply (frame_within_pageSize 50 (configured s1 config)); [lia|exact Hframe|].
      intros b Hb. apply Hs. apply In_buckets in Hb. apply In_buckets.
      cbn in Hb. now rewrite <- Hindex, <- Hstream.
    + intros _. destruct Hframe as (Ht & _). now rewrite Ht.
  - split; [|discriminate].
    destruct (result (initialise (Some config)) s) as [[]|e'] eqn:Hinit.
    + destruct (initialise_Ok s (Some config) Hinit) as (metadata & Hrun & _).
      unfold after, instantiate. rewrite (bind_Ok _ _ _ _ _ Hrun).
      rewrite bind_Ok with (a := tt) (s' := configured
                        (mkState
                           (mkIngestor (stream s) true (_pageSize (this s))
                              (_timestampPath (this s)) (_metadata (this s)))
                           (mkDb metadata (data (db s)) (index (db s))))
                        config) by reflexivity.
      match goal with
      | |- within_pageSize 50 (snd (?m ?s0)) =>
          apply (frame_within_pageSize 50 s0);
          [lia|apply (frame_instantiate_buckets s0)|]
      end.
      intros b Hb. apply Hs. exact Hb.
    + destruct (initialise_Throw s (Some config) e' Hinit) as [Hindex Hstream].
      assert (Hafter : after (instantiate config) s = after (initialise (Some config)) s).
      { unfold after, result in *. unfold instantiate, bind.
        destruct (initialise (Some config) s) as [[[]|e''] s1]; simpl in *;
          [discriminate|reflexivity]. }
      rewrite Hafter. intros b Hb. apply Hs. apply In_buckets in Hb. apply In_buckets.
      now rewrite <- Hindex, <- Hstream.
Qed.

End Bootstrap.

(** * The claims *)

(** ** Reading the current window *)

(** C5. The window [documentToWindow] builds has its end computed from the
    [start] field of the document: the end equals the start, both are the
    date of the document's [start], and the document's [end] is never read;
    so is the window [getMostRecentWindow] returns. *)
Theorem documentToWindow_end_is_start {P : Platform} :
  (forall document,
      Window.end_ (documentToWindow document) = Window.start (documentToWindow document)
      /\ Window.end_ (documentToWindow document)
         = Some (new_Date (MongoFragment.start document)))
  /\ (forall id streamId leaf relations count members start end_ end',
         documentToWindow
           (MongoFragment.mk id streamId leaf relations count members start end_)
         = documentToWindow
             (MongoFragment.mk id streamId leaf relations count members start end'))
  /\ (forall s,
         match result getMostRecentWindow s with
         | Ok window => Window.end_ window = Window.start window
         | Throw _ => True
         end).
Proof.
  split; [|split].
  - intros document. split; reflexivity.
  - reflexivity.
  - intros s. destruct (result getMostRecentWindow s) as [w|e] eqn:H; [|exact I].
    destruct (getMostRecentWindow_Ok s w H) as (_ & _ & d & rest & _ & ->).
    reflexivity.
Qed.

(** C6. On a connected ingestor [getMostRecentWindow] returns the window of
    a bucket of the stream whose [start] is maximal in the order the cursor
    sorts by, when the stream has a bucket; it throws "No buckets present",
    a not-found error, when the stream has none.  It writes nothing. *)
Theorem getMostRecentWindow_maximal_start {P : Platform} (s : State) :
  mongoConnection (this s) = true ->
  (buckets s <> [] ->
   exists document,
     In document (buckets s)
     /\ getMostRecentWindow s = (Ok (documentToWindow document), s)
     /\ forall b, In b (buckets s) ->
          start_leb (MongoFragment.start b) (MongoFragment.start document) = true)
  /\ (buckets s = [] ->
      getMostRecentWindow s = (Throw NoBucketsPresent, s)
      /\ error_class NoBucketsPresent = NotFoundError).
Proof.
  intros Hc. rewrite (getMostRecentWindow_run s Hc). split.
  - intros Hne.
    destruct (sort_start_desc (buckets s)) as [|d rest] eqn:Hs.
    + destruct (buckets s) as [|b l] eqn:Hb; [contradiction|].
      assert (Hin : In b (sort_start_desc (b :: l)))
        by (apply In_sort_start_desc; now left).
      rewrite Hs in Hin. destruct Hin.
    + exists d. split; [|split].
      * apply In_sort_start_desc. rewrite Hs. now left.
      * reflexivity.
      * exact (sort_start_desc_head _ _ _ Hs).
  - intros ->. split; reflexivity.
Qed.

Lemma getMostRecentWindow_maximal_start_witness :
  mongoConnection (this Scenario.full) = true
  /\ buckets Scenario.full <> []
  /\ exists document,
       In document (buckets Scenario.full)
       /\ getMostRecentWindow (P := JS.platform) Scenario.full
          = (Ok (documentToWindow (P := JS.platform) document), Scenario.full)
       /\ forall b, In b (buckets Scenario.full) ->
            start_leb (MongoFragment.start b) (MongoFragment.start document) = true.
Proof.
  split; [reflexivity|]. split; [discriminate|].
  apply (getMostRecentWindow_maximal_start (P := JS.platform) Scenario.full eq_refl).
  discriminate.
Defined.

(** ** Occupancy *)

(** C10. On a connected ingestor [bucketSize] answers the length of the
    members list of the bucket the store holds under the window's
    identifier, and throws "Window ... was not found", a not-found error,
    when no bucket of the stream has that identifier.  It writes nothing. *)
Theorem bucketSize_occupancy (s : State) (window : Window.t) :
  mongoConnection (this s) = true ->
  (forall bucket,
      the_bucket s (Window.identifier window) = Some bucket ->
      bucketSize window s
      = (Ok (Z.of_nat (List.length (MongoFragment.members bucket))), s))
  /\ ((forall b, In b (buckets s) -> MongoFragment.id b <> Window.identifier window) ->
      bucketSize window s = (Throw (WindowNotFound (Window.identifier window)), s)
      /\ error_class (WindowNotFound (Window.identifier window)) = NotFoundError).
Proof.
  intros Hc. rewrite (bucketSize_run s window Hc). split.
  - now intros bucket ->.
  - intros H. apply the_bucket_None in H. rewrite H. split; reflexivity.
Qed.

Lemma bucketSize_occupancy_witness :
  bucketSize (Window.mk "1659859701000" None None None) Scenario.full
  = (Ok 50, Scenario.full)
  /\ bucketSize (Window.mk "nowhere" None None None) Scenario.full
     = (Throw (WindowNotFound "nowhere"), Scenario.full).
Proof.
  destruct (bucketSize_occupancy Scenario.full
              (Window.mk "1659859701000" None None None) eq_refl) as [Hsome _].
  destruct (bucketSize_occupancy Scenario.full
              (Window.mk "nowhere" None None None) eq_refl) as [_ Hnone].
  split.
  - refine (eq_trans (Hsome _ eq_refl) _). reflexivity.
  - apply Hnone. intros b Hb.
    vm_compute in Hb. destruct Hb as [<-|[<-|[]]]; discriminate.
Defined.

(** ** Linking a window from the root *)

(** C9. For a window whose start is a valid date, on a connected ingestor
    with a timestamp path and a root bucket, [addWindowToRoot] pushes exactly
    one relation at the end of the root's relations: greater-than-or-equal,
    the timestamp path, the ISO rendering of the window's start, the window's
    identifier; nothing else changes.  For a window without a start it throws
    "Can not add window ...", an invalid-window error, and writes nothing. *)
Theorem addWindowToRoot_links {P : Platform} (s : State) (window : Window.t) :
  (forall (t : Z) (path : string) (r : MongoFragment.t),
      Window.start window = Some (Some t) ->
      mongoConnection (this s) = true ->
      result timestampPath s = Ok path ->
      the_bucket s root = Some r ->
      exists before after_,
        index (db s) = before ++ r :: after_
        /\ List.find (bucket_filter (stream s) root) before = None
        /\ addWindowToRoot window s
           = (Ok tt,
              with_index s
                (before
                   ++ MongoFragment.mk (MongoFragment.id r) (MongoFragment.streamId r)
                        (MongoFragment.leaf r)
                        (MongoFragment.relations r
                           ++ [IRelation.mk GreaterThanOrEqualTo (toISOString t) path
                                 (Window.identifier window)])
                        (MongoFragment.count r) (MongoFragment.members r)
                        (MongoFragment.start r) (MongoFragment.end_ r)
                   :: after_)))
  /\ (Window.start window = None ->
      addWindowToRoot window s = (Throw (NoStartDate (Window.identifier window)), s)
      /\ error_class (NoStartDate (Window.identifier window)) = InvalidWindowError).
Proof.
  split.
  - intros t path r Hstart Hc Hpath Hr.
    destruct (update_first_split _
                (push_relations
                   [IRelation.mk GreaterThanOrEqualTo (toISOString t) path
                      (Window.identifier window)]) _ _ Hr)
      as (before & after_ & Hidx & Hbefore & _ & Hupd).
    exists before, after_. repeat split; try assumption.
    unfold addWindowToRoot. rewrite Hstart.
    unfold Date_toISOString. rewrite bind_ret.
    rewrite (bind_Ok _ _ _ _ _ (timestampPath_Ok s path Hpath s eq_refl)).
    rewrite addRelationsToBucket_run by exact Hc.
    now rewrite Hupd.
  - intros Hstart. unfold addWindowToRoot. rewrite Hstart. split; reflexivity.
Qed.

Lemma addWindowToRoot_links_witness :
  (exists before after_,
      index (db Scenario.bootstrapped)
      = before
          ++ MongoFragment.mk "" "stream" true
               [IRelation.mk GreaterThanOrEqualTo "2022-08-07T08:08:21.000Z"
                  "http://www.w3.org/ns/sosa/resultTime" "1659859701000"]
               0 [] None None
          :: after_
      /\ List.find (bucket_filter "stream" root) before = None
      /\ addWindowToRoot (P := JS.platform)
           (Window.mk "1660003200000" None (Some (Some 1660003200000)) None)
           Scenario.bootstrapped
         = (Ok tt,
            with_index Scenario.bootstrapped
              (before
                 ++ MongoFragment.mk "" "stream" true
                      ([IRelation.mk GreaterThanOrEqualTo "2022-08-07T08:08:21.000Z"
                          "http://www.w3.org/ns/sosa/resultTime" "1659859701000"]
                         ++ [IRelation.mk GreaterThanOrEqualTo
                               (JS.toISOString 1660003200000)
                               "http://www.w3.org/ns/sosa/resultTime" "1660003200000"])
                      0 [] None None
                 :: after_)))
  /\ addWindowToRoot (P := JS.platform) (Window.mk "w" None None None)
       Scenario.bootstrapped
     = (Throw (NoStartDate "w"), Scenario.bootstrapped).
Proof.
  split.
  - exact (proj1 (addWindowToRoot_links (P := JS.platform) Scenario.bootstrapped
                    (Window.mk "1660003200000" None (Some (Some 1660003200000)) None))
             1660003200000 "http://www.w3.org/ns/sosa/resultTime" _
             eq_refl eq_refl eq_refl eq_refl).
  - exact (proj1 (proj2 (addWindowToRoot_links (P := JS.platform) Scenario.bootstrapped
                           (Window.mk "w" None None None)) eq_refl)).
Defined.

(** ** Appending below the page size *)

(** C4. When the bucket of the current window holds [n] members and
    [n + 1 > pageSize] is false, [append] adds one document to the data
    collection, the member's identifier and serialised quads, and pushes the
    member's identifier at the end of the members list of that bucket; every
    other document of the index collection, and every other field of the
    bucket, its relations among them, stays as it was. *)
Theorem append_below_pageSize {P : Platform} (s : State) (member : Member.t)
    (cur : Window.t) (n : Z) (p : Number) :
  result getMostRecentWindow s = Ok cur ->
  result (bucketSize cur) s = Ok n ->
  result pageSize s = Ok p ->
  gt (n + 1) p = false ->
  exists before bucket after_,
    index (db s) = before ++ bucket :: after_
    /\ the_bucket s (Window.identifier cur) = Some bucket
    /\ List.find (bucket_filter (stream s) (Window.identifier cur)) before = None
    /\ Z.of_nat (List.length (MongoFragment.members bucket)) = n
    /\ append member s
       = (Ok tt,
          with_index
            (with_data s
               (data (db s)
                  ++ [DataElement.mk (Member.id member)
                        (quadsToString (Member.quads member)) None]))
            (before
               ++ MongoFragment.mk (MongoFragment.id bucket)
                    (MongoFragment.streamId bucket) (MongoFragment.leaf bucket)
                    (MongoFragment.relations bucket) (MongoFragment.count bucket)
                    (MongoFragment.members bucket ++ [Member.id member])
                    (MongoFragment.start bucket) (MongoFragment.end_ bucket)
               :: after_)).
Proof.
  intros Hcur Hn Hp Hgt.
  rewrite (append_store_run s member cur n p Hcur Hn Hp Hgt).
  destruct (getMostRecentWindow_Ok s cur Hcur) as (Hc & _).
  destruct (bucketSize_Ok s cur n Hc Hn) as (_ & bucket & Hb & ->).
  destruct (update_first_split _ (push_members [Member.id member]) _ _ Hb)
    as (before & after_ & Hidx & Hbefore & _ & Hupd).
  exists before, bucket, after_. repeat split; try assumption.
  now rewrite Hupd.
Qed.

Lemma append_below_pageSize_witness :
  exists before bucket after_,
    index (db Scenario.bootstrapped) = before ++ bucket :: after_
    /\ the_bucket Scenario.bootstrapped "1659859701000" = Some bucket
    /\ List.find (bucket_filter "stream" "1659859701000") before = None
    /\ Z.of_nat (List.length (MongoFragment.members bucket)) = 0
    /\ append (P := JS.platform) Scenario.later Scenario.bootstrapped
       = (Ok tt,
          with_index
            (with_data Scenario.bootstrapped
               [DataElement.mk "later"
                  (JS.quadsToString (Member.quads Scenario.later)) None])
            (before
               ++ MongoFragment.mk (MongoFragment.id bucket)
                    (MongoFragment.streamId bucket) (MongoFragment.leaf bucket)
                    (MongoFragment.relations bucket) (MongoFragment.count bucket)
                    (MongoFragment.members bucket ++ ["later"])
                    (MongoFragment.start bucket) (MongoFragment.end_ bucket)
               :: after_)).
Proof.
  exact (append_below_pageSize (P := JS.platform) Scenario.bootstrapped Scenario.later
           (Window.mk "1659859701000" (Some []) (Some (Some 1659859701000))
              (Some (Some 1659859701000)))
           0 (Finite 50) eq_refl eq_refl eq_refl eq_refl).
Defined.

(** ** A full bucket without a timestamp path *)

(** C7. When the bucket of the current window is full and the timestamp
    path is unset (undefined, or the empty string the getter rejects as
    well), [append] throws "TimestampPath was not configured", a
    configuration error, and leaves the whole state as it was. *)
Theorem append_without_timestampPath {P : Platform} (s : State) (member : Member.t)
    (cur : Window.t) (n : Z) (p : Number) :
  result getMostRecentWindow s = Ok cur ->
  result (bucketSize cur) s = Ok n ->
  result pageSize s = Ok p ->
  gt (n + 1) p = true ->
  _timestampPath (this s) = None \/ _timestampPath (this s) = Some "" ->
  append member s = (Throw TimestampPathNotConfigured, s)
  /\ error_class TimestampPathNotConfigured = ConfigurationError.
Proof.
  intros Hcur Hn Hp Hgt Hpath. split; [|reflexivity].
  append_reads Hcur Hn Hp Hc Hbucket. rewrite Hgt.
  now rewrite (bind_Throw _ _ _ _ _ (timestampPath_unset s Hpath)).
Qed.

Lemma append_without_timestampPath_witness :
  append (P := JS.platform) Scenario.later Scenario.unconfigured
  = (Throw TimestampPathNotConfigured, Scenario.unconfigured)
  /\ error_class TimestampPathNotConfigured = ConfigurationError.
Proof.
  exact (append_without_timestampPath (P := JS.platform) Scenario.unconfigured
           Scenario.later
           (Window.mk "1659859701000" (Some ["m0"]) (Some (Some 1659859701000))
              (Some (Some 1659859701000)))
           1 (Finite 1) eq_refl eq_refl eq_refl eq_refl (or_introl eq_refl)).
Defined.

(** ** The member that triggers a split *)

(** C3. A call of [append] that finds the bucket of the current window full
    writes nothing to the data collection and changes no members list,
    whether it completes or throws on the way: the documents that were in
    the index collection keep their identifier, stream and members, in the
    same order, and the documents added hold no member.  So the identifier
    of the member is in a members list afterwards only where it was
    before. *)
Theorem append_split_keeps_members {P : Platform} (s : State) (member : Member.t)
    (cur : Window.t) (n : Z) (p : Number) :
  result getMostRecentWindow s = Ok cur ->
  result (bucketSize cur) s = Ok n ->
  result pageSize s = Ok p ->
  gt (n + 1) p = true ->
  data (db (after (append member) s)) = data (db s)
  /\ (exists created,
         map holding (index (db (after (append member) s)))
         = map holding (index (db s)) ++ map holding created
         /\ Forall (fun b => MongoFragment.members b = []) created)
  /\ (forall b',
         In b' (index (db (after (append member) s))) ->
         In (Member.id member) (MongoFragment.members b') ->
         exists b, In b (index (db s)) /\ holding b = holding b').
Proof.
  intros Hcur Hn Hp Hgt.
  destruct (frame_append_split s member cur n p Hcur Hn Hp Hgt)
    as (_ & _ & Hdata & created & Hmap & Hcreated).
  split; [exact Hdata|]. split; [now exists created|].
  intros b' Hin Hmember. apply (in_map holding) in Hin. rewrite Hmap in Hin.
  apply in_app_or in Hin. destruct Hin as [Hin|Hin]; apply in_map_iff in Hin;
    destruct Hin as (b & Hh & Hb).
  - now exists b.
  - rewrite Forall_forall in Hcreated. injection Hh as _ _ Hm.
    rewrite <- Hm, (Hcreated b Hb) in Hmember. destruct Hmember.
Qed.

Lemma append_split_keeps_members_witness :
  data (db (after (append (P := JS.platform) Scenario.later) Scenario.full))
  = data (db Scenario.full)
  /\ exists created,
       map holding
         (index (db (after (append (P := JS.platform) Scenario.later) Scenario.full)))
       = map holding (index (db Scenario.full)) ++ map holding created
       /\ Forall (fun b => MongoFragment.members b = []) created.
Proof.
  destruct (append_split_keeps_members (P := JS.platform) Scenario.full Scenario.later
              Scenario.current 50 (Finite 50) eq_refl eq_refl eq_refl eq_refl)
    as (Hdata & Hcreated & _).
  split; [exact Hdata|exact Hcreated].
Defined.

(** ** The capacity of a bucket *)

(** C2. With a page size [pageSize] that is not negative, on a stream none
    of whose buckets holds more than [pageSize] members, as is the stream
    [instantiate] creates, [publish] of any members leaves no bucket of the
    stream, closed or open, with more than [pageSize] members; this holds
    also when an [append] throws on the way. *)
Theorem publish_within_pageSize {P : Platform} (members : list Member.t) (s : State)
    (pageSize : Z) :
  _pageSize (this s) = Some pageSize ->
  0 <= pageSize ->
  within_pageSize pageSize s ->
  forall b, In b (buckets (after (publish members) s)) ->
    Z.of_nat (List.length (MongoFragment.members b)) <= pageSize.
Proof.
  intros Hps Hpos. revert s Hps.
  induction members as [|member members IH]; intros s Hps Hs; [exact Hs|].
  destruct (append_within_pageSize s member pageSize Hps Hpos Hs) as [Hs' Ht].
  unfold after in *. simpl. unfold bind.
  destruct (append member s) as [[[]|e] s'] eqn:Ha; simpl in *.
  - apply IH; [congruence|exact Hs'].
  - exact Hs'.
Qed.


Lemma publish_within_pageSize_witness :
  within_pageSize 50
    (after (publish (P := JS.platform) [Scenario.later; Scenario.same_instant])
       Scenario.full).
Proof.
  refine (publish_within_pageSize (P := JS.platform)
            [Scenario.later; Scenario.same_instant] Scenario.full 50 eq_refl _ _).
  - discriminate.
  - intros b Hb. vm_compute in Hb. destruct Hb as [<-|[<-|[]]]; vm_compute; discriminate.
Defined.

(** ** The split *)




(** The same on a second split at the instant of the first: once the window
    that [later] opened is full, one more member of that instant adds a bucket
    without a start under the identifier of that window, and the two
    relations pushed on the root both point at that identifier. *)
Example append_split_same_instant_twice :
  result (append (P := JS.platform) Scenario.later) Scenario.burst = Ok tt
  /\ skipn (List.length (index (db Scenario.burst)))
       (index (db (after (append (P := JS.platform) Scenario.later) Scenario.burst)))
     = [MongoFragment.mk "1660003200000" "stream" true [] 0 [] None None]
  /\ option_map (fun r => skipn 3 (MongoFragment.relations r))
       (the_bucket (after (append (P := JS.platform) Scenario.later) Scenario.burst) root)
     = Some
         [IRelation.mk GreaterThanOrEqualTo "2022-08-09T00:00:00.000Z"
            "http://www.w3.org/ns/sosa/resultTime" "1660003200000";
          IRelation.mk LessThan "2022-08-09T00:00:00.000Z"
            "http://www.w3.org/ns/sosa/resultTime" "1660003200000"].
Proof. vm_compute. repeat split. Qed.

(** ** Running the bootstrap again *)

(** C8. For a stream whose metadata is in the meta collection, [initialise]
    returns without a write to the database, whatever metadata it is given,
    and [instantiate] leaves the meta and data collections as they were;
    when the root bucket exists as well, [instantiate] returns with the
    database untouched: it only connects and sets the page size, the
    timestamp path and the metadata of the ingestor. *)
Theorem instantiate_existing_stream {P : Platform} (s : State) (config : string) :
  (exists m, In m (meta (db s)) /\ MetaDocument.id m = stream s) ->
  (forall sdsMetadata,
      result (initialise sdsMetadata) s = Ok tt
      /\ db (after (initialise sdsMetadata) s) = db s)
  /\ meta (db (after (instantiate config) s)) = meta (db s)
  /\ data (db (after (instantiate config) s)) = data (db s)
  /\ ((exists r, In r (buckets s) /\ MongoFragment.id r = root) ->
      instantiate config s = (Ok tt, configured s config)).
Proof.
  intros Hmeta. split; [|split; [|split]].
  - intros sdsMetadata. unfold result, after.
    now rewrite (initialise_existing s sdsMetadata Hmeta).
  - unfold after. rewrite (instantiate_existing s config Hmeta).
    destruct (frame_instantiate_buckets (configured s config)) as (_ & Hm & _).
    exact Hm.
  - unfold after. rewrite (instantiate_existing s config Hmeta).
    destruct (frame_instantiate_buckets (configured s config))
      as (_ & _ & Hd & _).
    exact Hd.
  - intros (r & Hr & Hid).
    rewrite (instantiate_existing s config Hmeta).
    rewrite (bind_Ok _ _ _ _ _ (bucketExists_run (configured s config) root eq_refl)).
    change (the_bucket (configured s config) root) with (the_bucket s root).
    destruct (the_bucket s root) as [r'|] eqn:Hroot; [reflexivity|].
    exfalso. apply (proj1 (the_bucket_None s root) Hroot r Hr Hid).
Qed.

Lemma instantiate_existing_stream_witness :
  instantiate (P := JS.platform) "metadata" Scenario.bootstrapped
  = (Ok tt, Scenario.bootstrapped).
Proof.
  refine (proj2 (proj2 (proj2
    (instantiate_existing_stream (P := JS.platform) Scenario.bootstrapped "metadata"
       (ex_intro _ (MetaDocument.mk "stream" "metadata" "https://w3id.org/sds#Stream")
          (conj (or_introl eq_refl) eq_refl))))) _).
  exists (MongoFragment.mk "" "stream" true
            [IRelation.mk GreaterThanOrEqualTo "2022-08-07T08:08:21.000Z"
               "http://www.w3.org/ns/sosa/resultTime" "1659859701000"]
            0 [] None None).
  split; [left; reflexivity|reflexivity].
Defined.

(** * Further properties *)

(** ** Collections, continued *)

Lemma update_first_absent {D : Type} (f : D -> bool) (u : D -> D) (c : list D) :
  List.find f c = None -> update_first f u c = c.
Proof.
  induction c as [|d c IH]; simpl; [reflexivity|].
  destruct (f d); [discriminate|]. intros H. now rewrite IH.
Qed.

Lemma update_first_twice {D : Type} (f : D -> bool) (u v : D -> D) (c : list D) :
  (forall d, f d = true -> f (u d) = true) ->
  update_first f v (update_first f u c) = update_first f (fun d => v (u d)) c.
Proof.
  intros Hu. induction c as [|d c IH]; simpl; [reflexivity|].
  destruct (f d) eqn:Hd; simpl.
  - now rewrite (Hu d Hd).
  - now rewrite Hd, IH.
Qed.

Lemma update_first_ext {D : Type} (f : D -> bool) (u v : D -> D) (c : list D) :
  (forall d, u d = v d) -> update_first f u c = update_first f v c.
Proof.
  intros H. induction c as [|d c IH]; simpl; [reflexivity|].
  destruct (f d); [now rewrite H|now rewrite IH].
Qed.

Lemma update_first_id {D : Type} (f : D -> bool) (u : D -> D) (c : list D) :
  (forall d, u d = d) -> update_first f u c = c.
Proof.
  intros H. induction c as [|d c IH]; simpl; [reflexivity|].
  destruct (f d); [now rewrite H|now rewrite IH].
Qed.

Lemma the_bucket_with_index (s : State) (c : list MongoFragment.t) (x : string) :
  the_bucket (with_index s c) x = List.find (bucket_filter (stream s) x) c.
Proof. reflexivity. Qed.

Lemma bucket_filter_empty_bucket (s : State) (x y : string) :
  bucket_filter (stream s) x (empty_bucket s y) = (y =? x)%string.
Proof.
  unfold bucket_filter, empty_bucket. cbn. now rewrite String.eqb_refl, andb_true_r.
Qed.

Lemma string_of_uint_nonempty (d : Decimal.uint) :
  d <> Decimal.Nil -> NilEmpty.string_of_uint d <> "".
Proof. destruct d; simpl; congruence. Qed.

(** The decimal rendering of a time value is never the identifier of the
    root. *)
Lemma valueOf_string_not_root (date : Date) : valueOf_string date <> root.
Proof.
  unfold root. destruct date as [[|p|p]|]; simpl; try discriminate.
  apply string_of_uint_nonempty, Unsigned.to_uint_nonnil.
Qed.

Lemma buckets_none (s : State) (x : string) :
  buckets s = [] -> List.find (bucket_filter (stream s) x) (index (db s)) = None.
Proof.
  intros H. apply (proj2 (the_bucket_None s x)). intros b Hb. rewrite H in Hb. destruct Hb.
Qed.

(** ** Before and at [initialise] *)

Section Unconnected.
Context {P : Platform}.

(** X1. On an ingestor that is not connected, every method that reaches a
    collection throws "Not connected ..." and leaves the state as it was:
    the reads and writes of the index collection, [storeMembers] on the data
    collection, [createWindow], [append], and [publish] of a batch that is
    not empty. *)
Theorem not_connected_throws (s : State) :
  mongoConnection (this s) = false ->
  getMostRecentWindow s = (Throw (NotConnected "index"), s)
  /\ (forall window, bucketSize window s = (Throw (NotConnected "index"), s))
  /\ (forall identifier, bucketExists identifier s = (Throw (NotConnected "index"), s))
  /\ (forall identifier, createBucket identifier s = (Throw (NotConnected "index"), s))
  /\ (forall identifier ids,
         addMemberstoBucket identifier ids s = (Throw (NotConnected "index"), s))
  /\ (forall identifier rels,
         addRelationsToBucket identifier rels s = (Throw (NotConnected "index"), s))
  /\ (forall members, storeMembers members s = (Throw (NotConnected "data"), s))
  /\ (forall window, createWindow window s = (Throw (NotConnected "index"), s))
  /\ (forall member, append member s = (Throw (NotConnected "index"), s))
  /\ (forall member members,
         publish (member :: members) s = (Throw (NotConnected "index"), s)).
Proof.
  intros Hc.
  assert (Hcur : getMostRecentWindow s = (Throw (NotConnected "index"), s))
    by now apply getMostRecentWindow_disconnected.
  assert (Hcreate : forall identifier,
             createBucket identifier s = (Throw (NotConnected "index"), s)).
  { intros identifier. unfold createBucket. rewrite bind_get_this.
    now apply index_disconnected. }
  assert (Happend : forall member, append member s = (Throw (NotConnected "index"), s)).
  { intros member. unfold append. now rewrite (bind_Throw _ _ _ _ _ Hcur). }
  repeat split.
  - exact Hcur.
  - intros window. unfold bucketSize. rewrite bind_get_this.
    now erewrite bind_Throw by (now apply index_disconnected).
  - intros identifier. unfold bucketExists. rewrite bind_get_this.
    now erewrite bind_Throw by (now apply index_disconnected).
  - exact Hcreate.
  - intros identifier ids. unfold addMemberstoBucket. rewrite bind_get_this.
    now apply index_disconnected.
  - intros identifier rels. unfold addRelationsToBucket. rewrite bind_get_this.
    now apply index_disconnected.
  - intros members. unfold storeMembers, dbDataCollection. now rewrite Hc.
  - intros window. unfold createWindow. now rewrite (bind_Throw _ _ _ _ _ (Hcreate _)).
  - exact Happend.
  - intros member members. simpl. now rewrite (bind_Throw _ _ _ _ _ (Happend _)).
Qed.

End Unconnected.

Lemma not_connected_throws_witness :
  append (P := JS.platform) Scenario.later Scenario.fresh
  = (Throw (NotConnected "index"), Scenario.fresh).
Proof.
  exact (proj1 (proj2 (proj2 (proj2 (proj2 (proj2 (proj2 (proj2 (proj2
    (not_connected_throws (P := JS.platform) Scenario.fresh eq_refl)))))))))
    Scenario.later).
Defined.

(** X2. On a stream the meta collection does not hold, [initialise]
    connects first.  Without metadata, or with the empty string, it then
    throws "No way to create SDS metadata" and the ingestor stays connected;
    with metadata it appends one document of type [sds:Stream], under the
    stream identifier, to the meta collection. *)
Theorem initialise_new_stream (s : State) :
  (forall m, In m (meta (db s)) -> MetaDocument.id m <> stream s) ->
  initialise None s = (Throw NoSdsMetadata, connected s)
  /\ initialise (Some "") s = (Throw NoSdsMetadata, connected s)
  /\ (forall value,
         value <> "" ->
         initialise (Some value) s
         = (Ok tt,
            with_meta (connected s)
              (meta (db s) ++ [MetaDocument.mk (stream s) value SDS_Stream]))).
Proof.
  intros Hnew.
  assert (Hf : List.find (fun d => (MetaDocument.id d =? stream s)%string) (meta (db s))
               = None).
  { apply find_none_forall. intros d Hd. apply String.eqb_neq. now apply Hnew. }
  unfold initialise, bind, connect, set_this, get_this, dbMetaCollection, findOne,
    insertOne, connected, with_meta, stream in *.
  cbn [this db mongoConnection sdsStreamIdentifier fst snd meta data index].
  rewrite Hf. destruct s as [i [m d x]].
  split; [reflexivity|]. split; [reflexivity|].
  intros [|c v] Hv; [contradiction|]. reflexivity.
Qed.

Lemma initialise_new_stream_witness :
  initialise None Scenario.fresh = (Throw NoSdsMetadata, connected Scenario.fresh)
  /\ initialise (Some "metadata") Scenario.fresh
     = (Ok tt,
        with_meta (connected Scenario.fresh)
          [MetaDocument.mk "stream" "metadata" SDS_Stream]).
Proof.
  destruct (initialise_new_stream Scenario.fresh (fun m (H : In m []) => match H with end))
    as (Hnone & _ & Hsome).
  split; [exact Hnone|]. apply Hsome. discriminate.
Defined.

(** ** The bucket store *)

(** X3. On a connected ingestor [createBucket] appends an empty leaf bucket
    of the stream (no relation, no member, count 0, no start, no end) and
    does not look for a bucket of that identifier first.  Afterwards
    [bucketExists] answers true, a lookup of the identifier finds the older
    bucket when there was one and the new one otherwise, and the other
    identifiers are found as before.  [bucketExists] answers true exactly
    when the index collection holds a bucket of the stream under the
    identifier. *)
Theorem createBucket_lookup (s : State) (identifier : string) :
  mongoConnection (this s) = true ->
  createBucket identifier s
  = (Ok tt, with_index s (index (db s) ++ [empty_bucket s identifier]))
  /\ result (bucketExists identifier) (after (createBucket identifier) s) = Ok true
  /\ the_bucket (after (createBucket identifier) s) identifier
     = match the_bucket s identifier with
       | Some older => Some older
       | None => Some (empty_bucket s identifier)
       end
  /\ (forall other,
         other <> identifier ->
         the_bucket (after (createBucket identifier) s) other = the_bucket s other)
  /\ (result (bucketExists identifier) s = Ok true
      <-> exists b,
            In b (index (db s))
            /\ MongoFragment.id b = identifier
            /\ MongoFragment.streamId b = stream s).
Proof.
  intros Hc. pose proof (createBucket_run s identifier Hc) as Hrun.
  fold (empty_bucket s identifier) in Hrun.
  unfold after, result. rewrite Hrun. cbn [fst snd].
  assert (Hlook : the_bucket (with_index s (index (db s) ++ [empty_bucket s identifier]))
                    identifier
                  = match the_bucket s identifier with
                    | Some older => Some older
                    | None => Some (empty_bucket s identifier)
                    end).
  { rewrite the_bucket_with_index, find_app. fold (the_bucket s identifier).
    destruct (the_bucket s identifier); [reflexivity|].
    cbn [List.find]. now rewrite bucket_filter_empty_bucket, String.eqb_refl. }
  split; [reflexivity|]. split; [|split; [exact Hlook|split]].
  - rewrite bucketExists_run by exact Hc. cbn [fst]. rewrite Hlook.
    now destruct (the_bucket s identifier).
  - intros other Hother. rewrite the_bucket_with_index, find_app.
    fold (the_bucket s other). destruct (the_bucket s other); [reflexivity|].
    cbn [List.find]. rewrite bucket_filter_empty_bucket.
    apply not_eq_sym, String.eqb_neq in Hother. now rewrite Hother.
  - rewrite bucketExists_run by exact Hc. cbn [fst]. split.
    + destruct (the_bucket s identifier) as [b|] eqn:Hb; [|discriminate].
      intros _. exists b. apply the_bucket_Some in Hb. destruct Hb as [Hin Hid].
      apply In_buckets in Hin. tauto.
    + intros (b & Hin & Hid & Hs).
      destruct (the_bucket s identifier) as [b'|] eqn:Hb; [reflexivity|].
      exfalso. apply (proj1 (the_bucket_None s identifier) Hb b); [|exact Hid].
      apply In_buckets. tauto.
Qed.

Lemma createBucket_lookup_witness :
  the_bucket (after (createBucket "1659859701000") Scenario.bootstrapped) "1659859701000"
  = the_bucket Scenario.bootstrapped "1659859701000"
  /\ the_bucket (after (createBucket "new") Scenario.bootstrapped) "new"
     = Some (empty_bucket Scenario.bootstrapped "new").
Proof.
  split.
  - exact (proj1 (proj2 (proj2
      (createBucket_lookup Scenario.bootstrapped "1659859701000" eq_refl)))).
  - exact (proj1 (proj2 (proj2 (createBucket_lookup Scenario.bootstrapped "new" eq_refl)))).
Defined.

(** X4. On a connected ingestor [addMemberstoBucket] pushes the
    identifiers, in order, at the end of the members of the bucket of the
    stream found under the identifier: [bucketSize] goes up by their number
    and the other buckets are found as before.  When no bucket has the
    identifier it succeeds and changes nothing.  Two calls in a row leave
    the store as one call with both lists does. *)
Theorem addMemberstoBucket_occupancy (s : State) (identifier : string)
    (memberIDs : list string) :
  mongoConnection (this s) = true ->
  (the_bucket s identifier = None ->
   addMemberstoBucket identifier memberIDs s = (Ok tt, s))
  /\ (forall bucket,
         the_bucket s identifier = Some bucket ->
         result (addMemberstoBucket identifier memberIDs) s = Ok tt
         /\ the_bucket (after (addMemberstoBucket identifier memberIDs) s) identifier
            = Some (push_members memberIDs bucket)
         /\ result (bucketSize (Window.mk identifier None None None))
              (after (addMemberstoBucket identifier memberIDs) s)
            = Ok (Z.of_nat (List.length (MongoFragment.members bucket))
                  + Z.of_nat (List.length memberIDs))
         /\ (forall other,
                other <> identifier ->
                the_bucket (after (addMemberstoBucket identifier memberIDs) s) other
                = the_bucket s other))
  /\ (forall more,
         after (addMemberstoBucket identifier more)
           (after (addMemberstoBucket identifier memberIDs) s)
         = after (addMemberstoBucket identifier (memberIDs ++ more)) s).
Proof.
  intros Hc. unfold after, result.
  rewrite !(addMemberstoBucket_run s identifier _ Hc). cbn [fst snd].
  split; [|split].
  - intros Hnone. unfold the_bucket in Hnone.
    now rewrite (update_first_absent _ _ _ Hnone), state_eta.
  - intros bucket Hb. split; [reflexivity|].
    assert (Hlook : forall x,
               the_bucket
                 (with_index s
                    (update_first (bucket_filter (stream s) identifier)
                       (push_members memberIDs) (index (db s)))) x
               = if (x =? identifier)%string
                 then option_map (push_members memberIDs) (the_bucket s x)
                 else the_bucket s x).
    { intros x. rewrite the_bucket_with_index.
      now rewrite find_bucket_update by reflexivity. }
    split; [|split].
    + now rewrite Hlook, String.eqb_refl, Hb.
    + rewrite bucketSize_run by exact Hc. cbn [fst Window.identifier].
      rewrite Hlook, String.eqb_refl, Hb. cbn. now rewrite length_app, Nat2Z.inj_add.
    + intros other Hother. rewrite Hlook. apply String.eqb_neq in Hother.
      now rewrite Hother.
  - intros more.
    rewrite (addMemberstoBucket_run (with_index s _) identifier more Hc).
    rewrite (addMemberstoBucket_run s identifier (memberIDs ++ more) Hc). cbn [snd].
    unfold with_index. cbn [this db meta data index]. f_equal. f_equal.
    change (stream {| this := this s; db := _ |}) with (stream s).
    rewrite update_first_twice by (intros d Hd; exact Hd).
    apply update_first_ext. intros d. unfold push_members. cbn.
    now rewrite app_assoc.
Qed.

Lemma addMemberstoBucket_occupancy_witness :
  addMemberstoBucket "nowhere" ["m"] Scenario.bootstrapped = (Ok tt, Scenario.bootstrapped)
  /\ result (bucketSize (Window.mk "1659859701000" None None None))
       (after (addMemberstoBucket "1659859701000" ["a"; "b"]) Scenario.full)
     = Ok (50 + 2).
Proof.
  split.
  - exact (proj1 (addMemberstoBucket_occupancy Scenario.bootstrapped "nowhere" ["m"]
                    eq_refl) eq_refl).
  - exact (proj1 (proj2 (proj2
      (proj1 (proj2 (addMemberstoBucket_occupancy Scenario.full "1659859701000" ["a"; "b"]
                       eq_refl)) _ eq_refl)))).
Defined.

(** X5. On a connected ingestor [addRelationsToBucket] pushes the
    relations, in order, at the end of the relations of the bucket of the
    stream found under the identifier, and checks neither that bucket nor
    the buckets the relations point at: the other buckets are found as
    before, no occupancy changes, and when no bucket has the identifier it
    succeeds and changes nothing.  Two calls in a row leave the store as one
    call with both lists does. *)
Theorem addRelationsToBucket_unchecked (s : State) (identifier : string)
    (relations : list IRelation.t) :
  mongoConnection (this s) = true ->
  (the_bucket s identifier = None ->
   addRelationsToBucket identifier relations s = (Ok tt, s))
  /\ (forall bucket,
         the_bucket s identifier = Some bucket ->
         result (addRelationsToBucket identifier relations) s = Ok tt
         /\ the_bucket (after (addRelationsToBucket identifier relations) s) identifier
            = Some (push_relations relations bucket)
         /\ (forall other,
                other <> identifier ->
                the_bucket (after (addRelationsToBucket identifier relations) s) other
                = the_bucket s other)
         /\ map holding (index (db (after (addRelationsToBucket identifier relations) s)))
            = map holding (index (db s)))
  /\ (forall more,
         after (addRelationsToBucket identifier more)
           (after (addRelationsToBucket identifier relations) s)
         = after (addRelationsToBucket identifier (relations ++ more)) s).
Proof.
  intros Hc. unfold after, result.
  rewrite !(addRelationsToBucket_run s identifier _ Hc). cbn [fst snd].
  split; [|split].
  - intros Hnone. unfold the_bucket in Hnone.
    now rewrite (update_first_absent _ _ _ Hnone), state_eta.
  - intros bucket Hb. split; [reflexivity|].
    assert (Hlook : forall x,
               the_bucket
                 (with_index s
                    (update_first (bucket_filter (stream s) identifier)
                       (push_relations relations) (index (db s)))) x
               = if (x =? identifier)%string
                 then option_map (push_relations relations) (the_bucket s x)
                 else the_bucket s x).
    { intros x. rewrite the_bucket_with_index.
      now rewrite find_bucket_update by reflexivity. }
    split; [|split].
    + now rewrite Hlook, String.eqb_refl, Hb.
    + intros other Hother. rewrite Hlook. apply String.eqb_neq in Hother.
      now rewrite Hother.
    + cbn [db index with_index]. now apply map_update_first.
  - intros more.
    rewrite (addRelationsToBucket_run (with_index s _) identifier more Hc).
    rewrite (addRelationsToBucket_run s identifier (relations ++ more) Hc). cbn [snd].
    unfold with_index. cbn [this db meta data index]. f_equal. f_equal.
    change (stream {| this := this s; db := _ |}) with (stream s).
    rewrite update_first_twice by (intros d Hd; exact Hd).
    apply update_first_ext. intros d. unfold push_relations. cbn.
    now rewrite app_assoc.
Qed.

Lemma addRelationsToBucket_unchecked_witness :
  addRelationsToBucket "nowhere" [IRelation.mk LessThan "v" "p" "b"] Scenario.bootstrapped
  = (Ok tt, Scenario.bootstrapped)
  /\ option_map (fun r => List.length (MongoFragment.relations r))
       (the_bucket
          (after (addRelationsToBucket root [IRelation.mk LessThan "v" "p" "nowhere"])
             Scenario.bootstrapped) root)
     = Some 2%nat.
Proof.
  split.
  - exact (proj1 (addRelationsToBucket_unchecked Scenario.bootstrapped "nowhere"
                    [IRelation.mk LessThan "v" "p" "b"] eq_refl) eq_refl).
  - rewrite (proj1 (proj2
      (proj1 (proj2 (addRelationsToBucket_unchecked Scenario.bootstrapped root
                       [IRelation.mk LessThan "v" "p" "nowhere"] eq_refl)) _ eq_refl))).
    reflexivity.
Defined.

Section StoreMembers.
Context {P : Platform}.

(** X6. On a connected ingestor [storeMembers] of a batch that is not
    empty appends to the data collection one document per member, in the
    order of the batch: the member's identifier, its quads as a string, and
    no timestamp.  Storing a batch in two parts is storing it at once. *)
Theorem storeMembers_appends (s : State) (members : list Member.t) :
  mongoConnection (this s) = true ->
  members <> [] ->
  storeMembers members s
  = (Ok tt, with_data s (data (db s) ++ map dataElement members))
  /\ (forall more,
         more <> [] ->
         storeMembers (members ++ more) s
         = (await storeMembers members ;; storeMembers more) s).
Proof.
  intros Hc _. unfold storeMembers, dbDataCollection, insertMany, bind.
  rewrite Hc. cbn [fst snd]. split; [reflexivity|].
  intros more _. cbn [this db with_data mongoConnection]. rewrite Hc.
  cbn [fst snd meta data index]. now rewrite map_app, app_assoc.
Qed.

End StoreMembers.

Lemma storeMembers_appends_witness :
  storeMembers (P := JS.platform) [Scenario.later; Scenario.later] Scenario.bootstrapped
  = (Ok tt,
     with_data Scenario.bootstrapped
       [dataElement (P := JS.platform) Scenario.later;
        dataElement (P := JS.platform) Scenario.later]).
Proof.
  refine (proj1 (storeMembers_appends (P := JS.platform) Scenario.bootstrapped
                   [Scenario.later; Scenario.later] eq_refl _)).
  discriminate.
Defined.

(** ** Windows *)

Section Windows.
Context {P : Platform}.

Lemma windowParam_renders (s : State) (date : option Date) :
  renders date -> windowParam date s = (Ok (windowField date), s).
Proof. destruct date as [[t|]|]; intros H; [reflexivity|now destruct H|reflexivity]. Qed.

Lemma windowParam_invalid (s : State) : windowParam (Some None) s = (Throw RangeError, s).
Proof. reflexivity. Qed.

Lemma renders_dec (date : option Date) : renders date \/ date = Some None.
Proof.
  destruct date as [[t|]|];
    [left; unfold renders; discriminate | right; reflexivity
    | left; unfold renders; discriminate].
Qed.

(** X7. On a connected ingestor [updateWindow] on a window whose start and
    end are each absent or a valid date succeeds: on the bucket of the
    stream found under the identifier it sets the start and the end that are
    given, as ISO strings, and leaves a field whose date is absent as it
    was; the other buckets and every occupancy stay, and nothing changes
    when no bucket has the identifier.  When the start or the end is an
    Invalid Date it throws a [RangeError] before it writes. *)
Theorem updateWindow_sets (s : State) (window : Window.t) :
  mongoConnection (this s) = true ->
  (renders (Window.start window) ->
   renders (Window.end_ window) ->
   result (updateWindow window) s = Ok tt
   /\ (the_bucket s (Window.identifier window) = None -> after (updateWindow window) s = s)
   /\ (forall bucket,
          the_bucket s (Window.identifier window) = Some bucket ->
          the_bucket (after (updateWindow window) s) (Window.identifier window)
          = Some (set_window (windowField (Window.start window))
                    (windowField (Window.end_ window)) bucket))
   /\ (forall other,
          other <> Window.identifier window ->
          the_bucket (after (updateWindow window) s) other = the_bucket s other)
   /\ map holding (index (db (after (updateWindow window) s)))
      = map holding (index (db s)))
  /\ (~ (renders (Window.start window) /\ renders (Window.end_ window)) ->
      updateWindow window s = (Throw RangeError, s)).
Proof.
  intros Hc. split.
  - intros Hs He. unfold result, after, updateWindow.
    rewrite (set_window_run s _ _ _ _ _ Hc (windowParam_renders s _ Hs)
               (windowParam_renders s _ He)).
    cbn [fst snd]. split; [reflexivity|]. split; [|split; [|split]].
    + intros Hnone. unfold the_bucket in Hnone.
      now rewrite (update_first_absent _ _ _ Hnone), state_eta.
    + intros bucket Hb. rewrite the_bucket_with_index.
      rewrite find_bucket_update by reflexivity. fold (the_bucket s (Window.identifier window)).
      now rewrite String.eqb_refl, Hb.
    + intros other Hother. rewrite the_bucket_with_index.
      rewrite find_bucket_update by reflexivity. apply String.eqb_neq in Hother.
      now rewrite Hother.
    + cbn [db index with_index]. now apply map_update_first.
  - intros Hnot. unfold updateWindow.
    destruct (renders_dec (Window.start window)) as [Hs|Hs].
    + destruct (renders_dec (Window.end_ window)) as [He|He]; [tauto|].
      rewrite (bind_Ok _ _ _ _ _ (windowParam_renders s _ Hs)). now rewrite He.
    + now rewrite Hs.
Qed.

(** [createWindow] on a window with an Invalid Date: the bucket is inserted
    before [toISOString] throws. *)
Lemma createWindow_invalid (s : State) (window : Window.t) :
  mongoConnection (this s) = true ->
  ~ (renders (Window.start window) /\ renders (Window.end_ window)) ->
  createWindow window s
  = (Throw RangeError,
     with_index s (index (db s) ++ [empty_bucket s (Window.identifier window)])).
Proof.
  intros Hc Hnot. pose proof (createBucket_run s (Window.identifier window) Hc) as Hcreate.
  fold (empty_bucket s (Window.identifier window)) in Hcreate.
  set (s1 := with_index s (index (db s) ++ [empty_bucket s (Window.identifier window)]))
    in *.
  unfold createWindow. rewrite (bind_Ok _ _ _ _ _ Hcreate).
  destruct (renders_dec (Window.start window)) as [Hs|Hs].
  - destruct (renders_dec (Window.end_ window)) as [He|He]; [tauto|].
    rewrite (bind_Ok _ _ _ _ _ (windowParam_renders s1 _ Hs)). now rewrite He.
  - now rewrite Hs.
Qed.

(** X8. On a connected ingestor [createWindow] on a window whose start and
    end are each absent or a valid date succeeds.  When no bucket of the
    stream has the identifier, the index collection gains one bucket, empty
    and with the start and the end given: a lookup finds it, its occupancy
    is 0, and read back with [documentToWindow] it is a window that starts
    and ends at the start given (a start whose ISO string parses back to
    it).  When a bucket has the identifier already, the empty bucket is
    appended all the same and the dates are set on the older bucket, which
    a lookup still finds.  When the start or the end is an Invalid Date the
    empty bucket is inserted and then a [RangeError] is thrown. *)
Theorem createWindow_lookup (s : State) (window : Window.t) :
  mongoConnection (this s) = true ->
  (renders (Window.start window) ->
   renders (Window.end_ window) ->
   result (createWindow window) s = Ok tt
   /\ (the_bucket s (Window.identifier window) = None ->
       index (db (after (createWindow window) s))
       = index (db s)
           ++ [set_window (windowField (Window.start window))
                 (windowField (Window.end_ window))
                 (empty_bucket s (Window.identifier window))]
       /\ the_bucket (after (createWindow window) s) (Window.identifier window)
          = Some (set_window (windowField (Window.start window))
                    (windowField (Window.end_ window))
                    (empty_bucket s (Window.identifier window)))
       /\ result (bucketSize window) (after (createWindow window) s) = Ok 0
       /\ (forall t,
              Window.start window = Some (Some t) ->
              Date_parse (toISOString t) = Some t ->
              option_map documentToWindow
                (the_bucket (after (createWindow window) s) (Window.identifier window))
              = Some (Window.mk (Window.identifier window) (Some []) (Some (Some t))
                        (Some (Some t)))))
   /\ (forall older,
          the_bucket s (Window.identifier window) = Some older ->
          index (db (after (createWindow window) s))
          = update_first (bucket_filter (stream s) (Window.identifier window))
              (set_window (windowField (Window.start window))
                 (windowField (Window.end_ window)))
              (index (db s))
              ++ [empty_bucket s (Window.identifier window)]
          /\ the_bucket (after (createWindow window) s) (Window.identifier window)
             = Some (set_window (windowField (Window.start window))
                       (windowField (Window.end_ window)) older)))
  /\ (~ (renders (Window.start window) /\ renders (Window.end_ window)) ->
      createWindow window s
      = (Throw RangeError,
         with_index s (index (db s) ++ [empty_bucket s (Window.identifier window)]))).
Proof.
  intros Hc. pose proof (createBucket_run s (Window.identifier window) Hc) as Hcreate.
  fold (empty_bucket s (Window.identifier window)) in Hcreate.
  set (s1 := with_index s (index (db s) ++ [empty_bucket s (Window.identifier window)]))
    in *.
  split.
  - intros Hs He. unfold result, after, createWindow.
    rewrite (bind_Ok _ _ _ _ _ Hcreate).
    rewrite (set_window_run s1 _ _ _ _ _ Hc (windowParam_renders s1 _ Hs)
               (windowParam_renders s1 _ He)).
    cbn [fst snd]. split; [reflexivity|].
    change (stream s1) with (stream s). change (index (db s1))
      with (index (db s) ++ [empty_bucket s (Window.identifier window)]).
    change (with_index s1) with (with_index s).
    set (u := set_window _ _). set (F := bucket_filter (stream s)).
    split.
    + intros Hnone. unfold the_bucket in Hnone. fold F in Hnone.
      assert (Hidx : update_first (F (Window.identifier window)) u
                       (index (db s) ++ [empty_bucket s (Window.identifier window)])
                     = index (db s) ++ [u (empty_bucket s (Window.identifier window))]).
      { rewrite (update_first_app_none _ _ _ _ Hnone). cbn [update_first].
        unfold F. now rewrite bucket_filter_empty_bucket, String.eqb_refl. }
      rewrite Hidx.
      assert (Hlook : the_bucket
                        (with_index s
                           (index (db s) ++ [u (empty_bucket s (Window.identifier window))]))
                        (Window.identifier window)
                      = Some (u (empty_bucket s (Window.identifier window)))).
      { rewrite the_bucket_with_index, find_app. fold F. rewrite Hnone.
        cbn [List.find]. unfold F, u, set_window, bucket_filter, empty_bucket. cbn.
        now rewrite !String.eqb_refl. }
      split; [reflexivity|]. split; [exact Hlook|]. split.
      * rewrite bucketSize_run by exact Hc. cbn [fst]. now rewrite Hlook.
      * intros t Hstart Hparse. rewrite Hlook. unfold u. rewrite Hstart.
        unfold documentToWindow, set_window, empty_bucket, windowField, new_Date. cbn.
        now rewrite Hparse.
    + intros older Holder. unfold the_bucket in Holder. fold F in Holder.
      rewrite (update_first_app_some _ _ _ _ _ Holder). split; [reflexivity|].
      rewrite the_bucket_with_index, find_app. fold F.
      unfold F. rewrite find_bucket_update by reflexivity. fold F.
      now rewrite String.eqb_refl, Holder.
  - intros Hnot. exact (createWindow_invalid s window Hc Hnot).
Qed.

(** X9. When the current bucket is full and [extractDate] answers an
    Invalid Date for the member, [append] throws a [RangeError] after it
    has inserted an empty bucket of identifier "NaN", and writes nothing
    else. *)
Theorem append_invalid_date (s : State) (member : Member.t) (cur : Window.t) (n : Z)
    (p : Number) (path : string) :
  result getMostRecentWindow s = Ok cur ->
  result (bucketSize cur) s = Ok n ->
  result pageSize s = Ok p ->
  gt (n + 1) p = true ->
  result timestampPath s = Ok path ->
  extractDate (Member.quads member) path = Ok None ->
  append member s
  = (Throw RangeError, with_index s (index (db s) ++ [empty_bucket s "NaN"])).
Proof.
  intros Hcur Hn Hp Hgt Hpath Hdate.
  append_reads Hcur Hn Hp Hc Hbucket. rewrite Hgt.
  rewrite (bind_Ok _ _ _ _ _ (timestampPath_Ok s path Hpath s eq_refl)).
  rewrite Hdate, bind_lift_Ok.
  erewrite bind_Throw; [reflexivity|].
  apply createWindow_invalid; [exact Hc|].
  cbn. unfold renders. tauto.
Qed.

End Windows.

Lemma renders_valid (t : Z) : renders (Some (Some t)).
Proof. unfold renders. discriminate. Qed.
Lemma renders_absent : renders None.
Proof. unfold renders. discriminate. Qed.

Lemma updateWindow_sets_witness :
  the_bucket
    (after (updateWindow (P := JS.platform)
              (Window.mk "1659859701000" None None (Some (Some 1660003200000))))
       Scenario.bootstrapped)
    "1659859701000"
  = Some (MongoFragment.mk "1659859701000" "stream" true [] 0 []
            (Some "2022-08-07T08:08:21.000Z") (Some (JS.toISOString 1660003200000)))
  /\ updateWindow (P := JS.platform) (Window.mk "1659859701000" None (Some None) None)
       Scenario.bootstrapped
     = (Throw RangeError, Scenario.bootstrapped).
Proof.
  split.
  - exact (proj1 (proj2 (proj2
      (proj1 (updateWindow_sets (P := JS.platform) Scenario.bootstrapped
                (Window.mk "1659859701000" None None (Some (Some 1660003200000))) eq_refl)
         renders_absent (renders_valid _))))
      (MongoFragment.mk "1659859701000" "stream" true [] 0 []
            (Some "2022-08-07T08:08:21.000Z") None) eq_refl).
  - refine (proj2 (updateWindow_sets (P := JS.platform) Scenario.bootstrapped
                     (Window.mk "1659859701000" None (Some None) None) eq_refl) _).
    intros [H _]. now apply H.
Defined.

Lemma createWindow_lookup_witness :
  option_map (documentToWindow (P := JS.platform))
    (the_bucket
       (after (createWindow (P := JS.platform)
                 (Window.mk "w" None (Some (Some 1660003200000)) (Some (Some 1660003300000))))
          Scenario.bootstrapped)
       "w")
  = Some (Window.mk "w" (Some []) (Some (Some 1660003200000)) (Some (Some 1660003200000)))
  /\ the_bucket
       (after (createWindow (P := JS.platform)
                 (Window.mk "1659859701000" None (Some (Some 1660003200000)) None))
          Scenario.full)
       "1659859701000"
     = option_map (set_window (Some (JS.toISOString 1660003200000)) None)
         (the_bucket Scenario.full "1659859701000").
Proof.
  split.
  - refine (proj2 (proj2 (proj2 (proj1 (proj2
      (proj1 (createWindow_lookup (P := JS.platform) Scenario.bootstrapped
                (Window.mk "w" None (Some (Some 1660003200000)) (Some (Some 1660003300000)))
                eq_refl) (renders_valid _) (renders_valid _))) eq_refl)))
      1660003200000 eq_refl _).
    vm_compute. reflexivity.
  - destruct (the_bucket Scenario.full "1659859701000") as [older|] eqn:Holder;
      [|discriminate Holder].
    exact (proj2 (proj2 (proj2
      (proj1 (createWindow_lookup (P := JS.platform) Scenario.full
                (Window.mk "1659859701000" None (Some (Some 1660003200000)) None)
                eq_refl) (renders_valid _) renders_absent)) older Holder)).
Defined.

Lemma append_invalid_date_witness :
  append (P := JS.platform) Scenario.garbled Scenario.full
  = (Throw RangeError,
     with_index Scenario.full (index (db Scenario.full) ++ [empty_bucket Scenario.full "NaN"])).
Proof.
  exact (append_invalid_date (P := JS.platform) Scenario.full Scenario.garbled Scenario.current 50
           (Finite 50) "http://www.w3.org/ns/sosa/resultTime"
           eq_refl eq_refl eq_refl eq_refl eq_refl eq_refl).
Defined.

(** ** The first window *)

Section Fresh.
Context {P : Platform}.

(** The run of [instantiate] on a stream without buckets: the root and the
    first window are appended to the index collection. *)
Lemma instantiate_fresh_run (s : State) (config : string) (t0 : Z) :
  result (initialise (Some config)) s = Ok tt ->
  buckets s = [] ->
  Date_parse "2022-08-07T08:08:21Z" = Some t0 ->
  result (instantiate config) s = Ok tt
  /\ this (after (instantiate config) s)
     = mkIngestor (stream s) true (Some 50)
         (Some "http://www.w3.org/ns/sosa/resultTime") (Some config)
  /\ meta (db (after (instantiate config) s)) = meta (db (after (initialise (Some config)) s))
  /\ data (db (after (instantiate config) s)) = data (db s)
  /\ index (db (after (instantiate config) s))
     = index (db s)
         ++ [MongoFragment.mk root (stream s) true
               [IRelation.mk GreaterThanOrEqualTo (toISOString t0)
                  "http://www.w3.org/ns/sosa/resultTime" (valueOf_string (Some t0))]
               0 [] None None;
             MongoFragment.mk (valueOf_string (Some t0)) (stream s) true [] 0 []
               (Some (toISOString t0)) None].
Proof.
  intros Hinit Hnew Hdate.
  destruct (initialise_Ok s (Some config) Hinit) as (metadata & Hrun & _).
  unfold result, after. unfold instantiate.
  rewrite Hrun, (bind_Ok _ _ _ _ _ Hrun).
  set (s1 := mkState
               (mkIngestor (stream s) true (_pageSize (this s)) (_timestampPath (this s))
                  (_metadata (this s)))
               (mkDb metadata (data (db s)) (index (db s)))).
  rewrite bind_Ok with (a := tt) (s' := configured s1 config) by reflexivity.
  set (s2 := configured s1 config).
  assert (Hc : mongoConnection (this s2) = true) by reflexivity.
  rewrite (bind_Ok _ _ _ _ _ (bucketExists_run s2 root Hc)).
  assert (Hfind : forall x, List.find (bucket_filter (stream s) x) (index (db s)) = None)
    by (intros x; now apply buckets_none).
  change (the_bucket s2 root) with (List.find (bucket_filter (stream s) root) (index (db s))).
  rewrite Hfind.
  rewrite (bind_Ok _ _ _ _ _ (createBucket_run s2 root Hc)).
  unfold new_Date. rewrite Hdate.
  erewrite bind_Ok; [|apply createWindow_run; exact Hc].
  rewrite addWindowToRoot_run
    with (t := t0) (path := "http://www.w3.org/ns/sosa/resultTime");
    [|reflexivity|exact Hc|reflexivity].
  cbn [fst snd this db meta data index with_index Window.identifier].
  change (stream (with_index _ _)) with (stream s). change (stream s2) with (stream s).
  change (index (db s2)) with (index (db s)).
  assert (Hid : (root =? valueOf_string (Some t0))%string = false).
  { apply String.eqb_neq, not_eq_sym, valueOf_string_not_root. }
  assert (Hindex :
            update_first (bucket_filter (stream s) root)
              (push_relations
                 [IRelation.mk GreaterThanOrEqualTo (toISOString t0)
                    "http://www.w3.org/ns/sosa/resultTime" (valueOf_string (Some t0))])
              (update_first (bucket_filter (stream s) (valueOf_string (Some t0)))
                 (set_window (Some (toISOString t0)) None)
                 ((index (db s) ++ [MongoFragment.mk root (stream s) true [] 0 [] None None])
                    ++ [MongoFragment.mk (valueOf_string (Some t0)) (stream s) true [] 0 []
                          None None]))
            = index (db s)
                ++ [MongoFragment.mk root (stream s) true
                      [IRelation.mk GreaterThanOrEqualTo (toISOString t0)
                         "http://www.w3.org/ns/sosa/resultTime" (valueOf_string (Some t0))]
                      0 [] None None;
                    MongoFragment.mk (valueOf_string (Some t0)) (stream s) true [] 0 []
                      (Some (toISOString t0)) None]).
  { rewrite <- app_assoc. rewrite (update_first_app_none _ _ _ _ (Hfind _)).
    cbn [app update_first]. unfold bucket_filter at 2 3.
    cbn [MongoFragment.id MongoFragment.streamId].
    rewrite Hid, !String.eqb_refl. cbn [andb].
    rewrite (update_first_app_none _ _ _ _ (Hfind _)). cbn [update_first].
    unfold bucket_filter. cbn [MongoFragment.id MongoFragment.streamId].
    now rewrite !String.eqb_refl. }
  rewrite Hindex.
  split; [reflexivity|]. split; [reflexivity|]. split; [reflexivity|].
  split; reflexivity.
Qed.

(** The buckets of the stream after [instantiate] found none: the root and
    the first window. *)
Lemma instantiate_fresh_buckets (s : State) (config : string) (t0 : Z) :
  result (initialise (Some config)) s = Ok tt ->
  buckets s = [] ->
  Date_parse "2022-08-07T08:08:21Z" = Some t0 ->
  buckets (after (instantiate config) s)
  = [MongoFragment.mk root (stream s) true
       [IRelation.mk GreaterThanOrEqualTo (toISOString t0)
          "http://www.w3.org/ns/sosa/resultTime" (valueOf_string (Some t0))]
       0 [] None None;
     MongoFragment.mk (valueOf_string (Some t0)) (stream s) true [] 0 []
       (Some (toISOString t0)) None].
Proof.
  intros Hinit Hnew Hdate.
  destruct (instantiate_fresh_run s config t0 Hinit Hnew Hdate)
    as (_ & Hthis & _ & _ & Hindex).
  unfold buckets, stream, find. rewrite Hthis, Hindex. cbn [sdsStreamIdentifier].
  rewrite filter_app. fold (stream s). fold (find (stream_filter (stream s)) (index (db s))).
  fold (buckets s). rewrite Hnew. cbn [app filter]. unfold stream_filter.
  cbn [MongoFragment.streamId]. now rewrite !String.eqb_refl.
Qed.

(** X10. On a stream without buckets, when [initialise] succeeds,
    [instantiate] succeeds: it sets the page size to 50 and the timestamp
    path to [sosa:resultTime], keeps the data collection, and appends two
    buckets to the index collection, the root with one
    greater-than-or-equal relation to the first window, and the first
    window, empty, which starts at 2022-08-07T08:08:21Z and is named by the
    milliseconds of that date.  [getMostRecentWindow] then answers the
    first window. *)
Theorem instantiate_first_window (s : State) (config : string) (t0 : Z) :
  result (initialise (Some config)) s = Ok tt ->
  buckets s = [] ->
  Date_parse "2022-08-07T08:08:21Z" = Some t0 ->
  result (instantiate config) s = Ok tt
  /\ this (after (instantiate config) s)
     = mkIngestor (stream s) true (Some 50)
         (Some "http://www.w3.org/ns/sosa/resultTime") (Some config)
  /\ meta (db (after (instantiate config) s)) = meta (db (after (initialise (Some config)) s))
  /\ data (db (after (instantiate config) s)) = data (db s)
  /\ index (db (after (instantiate config) s))
     = index (db s)
         ++ [MongoFragment.mk root (stream s) true
               [IRelation.mk GreaterThanOrEqualTo (toISOString t0)
                  "http://www.w3.org/ns/sosa/resultTime" (valueOf_string (Some t0))]
               0 [] None None;
             MongoFragment.mk (valueOf_string (Some t0)) (stream s) true [] 0 []
               (Some (toISOString t0)) None]
  /\ result getMostRecentWindow (after (instantiate config) s)
     = Ok (Window.mk (valueOf_string (Some t0)) (Some [])
             (Some (Date_parse (toISOString t0))) (Some (Date_parse (toISOString t0)))).
Proof.
  intros Hinit Hnew Hdate.
  destruct (instantiate_fresh_run s config t0 Hinit Hnew Hdate)
    as (Hres & Hthis & Hmeta & Hdata & Hindex).
  split; [exact Hres|]. split; [exact Hthis|]. split; [exact Hmeta|].
  split; [exact Hdata|]. split; [exact Hindex|].
  unfold result. rewrite getMostRecentWindow_run by (rewrite Hthis; reflexivity).
  cbn [fst]. rewrite (instantiate_fresh_buckets s config t0 Hinit Hnew Hdate). reflexivity.
Qed.

End Fresh.

Lemma instantiate_first_window_witness :
  result (getMostRecentWindow (P := JS.platform))
    (after (instantiate (P := JS.platform) "metadata") Scenario.fresh)
  = Ok (Window.mk "1659859701000" (Some []) (Some (Some 1659859701000))
          (Some (Some 1659859701000))).
Proof.
  refine (eq_trans (proj2 (proj2 (proj2 (proj2 (proj2
    (instantiate_first_window (P := JS.platform) Scenario.fresh "metadata" 1659859701000
       eq_refl eq_refl eq_refl)))))) _).
  vm_compute. reflexivity.
Defined.

(** ** Publishing *)

(** ** Documents in the same place *)

Lemma same_place_update_first (f : MongoFragment.t -> bool)
    (u : MongoFragment.t -> MongoFragment.t) (c : list MongoFragment.t) :
  (forall d, same_place d (u d)) -> Forall2 same_place c (update_first f u c).
Proof.
  intros Hu. induction c as [|d c IH]; simpl; [constructor|].
  destruct (f d).
  - constructor; [apply Hu|]. clear IH. induction c; constructor; [repeat split|assumption].
  - constructor; [repeat split|exact IH].
Qed.

Lemma same_place_filter (streamId : string) (l l' : list MongoFragment.t) :
  Forall2 same_place l l' ->
  Forall2 same_place (find (stream_filter streamId) l) (find (stream_filter streamId) l').
Proof.
  induction 1 as [|b b' l l' (Hid & Hs & Hst) _ IH]; [constructor|].
  assert (Hf : stream_filter streamId b' = stream_filter streamId b)
    by (unfold stream_filter; now rewrite Hs).
  unfold find in *. simpl. rewrite Hf.
  destruct (stream_filter streamId b); [|exact IH].
  constructor; [repeat split; assumption|exact IH].
Qed.

Lemma same_place_insert_desc (d d' : MongoFragment.t) (l l' : list MongoFragment.t) :
  same_place d d' -> Forall2 same_place l l' ->
  Forall2 same_place (insert_desc d l) (insert_desc d' l').
Proof.
  intros Hd. induction 1 as [|b b' l l' Hb Hl IH]; simpl.
  - constructor; [exact Hd|constructor].
  - destruct Hd as (Hid & Hs & Hst), Hb as (Hid' & Hs' & Hst'). rewrite Hst, Hst'.
    destruct (start_leb (MongoFragment.start b) (MongoFragment.start d)).
    + constructor; [repeat split; assumption|].
      constructor; [repeat split; assumption|exact Hl].
    + constructor; [repeat split; assumption|]. apply IH.
Qed.

Lemma same_place_sort (l l' : list MongoFragment.t) :
  Forall2 same_place l l' ->
  Forall2 same_place (sort_start_desc l) (sort_start_desc l').
Proof.
  induction 1 as [|b b' l l' Hb _ IH]; simpl; [constructor|].
  now apply same_place_insert_desc.
Qed.

Section Publish.
Context {P : Platform}.

(** X11. [publish] of a batch followed by another is [publish] of the first
    and then of the second.  When the first part goes through and [append]
    throws on the next member, [publish] throws that error in the state
    [append] left: the writes before it stay and the members after it are
    not appended. *)
Theorem publish_app (members more : list Member.t) (s : State) :
  publish (members ++ more) s = (await publish members ;; publish more) s
  /\ (forall member s1 s2 e,
         publish members s = (Ok tt, s1) ->
         append member s1 = (Throw e, s2) ->
         publish (members ++ member :: more) s = (Throw e, s2)).
Proof.
  assert (Happ : forall more' s',
             publish (members ++ more') s' = (await publish members ;; publish more') s').
  { intros more'. induction members as [|m members IH]; intros s'; [reflexivity|].
    simpl. unfold bind.
    destruct (append m s') as [[[]|e] s1]; [|reflexivity]. rewrite IH. reflexivity. }
  split; [apply Happ|].
  intros member s1 s2 e Hpub Happend. rewrite Happ. rewrite (bind_Ok _ _ _ _ _ Hpub).
  simpl. now rewrite (bind_Throw _ _ _ _ _ Happend).
Qed.

(** One [append] into a bucket with room, and the reads of the next one. *)
Lemma append_room_step (s : State) (member : Member.t) (cur : Window.t) (n : Z) :
  result getMostRecentWindow s = Ok cur ->
  result (bucketSize cur) s = Ok n ->
  room s n 1 ->
  let s1 :=
    with_index (with_data s (data (db s) ++ [dataElement member]))
      (update_first (bucket_filter (stream s) (Window.identifier cur))
         (push_members [Member.id member]) (index (db s))) in
  append member s = (Ok tt, s1)
  /\ exists cur1,
       result getMostRecentWindow s1 = Ok cur1
       /\ Window.identifier cur1 = Window.identifier cur
       /\ result (bucketSize cur1) s1 = Ok (n + 1).
Proof.
  intros Hcur Hn Hroom s1.
  assert (Hp : result pageSize s
               = Ok (match _pageSize (this s) with
                     | Some n => Finite n
                     | None => Infinity
                     end))
    by (unfold result; now rewrite pageSize_run).
  assert (Hgt : gt (n + 1)
                  (match _pageSize (this s) with Some n => Finite n | None => Infinity end)
                = false).
  { unfold room in Hroom. destruct (_pageSize (this s)); [|reflexivity].
    simpl. apply Z.ltb_ge. lia. }
  split; [exact (append_store_run s member cur n _ Hcur Hn Hp Hgt)|].
  destruct (getMostRecentWindow_Ok s cur Hcur) as (Hc & _ & d & rest & Hsort & ->).
  destruct (bucketSize_Ok s _ n Hc Hn) as (_ & bucket & Hb & ->).
  assert (Hc1 : mongoConnection (this s1) = true) by exact Hc.
  assert (Hsame : Forall2 same_place (sort_start_desc (buckets s))
                    (sort_start_desc (buckets s1))).
  { apply same_place_sort. unfold buckets. apply same_place_filter.
    apply same_place_update_first. intros x. repeat split. }
  rewrite Hsort in Hsame. inversion Hsame as [|? d1 ? rest1 (Hid & _) _ Heq1 Heq2].
  exists (documentToWindow d1). split; [|split].
  - unfold result. rewrite getMostRecentWindow_run by exact Hc1. now rewrite <- Heq2.
  - exact Hid.
  - unfold result. rewrite bucketSize_run by exact Hc1. cbn [fst documentToWindow Window.identifier].
    rewrite Hid. unfold s1. rewrite the_bucket_with_index.
    change (stream (with_data s _)) with (stream s).
    rewrite find_bucket_update by reflexivity. rewrite String.eqb_refl.
    cbn [documentToWindow Window.identifier] in Hb. unfold the_bucket in Hb. rewrite Hb.
    cbn. rewrite length_app. cbn. f_equal. lia.
Qed.

(** X12. When the current bucket has room for the whole batch (its
    occupancy plus the size of the batch is within the page size, or no page
    size is set), [publish] succeeds: it appends one data document per
    member, in order, and pushes the members' identifiers, in order, on the
    current bucket.  It writes nothing else and reads no date. *)
Theorem publish_room (members : list Member.t) (s : State) (cur : Window.t) (n : Z) :
  result getMostRecentWindow s = Ok cur ->
  result (bucketSize cur) s = Ok n ->
  room s n (List.length members) ->
  publish members s
  = (Ok tt,
     with_index (with_data s (data (db s) ++ map dataElement members))
       (update_first (bucket_filter (stream s) (Window.identifier cur))
          (push_members (map Member.id members)) (index (db s)))).
Proof.
  revert s cur n. induction members as [|member members IH]; intros s cur n Hcur Hn Hroom.
  - cbn [publish map]. unfold ret. f_equal. rewrite app_nil_r.
    rewrite update_first_id.
    + destruct s as [i [m d x]]. reflexivity.
    + intros [i sid l r c ms st e]. unfold push_members. cbn. now rewrite app_nil_r.
  - assert (Hroom1 : room s n 1).
    { unfold room in *. destruct (_pageSize (this s)); [|exact I].
      cbn [List.length] in Hroom. lia. }
    destruct (append_room_step s member cur n Hcur Hn Hroom1)
      as (Happend & cur1 & Hcur1 & Hid & Hn1).
    cbn [publish]. rewrite (bind_Ok _ _ _ _ _ Happend).
    rewrite (IH _ cur1 (n + 1) Hcur1 Hn1).
    + f_equal. rewrite Hid. unfold with_index, with_data. cbn [this db meta data index].
      change (stream {| this := this s; db := _ |}) with (stream s).
      rewrite update_first_twice by (intros d Hd; exact Hd).
      f_equal. f_equal.
      * cbn [map]. now rewrite <- app_assoc.
      * apply update_first_ext. intros d. unfold push_members. cbn.
        now rewrite <- app_assoc.
    + unfold room in *. cbn [this with_index with_data].
      destruct (_pageSize (this s)); [|exact I]. cbn [List.length] in Hroom. lia.
Qed.

End Publish.

Lemma publish_app_witness :
  publish (P := JS.platform)
    ([Scenario.later] ++ Scenario.undated :: [Scenario.same_instant]) Scenario.almost_full
  = (Throw (ExtractDateError "Expected one dateTime literal."),
     after (publish (P := JS.platform) [Scenario.later]) Scenario.almost_full).
Proof.
  refine (proj2 (publish_app (P := JS.platform) [Scenario.later] [Scenario.same_instant]
                   Scenario.almost_full)
            Scenario.undated _ _ _ _ _).
  - vm_compute. reflexivity.
  - vm_compute. reflexivity.
Defined.

Lemma publish_room_witness :
  publish (P := JS.platform) [Scenario.later; Scenario.undated] Scenario.bootstrapped
  = (Ok tt,
     with_index
       (with_data Scenario.bootstrapped
          [dataElement (P := JS.platform) Scenario.later;
           dataElement (P := JS.platform) Scenario.undated])
       (update_first (bucket_filter "stream" "1659859701000")
          (push_members ["later"; "undated"]) (index (db Scenario.bootstrapped)))).
Proof.
  refine (publish_room (P := JS.platform) [Scenario.later; Scenario.undated]
            Scenario.bootstrapped
            (Window.mk "1659859701000" (Some []) (Some (Some 1659859701000))
               (Some (Some 1659859701000)))
            0 eq_refl eq_refl _).
  unfold room. cbn. discriminate.
Defined.

(** ** The store only grows *)

Lemma bucket_grows_refl (b : MongoFragment.t) : bucket_grows b b.
Proof. repeat split; try (exists []; now rewrite app_nil_r); auto. Qed.

Lemma bucket_grows_trans (a b c : MongoFragment.t) :
  bucket_grows a b -> bucket_grows b c -> bucket_grows a c.
Proof.
  intros (H1 & H2 & H3 & H4 & (m & Hm) & (r & Hr) & Hs & He)
         (H1' & H2' & H3' & H4' & (m' & Hm') & (r' & Hr') & Hs' & He').
  split; [congruence|]. split; [congruence|]. split; [congruence|].
  split; [congruence|]. split; [|split; [|split]].
  - exists (m ++ m'). now rewrite Hm', Hm, app_assoc.
  - exists (r ++ r'). now rewrite Hr', Hr, app_assoc.
  - auto.
  - auto.
Qed.

Lemma Forall2_bucket_grows_refl (l : list MongoFragment.t) : Forall2 bucket_grows l l.
Proof. induction l; constructor; [apply bucket_grows_refl|assumption]. Qed.

Lemma Forall2_bucket_grows_trans (l1 l2 l3 : list MongoFragment.t) :
  Forall2 bucket_grows l1 l2 -> Forall2 bucket_grows l2 l3 -> Forall2 bucket_grows l1 l3.
Proof.
  intros H. revert l3. induction H as [|a b l1 l2 Hab _ IH]; intros l3 H23.
  - inversion H23. constructor.
  - inversion H23 as [|? c ? l3' Hbc Hrest]; subst.
    constructor; [eapply bucket_grows_trans; eassumption|now apply IH].
Qed.

#[local] Instance grows_PreOrder : PreOrder grows.
Proof.
  split.
  - intros s. repeat split; [exists []; now rewrite app_nil_r|].
    exists (index (db s)), []. split; [now rewrite app_nil_r|].
    apply Forall2_bucket_grows_refl.
  - intros s1 s2 s3 (Ht & Hm & (a & Ha) & k & c & Hi & Hk)
           (Ht' & Hm' & (a' & Ha') & k' & c' & Hi' & Hk').
    repeat split; try congruence.
    + exists (a ++ a'). now rewrite Ha', Ha, app_assoc.
    + rewrite Hi in Hk'. apply Forall2_app_inv_l in Hk'.
      destruct Hk' as (ka & kb & Hka & _ & ->).
      exists ka, (kb ++ c'). split; [now rewrite Hi', app_assoc|].
      eapply Forall2_bucket_grows_trans; eassumption.
Qed.

Lemma grows_insert (s : State) (b : MongoFragment.t) :
  grows s (with_index s (index (db s) ++ [b])).
Proof.
  repeat split; [exists []; now rewrite app_nil_r|].
  exists (index (db s)), [b]. split; [reflexivity|apply Forall2_bucket_grows_refl].
Qed.

Lemma grows_update (s : State) (f : MongoFragment.t -> bool)
    (u : MongoFragment.t -> MongoFragment.t) :
  (forall d, bucket_grows d (u d)) ->
  grows s (with_index s (update_first f u (index (db s)))).
Proof.
  intros Hu. repeat split; [exists []; now rewrite app_nil_r|].
  exists (update_first f u (index (db s))), []. split; [now rewrite app_nil_r|].
  cbn. induction (index (db s)) as [|d c IH]; simpl; [constructor|].
  destruct (f d); constructor;
    [apply Hu|apply Forall2_bucket_grows_refl|apply bucket_grows_refl|exact IH].
Qed.

Lemma grows_read (s : State) : grows s (with_index s (index (db s))).
Proof. rewrite state_eta. reflexivity. Qed.

Lemma preserves_data_op (R : State -> State -> Prop) `{!PreOrder R} {A : Type}
    (op : list DataElement.t -> A * list DataElement.t) :
  (forall s, R s (with_data s (snd (op (data (db s)))))) ->
  preserves R (dbDataCollection op).
Proof.
  intros H s. unfold after, dbDataCollection.
  destruct (mongoConnection (this s)); simpl; [apply H|reflexivity].
Qed.

Lemma bucket_grows_set_window (start end_ : option string) (d : MongoFragment.t) :
  bucket_grows d (set_window start end_ d).
Proof.
  split; [reflexivity|]. split; [reflexivity|]. split; [reflexivity|].
  split; [reflexivity|]. split; [|split; [|split]].
  - exists []. cbn. now rewrite app_nil_r.
  - exists []. cbn. now rewrite app_nil_r.
  - cbn. destruct start; [discriminate|auto].
  - cbn. destruct end_; [discriminate|auto].
Qed.

Lemma bucket_grows_push_relations (rels : list IRelation.t) (d : MongoFragment.t) :
  bucket_grows d (push_relations rels d).
Proof.
  repeat split; auto; [exists []; cbn; now rewrite app_nil_r|now exists rels].
Qed.

Lemma bucket_grows_push_members (ids : list string) (d : MongoFragment.t) :
  bucket_grows d (push_members ids d).
Proof.
  repeat split; auto; [now exists ids|exists []; cbn; now rewrite app_nil_r].
Qed.

Section Grows.
Context {P : Platform}.

Ltac grown :=
  repeat first
    [ apply preserves_ret; exact _
    | apply preserves_throw; exact _
    | apply preserves_lift; exact _
    | apply preserves_get_this; exact _
    | apply preserves_bind; [exact _ | | intros ?]
    | apply preserves_index_op; [exact _ | intros ?]
    | apply grows_insert
    | apply grows_read
    | apply grows_update; first
        [ apply bucket_grows_set_window
        | apply bucket_grows_push_relations
        | apply bucket_grows_push_members ] ].

Lemma grows_timestampPath : preserves grows timestampPath.
Proof.
  unfold timestampPath. apply preserves_bind; [exact _ | grown |].
  intros self. destruct (_timestampPath self) as [[|c p]|]; grown.
Qed.

Lemma grows_windowParam (date : option Date) : preserves grows (windowParam date).
Proof. destruct date as [[t|]|]; intros s; reflexivity. Qed.

Lemma grows_Date_toISOString (date : Date) : preserves grows (Date_toISOString date).
Proof. destruct date as [t|]; intros s; reflexivity. Qed.

Lemma grows_createWindow (window : Window.t) : preserves grows (createWindow window).
Proof.
  unfold createWindow, createBucket, insertOne, updateOne.
  apply preserves_bind; [exact _ | grown |]. intros _.
  apply preserves_bind; [exact _ | apply grows_windowParam |]. intros start.
  apply preserves_bind; [exact _ | apply grows_windowParam |]. intros end_. grown.
Qed.

Lemma grows_updateWindow (window : Window.t) : preserves grows (updateWindow window).
Proof.
  unfold updateWindow, updateOne.
  apply preserves_bind; [exact _ | apply grows_windowParam |]. intros start.
  apply preserves_bind; [exact _ | apply grows_windowParam |]. intros end_. grown.
Qed.

Lemma grows_addRelationsToBucket (identifier : string) (rels : list IRelation.t) :
  preserves grows (addRelationsToBucket identifier rels).
Proof. unfold addRelationsToBucket, updateOne. grown. Qed.

Lemma grows_addWindowToRoot (window : Window.t) : preserves grows (addWindowToRoot window).
Proof.
  unfold addWindowToRoot. destruct (Window.start window) as [start|]; [|grown].
  apply preserves_bind; [exact _ | apply grows_Date_toISOString |]. intros value.
  apply preserves_bind; [exact _ | apply grows_timestampPath |]. intros path.
  apply grows_addRelationsToBucket.
Qed.

Lemma grows_storeMember (member : Member.t) : preserves grows (storeMember member).
Proof.
  unfold storeMember, storeMembers, insertMany. apply preserves_data_op; [exact _|].
  intros s. repeat split; [now eexists|].
  exists (index (db s)), []. split; [now rewrite app_nil_r|apply Forall2_bucket_grows_refl].
Qed.

Lemma grows_append (member : Member.t) : preserves grows (append member).
Proof.
  unfold append.
  apply preserves_bind; [exact _ | |].
  { unfold getMostRecentWindow. apply preserves_bind; [exact _ | grown |]. intros self.
    apply preserves_bind; [exact _ | grown |]. intros [d|]; grown. }
  intros cur. apply preserves_bind; [exact _ | |].
  { unfold bucketSize, findOne. apply preserves_bind; [exact _ | grown |]. intros self.
    apply preserves_bind; [exact _ | grown |]. intros [d|]; grown. }
  intros n. apply preserves_bind; [exact _ | |].
  { unfold pageSize. apply preserves_bind; [exact _ | grown |]. intros self.
    destruct (_pageSize self); grown. }
  intros p. destruct (gt (n + 1) p).
  - apply preserves_bind; [exact _ | apply grows_timestampPath |]. intros path.
    apply preserves_bind; [exact _ | apply preserves_lift; exact _ |]. intros memberDate.
    apply preserves_bind; [exact _ | apply grows_createWindow |]. intros _.
    apply preserves_bind; [exact _ | apply grows_addWindowToRoot |]. intros _.
    apply preserves_bind; [exact _ | apply grows_updateWindow |]. intros _.
    apply preserves_bind; [exact _ | apply grows_Date_toISOString |]. intros value.
    apply preserves_bind; [exact _ | apply grows_timestampPath |]. intros path'.
    apply grows_addRelationsToBucket.
  - apply preserves_bind; [exact _ | apply grows_storeMember |]. intros _.
    unfold addMemberstoBucket, updateOne. grown.
Qed.

(** X13. Whatever the batch, and whether it goes through or throws,
    [publish] only adds to the store: the ingestor and the meta collection
    stay as they were, data documents are added at the end, every bucket
    stays at its place with its identifier, stream, leaf flag and count, its
    members and relations extended at the end and a start or an end it had
    still set, and new buckets come after them. *)
Theorem publish_grows (members : list Member.t) (s : State) :
  grows s (after (publish members) s).
Proof.
  revert s. change (preserves grows (publish members)).
  induction members as [|member members IH]; cbn [publish].
  - apply preserves_ret. exact _.
  - apply preserves_bind; [exact _ | apply grows_append |]. intros _. exact IH.
Qed.

End Grows.

(** ** The current window after a split *)

Lemma sort_start_desc_last (l : list MongoFragment.t) (c h : MongoFragment.t)
    (rest : list MongoFragment.t) :
  (forall x, In x l ->
     start_leb (MongoFragment.start c) (MongoFragment.start x) = false) ->
  sort_start_desc (l ++ [c]) = h :: rest ->
  h = c.
Proof.
  intros Hl Hsort.
  assert (Hin : In h (l ++ [c])).
  { apply In_sort_start_desc. rewrite Hsort. now left. }
  apply in_app_or in Hin. destruct Hin as [Hin|[<-|[]]]; [|reflexivity].
  pose proof (sort_start_desc_head _ _ _ Hsort c) as Hmax.
  rewrite (Hl h Hin) in Hmax. discriminate Hmax. apply in_or_app. right. now left.
Qed.

Lemma sort_start_desc_earlier (l : list MongoFragment.t) (c : MongoFragment.t) :
  (exists x, In x l
     /\ start_leb (MongoFragment.start c) (MongoFragment.start x) = true) ->
  forall h rest, sort_start_desc (l ++ [c]) = h :: rest -> In h l.
Proof.
  induction l as [|d l IH]; intros (x & Hx & Hle) h rest Hsort; [destruct Hx|].
  cbn [app sort_start_desc] in Hsort.
  destruct (sort_start_desc (l ++ [c])) as [|h1 rest1] eqn:Hs1.
  - cbn in Hsort. injection Hsort as <- _. now left.
  - cbn [insert_desc] in Hsort.
    destruct (start_leb (MongoFragment.start h1) (MongoFragment.start d)) eqn:Hd.
    + injection Hsort as <- _. now left.
    + injection Hsort as <- _. right.
      destruct Hx as [<-|Hx].
      * (* the witness is d itself: c sorts below d, and h1 is a maximum *)
        assert (Hin1 : In h1 (l ++ [c])).
        { apply In_sort_start_desc. rewrite Hs1. now left. }
        apply in_app_or in Hin1. destruct Hin1 as [Hin1|[<-|[]]]; [exact Hin1|].
        congruence.
      * apply (IH (ex_intro _ x (conj Hx Hle)) h1 rest1 eq_refl).
Qed.

Lemma Forall_update_first {D : Type} (Q : D -> Prop) (f : D -> bool) (u : D -> D)
    (c : list D) :
  (forall d, Q d -> Q (u d)) -> Forall Q c -> Forall Q (update_first f u c).
Proof.
  intros Hu. induction 1 as [|d c Hd Hc IH]; simpl; [constructor|].
  destruct (f d); constructor; auto.
Qed.

Section SplitCurrent.
Context {P : Platform}.

(** The index collection after a split that completes on a fresh
    identifier. *)
Lemma append_split_index (s : State) (member : Member.t) (cur : Window.t) (n : Z)
    (p : Number) (path : string) (t t0 : Z) (r : MongoFragment.t) :
  result getMostRecentWindow s = Ok cur ->
  result (bucketSize cur) s = Ok n ->
  result pageSize s = Ok p ->
  gt (n + 1) p = true ->
  result timestampPath s = Ok path ->
  extractDate (Member.quads member) path = Ok (Some t) ->
  Window.start cur = Some (Some t0) ->
  the_bucket s root = Some r ->
  the_bucket s (valueOf_string (Some t)) = None ->
  append member s
  = (Ok tt,
     with_index s
       (update_first (bucket_filter (stream s) root)
          (push_relations
             [IRelation.mk LessThan (toISOString t) path (Window.identifier cur)])
          (update_first (bucket_filter (stream s) (Window.identifier cur))
             (set_window (Some (toISOString t0)) (Some (toISOString t)))
             (update_first (bucket_filter (stream s) root)
                (push_relations
                   [IRelation.mk GreaterThanOrEqualTo (toISOString t) path
                      (valueOf_string (Some t))])
                (index (db s))))
          ++ [set_window (Some (toISOString t)) None
                (empty_bucket s (valueOf_string (Some t)))])).
Proof.
  intros Hcur Hn Hp Hgt Hpath Hdate Hstart Hroot Hfresh.
  rewrite (append_split_run s member cur n p path t t0 Hcur Hn Hp Hgt Hpath Hdate Hstart).
  destruct (getMostRecentWindow_Ok s cur Hcur) as (Hc & _).
  destruct (bucketSize_Ok s cur n Hc Hn) as (_ & b & Hb & _).
  unfold the_bucket in *. f_equal. f_equal.
  set (F := bucket_filter (stream s)) in *.
  fold (empty_bucket s (valueOf_string (Some t))).
  rewrite (update_first_app_none _ _ _ _ Hfresh). cbn [update_first].
  unfold F at 4. rewrite bucket_filter_empty_bucket, String.eqb_refl.
  rewrite (update_first_app_some _ _ _ _ _ Hroot).
  match goal with
  | |- context [update_first (F (Window.identifier cur)) ?close (?c3 ++ _)] =>
      assert (Hcur3 : exists d, List.find (F (Window.identifier cur)) c3 = Some d)
  end.
  { unfold F. rewrite find_bucket_update by reflexivity. fold F. rewrite Hb.
    destruct (Window.identifier cur =? root)%string; simpl; eauto. }
  destruct Hcur3 as (d3 & Hd3). rewrite (update_first_app_some _ _ _ _ _ Hd3).
  match goal with
  | |- context [update_first (F root) ?lt (?c4 ++ _)] =>
      assert (Hroot4 : exists d, List.find (F root) c4 = Some d)
  end.
  { unfold F. rewrite !find_bucket_update by reflexivity. fold F. rewrite Hroot.
    rewrite String.eqb_refl.
    destruct (root =? Window.identifier cur)%string; simpl; eauto. }
  destruct Hroot4 as (d4 & Hd4). now rewrite (update_first_app_some _ _ _ _ _ Hd4).
Qed.

(** The buckets a split keeps: each is a bucket the stream had, with its
    start or the start the close wrote. *)
Lemma split_kept_buckets (s : State) (cur : string) (iso0 : string)
    (u1 u3 : MongoFragment.t -> MongoFragment.t) (end_ : option string)
    (x : MongoFragment.t) :
  (forall d, same_place d (u1 d)) -> (forall d, same_place d (u3 d)) ->
  In x (find (stream_filter (stream s))
          (update_first (bucket_filter (stream s) root) u3
             (update_first (bucket_filter (stream s) cur) (set_window (Some iso0) end_)
                (update_first (bucket_filter (stream s) root) u1 (index (db s)))))) ->
  exists d,
    In d (buckets s)
    /\ MongoFragment.id x = MongoFragment.id d
    /\ (MongoFragment.start x = MongoFragment.start d
        \/ MongoFragment.start x = Some iso0).
Proof.
  intros H1 H3 Hin. unfold find in Hin. apply filter_In in Hin. destruct Hin as [Hin Hs].
  apply String.eqb_eq in Hs.
  set (Q := fun y : MongoFragment.t =>
              exists d, In d (index (db s))
                /\ MongoFragment.id y = MongoFragment.id d
                /\ MongoFragment.streamId y = MongoFragment.streamId d
                /\ (MongoFragment.start y = MongoFragment.start d
                    \/ MongoFragment.start y = Some iso0)).
  assert (HQ : Forall Q
                 (update_first (bucket_filter (stream s) root) u3
                    (update_first (bucket_filter (stream s) cur)
                       (set_window (Some iso0) end_)
                       (update_first (bucket_filter (stream s) root) u1 (index (db s)))))).
  { apply Forall_update_first.
    { intros y (d & Hd & Hid & Hsid & Hst). destruct (H3 y) as (Hi & Hs' & Hst').
      exists d. split; [exact Hd|]. split; [congruence|]. split; [congruence|].
      destruct Hst; [left|right]; congruence. }
    apply Forall_update_first.
    { intros y (d & Hd & Hid & Hsid & Hst). exists d.
      split; [exact Hd|]. split; [exact Hid|]. split; [exact Hsid|]. now right. }
    apply Forall_update_first.
    { intros y (d & Hd & Hid & Hsid & Hst). destruct (H1 y) as (Hi & Hs' & Hst').
      exists d. split; [exact Hd|]. split; [congruence|]. split; [congruence|].
      destruct Hst; [left|right]; congruence. }
    apply Forall_forall. intros y Hy. exists y.
    split; [exact Hy|]. split; [reflexivity|]. split; [reflexivity|]. now left. }
  rewrite Forall_forall in HQ. destruct (HQ x Hin) as (d & Hd & Hid & Hsid & Hst).
  exists d. split; [|split; assumption]. apply In_buckets. split; [exact Hd|congruence].
Qed.

(** X14. When [append] splits on a member whose date names no bucket yet,
    and the ISO string of that date sorts after the start of every bucket of
    the stream and after the start of the current window, the new bucket is
    the window [getMostRecentWindow] answers next, starting at the member's
    date, and its occupancy is 0. *)
Theorem append_split_current (s : State) (member : Member.t) (cur : Window.t) (n : Z)
    (p : Number) (path : string) (t t0 : Z) (r : MongoFragment.t) :
  result getMostRecentWindow s = Ok cur ->
  result (bucketSize cur) s = Ok n ->
  result pageSize s = Ok p ->
  gt (n + 1) p = true ->
  result timestampPath s = Ok path ->
  extractDate (Member.quads member) path = Ok (Some t) ->
  Window.start cur = Some (Some t0) ->
  the_bucket s root = Some r ->
  the_bucket s (valueOf_string (Some t)) = None ->
  (forall b, In b (buckets s) ->
     start_leb (Some (toISOString t)) (MongoFragment.start b) = false) ->
  start_leb (Some (toISOString t)) (Some (toISOString t0)) = false ->
  result getMostRecentWindow (after (append member) s)
  = Ok (Window.mk (valueOf_string (Some t)) (Some [])
          (Some (Date_parse (toISOString t))) (Some (Date_parse (toISOString t))))
  /\ result (bucketSize (Window.mk (valueOf_string (Some t)) None None None))
       (after (append member) s)
     = Ok 0.
Proof.
  intros Hcur Hn Hp Hgt Hpath Hdate Hstart Hroot Hfresh Hlater Hlater0.
  pose proof (append_split_index s member cur n p path t t0 r Hcur Hn Hp Hgt Hpath Hdate
                Hstart Hroot Hfresh) as Hrun.
  destruct (getMostRecentWindow_Ok s cur Hcur) as (Hc & _).
  unfold after. rewrite Hrun. cbn [snd].
  set (created := set_window (Some (toISOString t)) None
                    (empty_bucket s (valueOf_string (Some t)))).
  set (kept := update_first _ _ _).
  assert (Hbuckets : buckets (with_index s (kept ++ [created]))
                     = find (stream_filter (stream s)) kept ++ [created]).
  { unfold buckets, find. cbn [db index with_index].
    repeat match goal with
           | |- context [stream (with_index s ?c)] =>
               change (stream (with_index s c)) with (stream s)
           end.
    rewrite filter_app. cbn [filter]. unfold stream_filter at 2, created. cbn.
    now rewrite String.eqb_refl. }
  split.
  - unfold result. rewrite getMostRecentWindow_run by exact Hc. rewrite Hbuckets.
    destruct (sort_start_desc (find (stream_filter (stream s)) kept ++ [created]))
      as [|h rest] eqn:Hsort.
    + exfalso. assert (Hin : In created (sort_start_desc
                                 (find (stream_filter (stream s)) kept ++ [created]))).
      { apply In_sort_start_desc, in_or_app. right. now left. }
      rewrite Hsort in Hin. destruct Hin.
    + assert (Hlast : forall x,
                 In x (find (stream_filter (stream s)) kept) ->
                 start_leb (MongoFragment.start created) (MongoFragment.start x) = false).
      { intros x Hx. unfold kept in Hx.
        apply split_kept_buckets in Hx; [|intros d; repeat split..].
        destruct Hx as (d & Hd & _ & [Hst|Hst]); rewrite Hst.
        - exact (Hlater d Hd).
        - exact Hlater0. }
      now rewrite (sort_start_desc_last _ _ _ _ Hlast Hsort).
  - unfold result. rewrite bucketSize_run by exact Hc. cbn [fst Window.identifier].
    rewrite the_bucket_with_index, find_app.
    assert (Hkept : List.find (bucket_filter (stream s) (valueOf_string (Some t))) kept
                    = None).
    { unfold kept. rewrite !find_bucket_update by reflexivity.
      unfold the_bucket in Hfresh. rewrite Hfresh.
      destruct (valueOf_string (Some t) =? root)%string,
        (valueOf_string (Some t) =? Window.identifier cur)%string; reflexivity. }
    rewrite Hkept. cbn [List.find]. unfold created, bucket_filter, set_window, empty_bucket.
    cbn. now rewrite !String.eqb_refl.
Qed.

(** X15. When [append] splits on a member whose date names no bucket yet
    and sorts before the start of the current window, the split goes
    through and the window [getMostRecentWindow] answers next is not the new
    bucket. *)
Theorem append_split_out_of_order (s : State) (member : Member.t) (cur : Window.t) (n : Z)
    (p : Number) (path : string) (t t0 : Z) (r : MongoFragment.t) :
  result getMostRecentWindow s = Ok cur ->
  result (bucketSize cur) s = Ok n ->
  result pageSize s = Ok p ->
  gt (n + 1) p = true ->
  result timestampPath s = Ok path ->
  extractDate (Member.quads member) path = Ok (Some t) ->
  Window.start cur = Some (Some t0) ->
  the_bucket s root = Some r ->
  the_bucket s (valueOf_string (Some t)) = None ->
  start_leb (Some (toISOString t0)) (Some (toISOString t)) = false ->
  exists current,
    result getMostRecentWindow (after (append member) s) = Ok current
    /\ Window.identifier current <> valueOf_string (Some t).
Proof.
  intros Hcur Hn Hp Hgt Hpath Hdate Hstart Hroot Hfresh Hbefore.
  assert (Hearlier : start_leb (Some (toISOString t)) (Some (toISOString t0)) = true).
  { destruct (start_leb_total (Some (toISOString t)) (Some (toISOString t0)))
      as [H|H]; [exact H|congruence]. }
  pose proof (append_split_index s member cur n p path t t0 r Hcur Hn Hp Hgt Hpath Hdate
                Hstart Hroot Hfresh) as Hrun.
  destruct (getMostRecentWindow_Ok s cur Hcur) as (Hc & _).
  destruct (bucketSize_Ok s cur n Hc Hn) as (_ & b & Hb & _).
  unfold after. rewrite Hrun. cbn [snd].
  set (created := set_window (Some (toISOString t)) None
                    (empty_bucket s (valueOf_string (Some t)))).
  set (kept := update_first _ _ _).
  assert (Hbuckets : buckets (with_index s (kept ++ [created]))
                     = find (stream_filter (stream s)) kept ++ [created]).
  { unfold buckets, find. cbn [db index with_index].
    repeat match goal with
           | |- context [stream (with_index s ?c)] =>
               change (stream (with_index s c)) with (stream s)
           end.
    rewrite filter_app. cbn [filter]. unfold stream_filter at 2, created. cbn.
    now rewrite String.eqb_refl. }
  assert (Hclosed : exists b',
             List.find (bucket_filter (stream s) (Window.identifier cur)) kept = Some b'
             /\ MongoFragment.start b' = Some (toISOString t0)).
  { unfold kept. rewrite !find_bucket_update by reflexivity.
    unfold the_bucket in Hb. rewrite Hb, String.eqb_refl.
    destruct (Window.identifier cur =? root)%string; cbn; eexists; split; reflexivity. }
  destruct Hclosed as (b' & Hb' & Hstart').
  destruct (find_some _ _ Hb') as [Hin' Hf'].
  apply bucket_filter_true in Hf'. destruct Hf' as [_ Hs'].
  unfold result. rewrite getMostRecentWindow_run by exact Hc. rewrite Hbuckets.
  destruct (sort_start_desc (find (stream_filter (stream s)) kept ++ [created]))
    as [|h rest] eqn:Hsort.
  - exfalso. assert (Hin : In created (sort_start_desc
                               (find (stream_filter (stream s)) kept ++ [created]))).
    { apply In_sort_start_desc, in_or_app. right. now left. }
    rewrite Hsort in Hin. destruct Hin.
  - exists (documentToWindow h). split; [reflexivity|].
    assert (Hh : In h (find (stream_filter (stream s)) kept)).
    { apply (sort_start_desc_earlier _ created) with (rest := rest); [|exact Hsort].
      exists b'. split.
      - unfold find. apply filter_In. split; [exact Hin'|].
        unfold stream_filter. now rewrite Hs', String.eqb_refl.
      - rewrite Hstart'. exact Hearlier. }
    unfold kept in Hh. apply split_kept_buckets in Hh; [|intros d; repeat split..].
    destruct Hh as (d & Hd & Hid & _). cbn [documentToWindow Window.identifier].
    rewrite Hid. exact (proj1 (the_bucket_None s _) Hfresh d Hd).
Qed.

End SplitCurrent.

Lemma append_split_current_witness :
  result (getMostRecentWindow (P := JS.platform))
    (after (append (P := JS.platform) Scenario.later) Scenario.full)
  = Ok (Window.mk "1660003200000" (Some []) (Some (Some 1660003200000))
          (Some (Some 1660003200000))).
Proof.
  refine (eq_trans (proj1
    (append_split_current (P := JS.platform) Scenario.full Scenario.later Scenario.current
       50 (Finite 50) "http://www.w3.org/ns/sosa/resultTime" 1660003200000
       1659859701000
       (MongoFragment.mk "" "stream" true
          [IRelation.mk GreaterThanOrEqualTo "2022-08-07T08:08:21.000Z"
             "http://www.w3.org/ns/sosa/resultTime" "1659859701000"]
          0 [] None None)
       eq_refl eq_refl eq_refl eq_refl eq_refl eq_refl eq_refl eq_refl eq_refl _ _)) _).
  - intros b Hb. vm_compute in Hb. destruct Hb as [<-|[<-|[]]]; vm_compute; reflexivity.
  - vm_compute. reflexivity.
  - vm_compute. reflexivity.
Defined.

Lemma append_split_out_of_order_witness :
  exists current,
    result (getMostRecentWindow (P := JS.platform))
      (after (append (P := JS.platform) Scenario.earlier) Scenario.full)
    = Ok current
    /\ Window.identifier current <> "1659312000000".
Proof.
  exact (append_split_out_of_order (P := JS.platform) Scenario.full Scenario.earlier
           Scenario.current 50 (Finite 50) "http://www.w3.org/ns/sosa/resultTime"
           1659312000000 1659859701000
           (MongoFragment.mk "" "stream" true
              [IRelation.mk GreaterThanOrEqualTo "2022-08-07T08:08:21.000Z"
                 "http://www.w3.org/ns/sosa/resultTime" "1659859701000"]
              0 [] None None)
           eq_refl eq_refl eq_refl eq_refl eq_refl eq_refl eq_refl eq_refl eq_refl eq_refl).
Defined.

(** ** The root stays bare *)

#[local] Instance root_stays_bare_PreOrder : PreOrder root_stays_bare.
Proof.
  split.
  - intros s. split; auto.
  - intros s1 s2 s3 [H1 H2] [H1' H2']. split; [congruence|auto].
Qed.

Lemma root_stays_bare_insert (s : State) (b : MongoFragment.t) :
  MongoFragment.id b <> root ->
  root_stays_bare s (with_index s (index (db s) ++ [b])).
Proof.
  intros Hb. split; [reflexivity|]. intros Hs x Hx Hid.
  apply In_buckets in Hx. cbn in Hx. destruct Hx as [Hx Hstream].
  apply in_app_or in Hx. destruct Hx as [Hx|[<-|[]]]; [|contradiction].
  apply Hs; [|exact Hid]. apply In_buckets. now split.
Qed.

Lemma root_stays_bare_update (s : State) (f : MongoFragment.t -> bool)
    (u : MongoFragment.t -> MongoFragment.t) :
  (forall d,
      MongoFragment.id (u d) = MongoFragment.id d
      /\ MongoFragment.streamId (u d) = MongoFragment.streamId d) ->
  (forall d,
      f d = true ->
      MongoFragment.id d <> root
      \/ (MongoFragment.members (u d) = MongoFragment.members d
          /\ MongoFragment.start (u d) = MongoFragment.start d
          /\ MongoFragment.end_ (u d) = MongoFragment.end_ d)) ->
  root_stays_bare s (with_index s (update_first f u (index (db s)))).
Proof.
  intros Hu Hf. split; [reflexivity|]. intros Hs x Hx Hid.
  apply In_buckets in Hx. cbn in Hx. destruct Hx as [Hx Hstream].
  apply In_update_first in Hx. destruct Hx as [Hx|(d & Hd & ->)].
  - apply Hs; [|exact Hid]. apply In_buckets. now split.
  - destruct (find_some _ _ Hd) as [Hin Hfd]. destruct (Hu d) as [Hi Hsid].
    destruct (Hf d Hfd) as [Hne|(Hm & Hst & He)]; [congruence|].
    rewrite Hm, Hst, He. apply Hs; [|congruence].
    apply In_buckets. split; [exact Hin|rewrite <- Hsid; exact Hstream].
Qed.

Lemma bucket_filter_not_root (streamId identifier : string) (d : MongoFragment.t) :
  identifier <> root -> bucket_filter streamId identifier d = true ->
  MongoFragment.id d <> root.
Proof. intros Hne Hd. apply bucket_filter_true in Hd. destruct Hd. congruence. Qed.

Lemma Forall2_In_l {A B : Type} (R : A -> B -> Prop) (l : list A) (l' : list B) (x : A) :
  Forall2 R l l' -> In x l -> exists y, In y l' /\ R x y.
Proof.
  induction 1 as [|a b l l' Hab _ IH]; intros Hx; [destruct Hx|].
  destruct Hx as [<-|Hx].
  - exists b. split; [now left|exact Hab].
  - destruct (IH Hx) as (y & Hy & Hxy). exists y. split; [now right|exact Hxy].
Qed.

Lemma grows_started (s s' : State) : grows s s' -> started s -> started s'.
Proof.
  intros (Ht & _ & _ & kept & created & Hi & Hk) (b & Hb & Hstart).
  apply In_buckets in Hb. destruct Hb as [Hb Hs].
  destruct (Forall2_In_l _ _ _ b Hk Hb) as (b' & Hb' & (_ & Hsid & _ & _ & _ & _ & Hst & _)).
  exists b'. split; [|auto]. apply In_buckets. split.
  - rewrite Hi. apply in_or_app. now left.
  - unfold stream in *. congruence.
Qed.

Section RootBare.
Context {P : Platform}.

Ltac bare :=
  repeat first
    [ apply preserves_ret; exact _
    | apply preserves_throw; exact _
    | apply preserves_lift; exact _
    | apply preserves_get_this; exact _
    | apply preserves_bind; [exact _ | | intros ?]
    | apply preserves_index_op; [exact _ | intros ?] ].

Lemma bare_timestampPath : preserves root_stays_bare timestampPath.
Proof.
  unfold timestampPath. apply preserves_bind; [exact _ | bare |].
  intros self. destruct (_timestampPath self) as [[|c p]|]; bare.
Qed.

Lemma bare_windowParam (date : option Date) : preserves root_stays_bare (windowParam date).
Proof. destruct date as [[t|]|]; intros s; reflexivity. Qed.

Lemma bare_Date_toISOString (date : Date) :
  preserves root_stays_bare (Date_toISOString date).
Proof. destruct date as [t|]; intros s; reflexivity. Qed.

Lemma bare_set_window (identifier : string) (start end_ : option Date) :
  identifier <> root ->
  preserves root_stays_bare
    (start <- windowParam start ;;
     end_ <- windowParam end_ ;;
     self <- get_this ;;
     dbIndexCollection
       (updateOne (bucket_filter (sdsStreamIdentifier self) identifier)
          (set_window start end_))).
Proof.
  intros Hne.
  apply preserves_bind; [exact _ | apply bare_windowParam |]. intros start'.
  apply preserves_bind; [exact _ | apply bare_windowParam |]. intros end'.
  apply preserves_bind; [exact _ | apply preserves_get_this; exact _ |]. intros self.
  apply preserves_index_op; [exact _|]. intros s. unfold updateOne. cbn [snd].
  apply root_stays_bare_update; [intros d; split; reflexivity|].
  intros d Hd. left. exact (bucket_filter_not_root _ _ _ Hne Hd).
Qed.

Lemma bare_createWindow (window : Window.t) :
  Window.identifier window <> root -> preserves root_stays_bare (createWindow window).
Proof.
  intros Hne. unfold createWindow.
  apply preserves_bind; [exact _ | | intros _; now apply bare_set_window].
  unfold createBucket, insertOne.
  apply preserves_bind; [exact _ | apply preserves_get_this; exact _ |]. intros self.
  apply preserves_index_op; [exact _|]. intros s. cbn [snd].
  now apply root_stays_bare_insert.
Qed.

Lemma bare_updateWindow (window : Window.t) :
  Window.identifier window <> root -> preserves root_stays_bare (updateWindow window).
Proof. intros Hne. unfold updateWindow. now apply bare_set_window. Qed.

Lemma bare_addRelationsToBucket (identifier : string) (rels : list IRelation.t) :
  preserves root_stays_bare (addRelationsToBucket identifier rels).
Proof.
  unfold addRelationsToBucket, updateOne.
  apply preserves_bind; [exact _ | apply preserves_get_this; exact _ |]. intros self.
  apply preserves_index_op; [exact _|]. intros s. cbn [snd].
  apply root_stays_bare_update; [intros d; split; reflexivity|].
  intros d _. right. repeat split.
Qed.

Lemma bare_addWindowToRoot (window : Window.t) :
  preserves root_stays_bare (addWindowToRoot window).
Proof.
  unfold addWindowToRoot. destruct (Window.start window) as [start|]; [|bare].
  apply preserves_bind; [exact _ | apply bare_Date_toISOString |]. intros value.
  apply preserves_bind; [exact _ | apply bare_timestampPath |]. intros path.
  apply bare_addRelationsToBucket.
Qed.

Lemma bare_addMemberstoBucket (identifier : string) (ids : list string) :
  identifier <> root -> preserves root_stays_bare (addMemberstoBucket identifier ids).
Proof.
  intros Hne. unfold addMemberstoBucket, updateOne.
  apply preserves_bind; [exact _ | apply preserves_get_this; exact _ |]. intros self.
  apply preserves_index_op; [exact _|]. intros s. cbn [snd].
  apply root_stays_bare_update; [intros d; split; reflexivity|].
  intros d Hd. left. exact (bucket_filter_not_root _ _ _ Hne Hd).
Qed.

Lemma bare_storeMember (member : Member.t) : preserves root_stays_bare (storeMember member).
Proof.
  unfold storeMember, storeMembers, insertMany. apply preserves_data_op; [exact _|].
  intros s. split; [reflexivity|]. intros Hs. exact Hs.
Qed.

(** On a started stream with a bare root the current window is not the
    root. *)
Lemma current_not_root (s : State) (cur : Window.t) :
  root_bare s -> started s ->
  result getMostRecentWindow s = Ok cur ->
  Window.identifier cur <> root.
Proof.
  intros Hbare (b & Hb & Hstart) Hcur.
  destruct (getMostRecentWindow_Ok s cur Hcur) as (_ & _ & d & rest & Hsort & ->).
  cbn [documentToWindow Window.identifier]. intros Hid.
  assert (Hd : In d (buckets s)).
  { apply In_sort_start_desc. rewrite Hsort. now left. }
  destruct (Hbare d Hd Hid) as (_ & Hnone & _).
  pose proof (sort_start_desc_head _ _ _ Hsort b Hb) as Hmax. rewrite Hnone in Hmax.
  destruct (MongoFragment.start b); [discriminate Hmax|congruence].
Qed.

Lemma append_root_bare (s : State) (member : Member.t) :
  root_bare s -> started s -> root_bare (after (append member) s).
Proof.
  intros Hbare Hstarted.
  destruct (append_cases s member) as [->|(cur & n & p & Hcur & Hn & Hp)]; [exact Hbare|].
  pose proof (current_not_root s cur Hbare Hstarted Hcur) as Hne.
  unfold after. append_reads Hcur Hn Hp Hc Hbucket.
  match goal with
  | |- root_bare (snd (?m s)) =>
      assert (HR : preserves root_stays_bare m); [|exact (proj2 (HR s) Hbare)]
  end.
  destruct (gt (n + 1) p).
  - apply preserves_bind; [exact _ | apply bare_timestampPath |]. intros path.
    apply preserves_bind; [exact _ | apply preserves_lift; exact _ |]. intros memberDate.
    apply preserves_bind;
      [exact _ | apply bare_createWindow; apply valueOf_string_not_root |]. intros _.
    apply preserves_bind; [exact _ | apply bare_addWindowToRoot |]. intros _.
    apply preserves_bind; [exact _ | apply bare_updateWindow; exact Hne |]. intros _.
    apply preserves_bind; [exact _ | apply bare_Date_toISOString |]. intros value.
    apply preserves_bind; [exact _ | apply bare_timestampPath |]. intros path'.
    apply bare_addRelationsToBucket.
  - apply preserves_bind; [exact _ | apply bare_storeMember |]. intros _.
    now apply bare_addMemberstoBucket.
Qed.

(** X16. On a stream whose root holds no member and has no start and no
    end, and where some bucket has a start, [publish] keeps it so, whatever
    the batch and whether it goes through or throws: no member is pushed on
    the root and no start or end is set on it. *)
Theorem publish_root_bare (members : list Member.t) (s : State) :
  root_bare s -> started s ->
  root_bare (after (publish members) s) /\ started (after (publish members) s).
Proof.
  revert s. induction members as [|member members IH]; intros s Hbare Hstarted;
    [now split|].
  pose proof (append_root_bare s member Hbare Hstarted) as Hbare1.
  pose proof (grows_started _ _ (grows_append member s) Hstarted) as Hstarted1.
  unfold after in *. cbn [publish]. unfold bind.
  destruct (append member s) as [[[]|e] s1]; cbn [snd] in *.
  - now apply IH.
  - now split.
Qed.

(** X17. After [instantiate] on a stream without buckets, when [initialise]
    succeeds, the root holds no member and has no start and no end, and a
    bucket of the stream has a start. *)
Theorem instantiate_root_bare (s : State) (config : string) (t0 : Z) :
  result (initialise (Some config)) s = Ok tt ->
  buckets s = [] ->
  Date_parse "2022-08-07T08:08:21Z" = Some t0 ->
  root_bare (after (instantiate config) s) /\ started (after (instantiate config) s).
Proof.
  intros Hinit Hnew Hdate.
  pose proof (instantiate_fresh_buckets s config t0 Hinit Hnew Hdate) as Hb.
  split.
  - intros b Hin Hid. rewrite Hb in Hin. destruct Hin as [<-|[<-|[]]]; [now repeat split|].
    destruct (valueOf_string_not_root (Some t0) Hid).
  - eexists. rewrite Hb. split; [right; left; reflexivity|]. discriminate.
Qed.

End RootBare.

Lemma publish_root_bare_witness :
  root_bare
    (after (publish (P := JS.platform) [Scenario.later; Scenario.same_instant])
       Scenario.full)
  /\ started
       (after (publish (P := JS.platform) [Scenario.later; Scenario.same_instant])
          Scenario.full).
Proof.
  refine (publish_root_bare (P := JS.platform)
            [Scenario.later; Scenario.same_instant] Scenario.full _ _).
  - intros b Hb Hid. vm_compute in Hb. destruct Hb as [<-|[<-|[]]]; [now repeat split|].
    discriminate Hid.
  - exists (MongoFragment.mk "1659859701000" "stream" true [] 0
              (map Member.id (Scenario.observations 50 "2022-08-08T00:00:00.000Z"))
              (Some "2022-08-07T08:08:21.000Z") None).
    split; [right; left; vm_compute; reflexivity|discriminate].
Defined.

Lemma instantiate_root_bare_witness :
  root_bare (after (instantiate (P := JS.platform) "metadata") Scenario.fresh)
  /\ started (after (instantiate (P := JS.platform) "metadata") Scenario.fresh).
Proof.
  exact (instantiate_root_bare (P := JS.platform) Scenario.fresh "metadata" 1659859701000
           eq_refl eq_refl eq_refl).
Defined.

(** ** How the methods fail *)

Section Throws.
Context {P : Platform}.

Lemma timestampPath_cases (s : State) :
  timestampPath s = (Throw TimestampPathNotConfigured, s)
  \/ exists path, timestampPath s = (Ok path, s).
Proof.
  unfold timestampPath. rewrite bind_get_this.
  destruct (_timestampPath (this s)) as [[|c path]|]; [now left|right; eexists; reflexivity|now left].
Qed.

(** The window [getMostRecentWindow] answers with is a bucket of the
    stream: [bucketSize] finds it. *)
Lemma bucketSize_current (s : State) (cur : Window.t) :
  result getMostRecentWindow s = Ok cur ->
  exists n, result (bucketSize cur) s = Ok n.
Proof.
  intros Hcur. destruct (getMostRecentWindow_Ok s cur Hcur) as (Hc & _ & d & rest & Hsort & ->).
  assert (Hd : In d (buckets s)).
  { apply In_sort_start_desc. rewrite Hsort. now left. }
  unfold result. rewrite (bucketSize_run s _ Hc). cbn [fst documentToWindow Window.identifier].
  destruct (the_bucket s (MongoFragment.id d)) as [b|] eqn:Hb; [eauto|].
  destruct (proj1 (the_bucket_None s _) Hb d Hd). reflexivity.
Qed.

Lemma append_throws (s : State) (member : Member.t) (e : Error) :
  result (append member) s = Throw e ->
  publish_error s [member] e.
Proof.
  intros He. unfold publish_error.
  destruct (result getMostRecentWindow s) as [cur|e0] eqn:Hcur.
  - destruct (bucketSize_current s cur Hcur) as (n & Hn).
    pose proof (pageSize_run s) as Hp.
    set (p := match _pageSize (this s) with Some n => Finite n | None => Infinity end) in Hp.
    assert (Hp' : result pageSize s = Ok p) by (unfold result; now rewrite Hp).
    destruct (gt (n + 1) p) eqn:Hgt.
    + destruct (timestampPath_cases s) as [Hpath|(path & Hpath)].
      * right; right; left. revert He. unfold result.
        destruct (getMostRecentWindow_Ok _ _ Hcur) as (Hc & Hcur' & _).
        destruct (bucketSize_Ok _ _ _ Hc Hn) as (Hn' & _).
        unfold append.
        rewrite (bind_Ok _ _ _ _ _ Hcur'), (bind_Ok _ _ _ _ _ Hn'), (bind_Ok _ _ _ _ _ Hp), Hgt.
        rewrite (bind_Throw _ _ _ _ _ Hpath). cbn [fst]. congruence.
      * assert (Hpath' : result timestampPath s = Ok path) by (unfold result; now rewrite Hpath).
        destruct (extractDate (Member.quads member) path) as [[t|]|e1] eqn:Hdate.
        -- destruct (Window.start cur) as [[t0|]|] eqn:Hstart.
           ++ unfold result in He.
              rewrite (append_split_run s member cur n p path t t0 Hcur Hn Hp' Hgt Hpath'
                         Hdate Hstart) in He. discriminate He.
           ++ right; right; right; left. revert He. unfold result.
              destruct (getMostRecentWindow_Ok _ _ Hcur) as (Hc & Hcur' & _).
              destruct (bucketSize_Ok _ _ _ Hc Hn) as (Hn' & _).
              unfold append.
              rewrite (bind_Ok _ _ _ _ _ Hcur'), (bind_Ok _ _ _ _ _ Hn'),
                (bind_Ok _ _ _ _ _ Hp), Hgt, (bind_Ok _ _ _ _ _ Hpath), Hdate, bind_lift_Ok.
              erewrite bind_Ok by (apply createWindow_run; exact Hc).
              erewrite bind_Ok
                by (apply addWindowToRoot_run with (t := t) (path := path);
                    [reflexivity|exact Hc|now apply (timestampPath_Ok s)]).
              unfold updateWindow. cbn [Window.start Window.end_ Window.identifier].
              rewrite Hstart. cbn. congruence.
           ++ destruct (getMostRecentWindow_Ok _ _ Hcur) as (_ & _ & d & rest & _ & ->).
              discriminate Hstart.
        -- right; right; right; left. unfold result in He.
           destruct (getMostRecentWindow_Ok _ _ Hcur) as (Hc & Hcur' & _).
           destruct (bucketSize_Ok _ _ _ Hc Hn) as (Hn' & _).
           revert He. unfold append.
           rewrite (bind_Ok _ _ _ _ _ Hcur'), (bind_Ok _ _ _ _ _ Hn'),
             (bind_Ok _ _ _ _ _ Hp), Hgt, (bind_Ok _ _ _ _ _ Hpath), Hdate, bind_lift_Ok.
           erewrite bind_Throw
             by (apply createWindow_invalid; [exact Hc|cbn; unfold renders; tauto]).
           cbn [fst]. congruence.
        -- right; right; right; right. exists member, path.
           split; [now left|]. split; [exact Hpath'|].
           unfold result in He.
           destruct (getMostRecentWindow_Ok _ _ Hcur) as (Hc & Hcur' & _).
           destruct (bucketSize_Ok _ _ _ Hc Hn) as (Hn' & _).
           revert He. unfold append.
           rewrite (bind_Ok _ _ _ _ _ Hcur'), (bind_Ok _ _ _ _ _ Hn'),
             (bind_Ok _ _ _ _ _ Hp), Hgt, (bind_Ok _ _ _ _ _ Hpath), Hdate.
           cbn. congruence.
    + unfold result in He.
      rewrite (append_store_run s member cur n p Hcur Hn Hp' Hgt) in He. discriminate He.
  - assert (e = e0) as ->.
    { revert He Hcur. unfold result, append, bind.
      destruct (getMostRecentWindow s) as [[cur|e1] s1]; cbn; congruence. }
    destruct (mongoConnection (this s)) eqn:Hc.
    + right; left. revert Hcur. unfold result. rewrite (getMostRecentWindow_run s Hc).
      cbn [fst]. destruct (next _); congruence.
    + left. revert Hcur. unfold result. rewrite (getMostRecentWindow_disconnected s Hc).
      cbn [fst]. congruence.
Qed.

(** X18. When [publish] throws, the error is "Not connected" to the index
    collection, "No buckets present", "TimestampPath was not configured",
    the [RangeError] of an Invalid Date, or the error [extractDate] threw on
    a member of the batch for the configured timestamp path.  The errors of
    [bucketSize] (window not found) and of [addWindowToRoot] (no start date)
    are not thrown by [append] or [publish] themselves. *)
Theorem publish_throws (members : list Member.t) (s : State) (e : Error) :
  result (publish members) s = Throw e ->
  publish_error s members e.
Proof.
  revert s. induction members as [|member members IH]; intros s He; [discriminate He|].
  unfold result in He. cbn [publish] in He. unfold bind in He.
  destruct (append member s) as [[[]|e1] s1] eqn:Hrun.
  - pose proof (grows_append member s) as Hgrows. unfold after in Hgrows.
    rewrite Hrun in Hgrows. destruct Hgrows as (Hthis & _).
    destruct (IH s1 He) as [H|[H|[H|[H|(m & path & Hm & Hpath & Hdate)]]]];
      unfold publish_error; [tauto..|].
    right; right; right; right. exists m, path. split; [now right|]. split; [|exact Hdate].
    unfold result. now rewrite (timestampPath_Ok s1 path Hpath s (eq_sym Hthis)).
  - cbn [fst] in He. injection He as <-.
    assert (He1 : result (append member) s = Throw e1) by (unfold result; now rewrite Hrun).
    destruct (append_throws s member e1 He1)
      as [H|[H|[H|[H|(m & path & Hm & Hpath & Hdate)]]]];
      unfold publish_error; [tauto..|].
    right; right; right; right. exists m, path. split; [|now split].
    destruct Hm as [<-|[]]. now left.
Qed.

(** X19. On a connected ingestor [getMostRecentWindow] throws "No buckets
    present" exactly when the stream has no bucket; [publish] of a batch
    that is not empty then throws it and writes nothing. *)
Theorem publish_no_buckets (s : State) :
  mongoConnection (this s) = true ->
  (result getMostRecentWindow s = Throw NoBucketsPresent <-> buckets s = [])
  /\ (buckets s = [] ->
      forall member members,
        publish (member :: members) s = (Throw NoBucketsPresent, s)).
Proof.
  intros Hc.
  assert (Hsort : buckets s = [] <-> sort_start_desc (buckets s) = []).
  { split; [now intros ->|]. intros Hs. destruct (buckets s) as [|d l] eqn:Hb; [reflexivity|].
    assert (Hd : In d (sort_start_desc (d :: l))) by (apply In_sort_start_desc; now left).
    rewrite Hs in Hd. destruct Hd. }
  split.
  - unfold result. rewrite (getMostRecentWindow_run s Hc). cbn [fst]. rewrite Hsort.
    destruct (sort_start_desc (buckets s)) as [|d l]; cbn; split; congruence.
  - intros Hnone member members. cbn [publish]. unfold append.
    erewrite bind_Throw; [reflexivity|]. erewrite bind_Throw; [reflexivity|].
    rewrite (getMostRecentWindow_run s Hc), Hnone. reflexivity.
Qed.

(** X20. [addWindowToRoot] fails in this order and writes nothing when it
    does: on a start that is an Invalid Date it throws a [RangeError]; on a
    valid start without a configured timestamp path it throws
    "TimestampPath was not configured", connected or not; with both, on an
    ingestor that is not connected, it throws "Not connected".  On a
    connected ingestor whose stream has no root it succeeds and writes
    nothing. *)
Theorem addWindowToRoot_failures (s : State) (window : Window.t) :
  (Window.start window = Some None ->
   addWindowToRoot window s = (Throw RangeError, s))
  /\ (forall t,
         Window.start window = Some (Some t) ->
         result timestampPath s = Throw TimestampPathNotConfigured ->
         addWindowToRoot window s = (Throw TimestampPathNotConfigured, s))
  /\ (forall t path,
         Window.start window = Some (Some t) ->
         result timestampPath s = Ok path ->
         mongoConnection (this s) = false ->
         addWindowToRoot window s = (Throw (NotConnected "index"), s))
  /\ (forall t path,
         Window.start window = Some (Some t) ->
         result timestampPath s = Ok path ->
         mongoConnection (this s) = true ->
         the_bucket s root = None ->
         addWindowToRoot window s = (Ok tt, s)).
Proof.
  split; [|split; [|split]].
  - intros Hstart. unfold addWindowToRoot. now rewrite Hstart.
  - intros t Hstart Hpath. unfold addWindowToRoot. rewrite Hstart.
    unfold Date_toISOString. rewrite bind_ret.
    destruct (timestampPath_cases s) as [H|(path & H)].
    + now rewrite (bind_Throw _ _ _ _ _ H).
    + unfold result in Hpath. rewrite H in Hpath. discriminate Hpath.
  - intros t path Hstart Hpath Hc. unfold addWindowToRoot. rewrite Hstart.
    unfold Date_toISOString. rewrite bind_ret.
    rewrite (bind_Ok _ _ _ _ _ (timestampPath_Ok s path Hpath s eq_refl)).
    unfold addRelationsToBucket. rewrite bind_get_this. now apply index_disconnected.
  - intros t path Hstart Hpath Hc Hroot.
    rewrite (addWindowToRoot_run s window t path Hstart Hc
               (timestampPath_Ok s path Hpath s eq_refl)).
    unfold the_bucket in Hroot. now rewrite (update_first_absent _ _ _ Hroot), state_eta.
Qed.

End Throws.

Lemma publish_throws_witness :
  publish_error (P := JS.platform) Scenario.almost_full
    [Scenario.later; Scenario.undated; Scenario.same_instant]
    (ExtractDateError "Expected one dateTime literal.").
Proof.
  refine (publish_throws (P := JS.platform)
            [Scenario.later; Scenario.undated; Scenario.same_instant]
            Scenario.almost_full _ _).
  vm_compute. reflexivity.
Defined.

Lemma publish_no_buckets_witness :
  publish (P := JS.platform) [Scenario.later; Scenario.same_instant]
    (connected Scenario.fresh)
  = (Throw NoBucketsPresent, connected Scenario.fresh).
Proof.
  exact (proj2 (publish_no_buckets (P := JS.platform) (connected Scenario.fresh) eq_refl)
           eq_refl Scenario.later [Scenario.same_instant]).
Defined.

Lemma addWindowToRoot_failures_witness :
  addWindowToRoot (P := JS.platform) (Window.mk "w" None (Some None) None)
    Scenario.bootstrapped
  = (Throw RangeError, Scenario.bootstrapped)
  /\ addWindowToRoot (P := JS.platform) (Window.mk "w" None (Some (Some 0)) None)
       (connected Scenario.fresh)
     = (Throw TimestampPathNotConfigured, connected Scenario.fresh).
Proof.
  split.
  - exact (proj1 (addWindowToRoot_failures (P := JS.platform) Scenario.bootstrapped
                    (Window.mk "w" None (Some None) None)) eq_refl).
  - exact (proj1 (proj2 (addWindowToRoot_failures (P := JS.platform)
                           (connected Scenario.fresh)
                           (Window.mk "w" None (Some (Some 0)) None)))
             0 eq_refl eq_refl).
Defined.
